(** * gitreceive.py: a shallow embedding and its checked properties

    The script is Python 2 (print statement, [str] is a byte string, iterating
    [m.digest()] yields one-character strings).  A Python [str] is embedded as
    a Rocq [string], whose characters are 8-bit [ascii] values.

    Layout: Python string primitives, the file tree, the process world and
    its state-and-exception monad, the functions of [gitreceive.py] in source
    order, concrete instances of the library functions, then the theorems. *)

From Stdlib Require Import ZArith NArith Ascii String List Bool Lia.
From stdpp Require Import base option gmap strings.
Import ListNotations.
Local Open Scope string_scope.

(** ** Python string primitives *)

Module PyStr.

(** The characters [str.split()] and [str.strip()] treat as whitespace on a
    Python 2 byte string: space, \t, \n, \v, \f, \r. *)
Definition is_space (c : ascii) : bool :=
  let n := N_of_ascii c in
  (N.eqb n 32 || (N.leb 9 n && N.leb n 13))%bool.

Definition ascii_eqb (a b : ascii) : bool := Ascii.eqb a b.

Definition mem_char (c : ascii) (chars : string) : bool :=
  existsb (ascii_eqb c) (list_ascii_of_string chars).

Definition is_empty (s : string) : bool :=
  match s with EmptyString => true | String _ _ => false end.

(** [s.split()]: maximal runs of non-whitespace characters, in order. *)
Fixpoint split_ws_from (cur : string) (s : string) : list string :=
  match s with
  | EmptyString => if is_empty cur then [] else [cur]
  | String c s' =>
      if is_space c
      then (if is_empty cur then split_ws_from "" s'
            else cur :: split_ws_from "" s')
      else split_ws_from (cur ++ String c "") s'
  end.

Definition split_ws (s : string) : list string := split_ws_from "" s.

(** [s.lstrip(chars)], [s.rstrip(chars)], [s.strip(chars)]. *)
Fixpoint lstrip_by (p : ascii -> bool) (s : string) : string :=
  match s with
  | EmptyString => ""
  | String c s' => if p c then lstrip_by p s' else s
  end.

Fixpoint rstrip_by (p : ascii -> bool) (s : string) : string :=
  match s with
  | EmptyString => ""
  | String c s' =>
      let r := rstrip_by p s' in
      if (is_empty r && p c)%bool then "" else String c r
  end.

Definition strip_by (p : ascii -> bool) (s : string) : string :=
  rstrip_by p (lstrip_by p s).

Definition lstrip (chars s : string) : string :=
  lstrip_by (fun c => mem_char c chars) s.
Definition strip (chars s : string) : string :=
  strip_by (fun c => mem_char c chars) s.
(** [s.strip()] with no argument strips whitespace. *)
Definition strip_ws (s : string) : string := strip_by is_space s.

(** [s.startswith(p)]. *)
Fixpoint startswith (p s : string) : bool :=
  match p, s with
  | EmptyString, _ => true
  | String a p', String b s' => (ascii_eqb a b && startswith p' s')%bool
  | String _ _, EmptyString => false
  end.

Fixpoint drop (n : nat) (s : string) : string :=
  match n, s with
  | O, _ => s
  | S n', String _ s' => drop n' s'
  | S _, EmptyString => ""
  end.

(** [sub in s]: [sub] occurs in [s] as a contiguous substring. *)
Fixpoint contains (sub s : string) : bool :=
  (startswith sub s ||
   match s with
   | EmptyString => false
   | String _ s' => contains sub s'
   end)%bool.

(** [s.split(sep, 1)] for a non-empty [sep]: cut at the leftmost
    occurrence of [sep], or the whole string when there is none. *)
Fixpoint split1_from (before sep s : string) : list string :=
  if startswith sep s then [before; drop (String.length sep) s]
  else match s with
       | EmptyString => [before]
       | String c s' => split1_from (before ++ String c "") sep s'
       end.

Definition split1 (sep s : string) : list string := split1_from "" sep s.

(** [xs[-1]] on a non-empty list, with a default for the empty one. *)
Definition last_item (xs : list string) : string := List.last xs "".

(** [s.split(c)] for a one-character separator: always at least one piece,
    empty pieces kept. *)
Fixpoint split_char_from (cur : string) (c : ascii) (s : string) : list string :=
  match s with
  | EmptyString => [cur]
  | String a s' =>
      if ascii_eqb a c then cur :: split_char_from "" c s'
      else split_char_from (cur ++ String a "") c s'
  end.

Definition split_char (c : ascii) (s : string) : list string :=
  split_char_from "" c s.

(** [sep.join(xs)]. *)
Fixpoint join (sep : string) (xs : list string) : string :=
  match xs with
  | [] => ""
  | [x] => x
  | x :: rest => x ++ sep ++ join sep rest
  end.

(** The lines a file iterator yields: each keeps its newline, the last one
    may lack it, and no line is empty. *)
Fixpoint readlines_from (cur : string) (s : string) : list string :=
  match s with
  | EmptyString => if is_empty cur then [] else [cur]
  | String a s' =>
      if ascii_eqb a "010"%char
      then (cur ++ String a "") :: readlines_from "" s'
      else readlines_from (cur ++ String a "") s'
  end.

Definition readlines (s : string) : list string := readlines_from "" s.

(** ['%02x' % n] for [n] below 256. *)
Definition hexdigit (n : N) : ascii :=
  if (n <? 10)%N then ascii_of_N (48 + n) else ascii_of_N (87 + n).

Definition fmt_02x (n : N) : string :=
  String (hexdigit (n / 16)) (String (hexdigit (n mod 16)) "").

(** [ord(c)]. *)
Definition ord (c : ascii) : N := N_of_ascii c.

(** [s.endswith(c)] for a one-character [c]. *)
Fixpoint endswith_char (c : ascii) (s : string) : bool :=
  match s with
  | EmptyString => false
  | String a EmptyString => ascii_eqb a c
  | String _ s' => endswith_char c s'
  end.

(** [posixpath.join(a, b)]. *)
Definition path_join (a b : string) : string :=
  if startswith "/" b then b
  else if (is_empty a || endswith_char "/" a)%bool then a ++ b
  else a ++ "/" ++ b.

End PyStr.

(** ** The file tree

    Files carry their content and permission bits; a directory is a list of
    named entries.  Paths are resolved lexically, component by component. *)

Module FS.

#[warnings="-register-all"]
Inductive node : Type :=
  | File (content : string) (mode : Z)
  | Dir (entries : list (string * node)).

Definition path : Type := list string.

Fixpoint lookup_entry (name : string) (es : list (string * node)) : option node :=
  match es with
  | [] => None
  | (k, n) :: es' => if String.eqb k name then Some n else lookup_entry name es'
  end.

Fixpoint set_entry (name : string) (n : node) (es : list (string * node))
  : list (string * node) :=
  match es with
  | [] => [(name, n)]
  | (k, m) :: es' =>
      if String.eqb k name then (k, n) :: es' else (k, m) :: set_entry name n es'
  end.

Fixpoint lookup (p : path) (n : node) : option node :=
  match p with
  | [] => Some n
  | c :: p' =>
      match n with
      | File _ _ => None
      | Dir es =>
          match lookup_entry c es with
          | Some child => lookup p' child
          | None => None
          end
      end
  end.

(** Replace what is at [p] by [f] of it; [f] sees [None] for a missing last
    component.  [None] is the failure of the system call: a missing or
    non-directory ancestor, or [f] refusing. *)
Fixpoint alter (f : option node -> option node) (p : path) (n : node)
  : option node :=
  match p with
  | [] => f (Some n)
  | c :: p' =>
      match n with
      | File _ _ => None
      | Dir es =>
          match lookup_entry c es with
          | Some child =>
              match alter f p' child with
              | Some child' => Some (Dir (set_entry c child' es))
              | None => None
              end
          | None =>
              match p' with
              | [] =>
                  match f None with
                  | Some n' => Some (Dir (set_entry c n' es))
                  | None => None
                  end
              | _ :: _ => None
              end
          end
      end
  end.

Definition is_dir (p : path) (n : node) : bool :=
  match lookup p n with Some (Dir _) => true | _ => false end.

Definition exists_ (p : path) (n : node) : bool :=
  match lookup p n with Some _ => true | None => false end.

Definition read (p : path) (n : node) : option string :=
  match lookup p n with Some (File c _) => Some c | _ => None end.

(** [open(p, 'w')], [write(data)], [close()]: a new file gets mode 0644. *)
Definition put_file (data : string) (o : option node) : option node :=
  match o with
  | None => Some (File data 420)
  | Some (File _ m) => Some (File data m)
  | Some (Dir _) => None
  end.

(** [open(p, 'a')], [write(data)], [close()]. *)
Definition append_file (data : string) (o : option node) : option node :=
  match o with
  | None => Some (File data 420)
  | Some (File c m) => Some (File (c ++ data) m)
  | Some (Dir _) => None
  end.

(** [os.chmod(p, mode)]; directory permission bits are not tracked. *)
Definition set_mode (mode : Z) (o : option node) : option node :=
  match o with
  | None => None
  | Some (File c _) => Some (File c mode)
  | Some (Dir es) => Some (Dir es)
  end.

(** Lexical resolution of a path string.  [stack] holds the components
    seen so far, innermost first; [cur] is the component being read. *)
Definition push (cur : string) (stack : list string) : list string :=
  if (PyStr.is_empty cur || String.eqb cur ".")%bool then stack
  else if String.eqb cur ".." then List.tl stack
  else cur :: stack.

Fixpoint feed (stack : list string) (cur : string) (s : string)
  : list string * string :=
  match s with
  | EmptyString => (stack, cur)
  | String c s' =>
      if PyStr.ascii_eqb c "/" then feed (push cur stack) "" s'
      else feed stack (cur ++ String c "") s'
  end.

Definition resolve_from (stack : list string) (cur : string) (s : string) : path :=
  let '(stack', cur') := feed stack cur s in List.rev (push cur' stack').

Definition resolve (cwd : path) (s : string) : path :=
  if PyStr.startswith "/" s then resolve_from [] "" s
  else resolve_from (List.rev cwd) "" s.

(** A path that ends with a slash, or whose last component is [.] or [..],
    can only name a directory: the system calls fail with [ENOTDIR] when a
    regular file is there. *)
Definition names_dir (s : string) : bool :=
  let cur := (feed [] "" s).2 in
  (PyStr.is_empty cur || String.eqb cur "." || String.eqb cur "..")%bool.

End FS.

(** ** The process and its world *)

Inductive exn : Type :=
  | KeyError (key : string)
  | NameError (name : string)
  | TypeError
  | IOError (path : string)
  | OSError (path : string)
  | IndexError
  | SystemExit (code : Z).

Inductive result (A : Type) : Type :=
  | Ok (a : A)
  | Raise (e : exn).
Arguments Ok {A} a.
Arguments Raise {A} e.

(** What a function of the script returns: [None] (also when it falls off
    its end) or [False]. *)
Inductive retval : Type := RNone | RFalse.

Record World : Type := mkWorld {
  this_script : string;               (* os.path.abspath(__file__) *)
  fs : FS.node;                       (* the file tree, from the root *)
  environ : gmap string string;       (* os.environ *)
  cwd : FS.path;                      (* the working directory *)
  passwd : gmap string string;        (* account name to home directory *)
  stdin : string;                     (* what sys.stdin will deliver *)
  stdout : list string;               (* one entry per print *)
  calls : list (list string)          (* argv of every program started *)
}.

Definition set_fs (n : FS.node) (w : World) : World :=
  mkWorld (this_script w) n (environ w) (cwd w) (passwd w) (stdin w) (stdout w) (calls w).
Definition set_environ (e : gmap string string) (w : World) : World :=
  mkWorld (this_script w) (fs w) e (cwd w) (passwd w) (stdin w) (stdout w) (calls w).
Definition set_cwd (c : FS.path) (w : World) : World :=
  mkWorld (this_script w) (fs w) (environ w) c (passwd w) (stdin w) (stdout w) (calls w).
Definition add_stdout (s : string) (w : World) : World :=
  mkWorld (this_script w) (fs w) (environ w) (cwd w) (passwd w) (stdin w) (stdout w ++ [s]) (calls w).
Definition add_call (argv : list string) (w : World) : World :=
  mkWorld (this_script w) (fs w) (environ w) (cwd w) (passwd w) (stdin w) (stdout w) (calls w ++ [argv]).

(** State and exceptions: the world reached when an exception is raised is
    kept, since what was written before stays written. *)
Definition M (A : Type) : Type := World -> result A * World.

#[global] Instance M_ret : MRet M := fun A a w => (Ok a, w).
#[global] Instance M_bind : MBind M := fun A B f m w =>
  match m w with
  | (Ok a, w') => f a w'
  | (Raise e, w') => (Raise e, w')
  end.

Definition raise {A : Type} (e : exn) : M A := fun w => (Raise e, w).

(** [try: m except: h] *)
Definition try_except {A : Type} (m : M A) (h : M A) : M A := fun w =>
  match m w with
  | (Ok a, w') => (Ok a, w')
  | (Raise _, w') => h w'
  end.

Definition print (s : string) : M unit := fun w => (Ok tt, add_stdout s w).

(** [os.environ[key]] and [os.environ[key] = value]. *)
Definition environ_get (key : string) : M string := fun w =>
  match environ w !! key with
  | Some v => (Ok v, w)
  | None => (Raise (KeyError key), w)
  end.

Definition environ_set (key value : string) : M unit := fun w =>
  (Ok tt, set_environ (<[key := value]> (environ w)) w).

(** [os.environ.get(key, d)] *)
Definition environ_get_default (key d : string) : M string := fun w =>
  (Ok (default d (environ w !! key)), w).

(** [pwd.getpwnam(user)[5]] *)
Definition getpwnam_dir (user : string) : M string := fun w =>
  match passwd w !! user with
  | Some h => (Ok h, w)
  | None => (Raise (KeyError user), w)
  end.

Definition locate (w : World) (p : string) : FS.path := FS.resolve (cwd w) p.

(** Whether [stat(p)] succeeds: the empty path names nothing, and a path
    that can only name a directory names nothing where a regular file is. *)
Definition present (p : string) (w : World) : bool :=
  (negb (PyStr.is_empty p)
   && (if FS.names_dir p then FS.is_dir (locate w p) (fs w)
       else FS.exists_ (locate w p) (fs w)))%bool.

(** [os.path.exists(p)] *)
Definition path_exists (p : string) : M bool := fun w => (Ok (present p w), w).

Definition fs_op (f : option FS.node -> option FS.node) (e : exn) (p : string)
  : M unit := fun w =>
  if PyStr.is_empty p then (Raise e, w)
  else match FS.alter f (locate w p) (fs w) with
       | Some n => (Ok tt, set_fs n w)
       | None => (Raise e, w)
       end.

Definition write_file (p data : string) : M unit :=
  fs_op (FS.put_file data) (IOError p) p.
Definition append_to_file (p data : string) : M unit :=
  fs_op (FS.append_file data) (IOError p) p.
Definition chmod (p : string) (mode : Z) : M unit :=
  fs_op (FS.set_mode mode) (OSError p) p.

(** [os.chdir(p)] *)
Definition chdir (p : string) : M unit := fun w =>
  if (negb (PyStr.is_empty p) && FS.is_dir (locate w p) (fs w))%bool
  then (Ok tt, set_cwd (locate w p) w)
  else (Raise (OSError p), w).

(** What lies outside the script: the two library functions it calls and
    the programs it starts.  The programs are taken to be installed, so that
    starting one does not raise; the script discards every exit status. *)
Record Externals : Type := mkExternals {
  (* base64.b64decode: [None] is its TypeError *)
  b64decode : string -> option string;
  (* hashlib.md5(data).digest() *)
  md5_digest : string -> string;
  (* subprocess.call(argv): the file tree the program leaves behind *)
  spawn : list string -> World -> FS.node;
  (* Popen(a, stdout=PIPE) piped into Popen(b, stdout=PIPE), then
     communicate(): what [b] wrote and the file tree left behind *)
  pipeline : list string -> list string -> World -> string * FS.node;
  (* what [setup_git_user] and [setup_receiver_script] do to the host for a
     home directory and an account: useradd, makedirs, touch, chown and the
     template receiver script; accounts and file ownership are not part of
     the world above *)
  provision : string -> string -> M unit
}.

(** ** gitreceive.py *)

(** A name bound neither in the function, nor at module level, nor among
    the builtins. *)
Definition unbound_name (x : string) : M string := raise (NameError x).

(** [xs[i]] *)
Definition item (xs : list string) (i : nat) : M string :=
  match nth_error xs i with
  | Some x => mret x
  | None => raise IndexError
  end.

(** [not v] for [v] a string or [None]. *)
Definition falsy (v : option string) : bool :=
  match v with
  | None => true
  | Some s => PyStr.is_empty s
  end.

(** [len(xs) > i and xs[i] or d] *)
Definition item_or (xs : list string) (i : nat) (d : option string) : option string :=
  match nth_error xs i with
  | Some x => if PyStr.is_empty x then d else Some x
  | None => d
  end.

(** [os.path.abspath(__file__)] and the lines of [sys.stdin]. *)
Definition abspath_file : M string := fun w => (Ok (this_script w), w).
Definition stdin_lines : M (list string) := fun w =>
  (Ok (PyStr.readlines (stdin w)), w).

Definition dquote : string := String "034" "".
Definition newline : string := String "010" "".

Section GitReceive.

Variable E : Externals.

(** [subprocess.call(argv)] *)
Definition subprocess_call (argv : list string) : M unit := fun w =>
  (Ok tt, set_fs (spawn E argv w) (add_call argv w)).

(** [p1 = Popen(a1, stdout=PIPE)], [p2 = Popen(a2, stdin=p1.stdout,
    stdout=PIPE)], [p1.stdout.close()], [p2.communicate()[0]], for two
    programs that start.  The [OSError] of a [Popen] whose program is
    missing or not executable is not part of the model. *)
Definition popen_pipe (a1 a2 : list string) : M string := fun w =>
  let '(out, n) := pipeline E a1 a2 w in
  (Ok out, set_fs n (add_call a2 (add_call a1 w))).

(** The module-level setting; the script ships with [False]. *)
Variable RUN_ONLY_ON_MASTER_BRANCH : bool.

Definition generate_fingerprint (key : string) : M string :=
  match b64decode E key with
  | None => raise TypeError
  | Some data =>
      mret (PyStr.join ":"
              (map (fun x => PyStr.fmt_02x (PyStr.ord x))
                   (list_ascii_of_string (md5_digest E data))))
  end.

Definition install_authorized_key (line : string) (name : option string)
    (home_dir git_user : string) : M retval :=
  this_script ← abspath_file;
  let parts := PyStr.split_ws line in
  if (length parts <? 2)%nat then
    key ← unbound_name "key";
    print ("Invalid key " ++ key);;
    mret RFalse
  else
    payload ← item parts 1;
    fingerprint ← generate_fingerprint payload;
    let name :=
      if falsy name
      then default fingerprint (item_or parts 2 (Some fingerprint))
      else default "" name in
    let forced_command :=
      "GITUSER=" ++ git_user ++ " " ++ this_script ++ " run " ++ name
        ++ " " ++ fingerprint in
    let key_options :=
      "command=" ++ dquote ++ forced_command ++ dquote
        ++ ",no-agent-forwarding,no-pty,no-user-rc,no-X11-forwarding,no-port-forwarding "
        ++ PyStr.strip_ws line ++ newline in
    append_to_file
      (PyStr.path_join (PyStr.path_join home_dir ".ssh") "authorized_keys")
      key_options;;
    print fingerprint;;
    mret RNone.

Definition parse_repo_from_ssh_command (cmd : string) : option string :=
  match PyStr.split_ws cmd with
  | _ :: tok :: _ =>
      let path := PyStr.lstrip "/" (PyStr.strip dquote (PyStr.strip "'" tok)) in
      if PyStr.contains ".." path then None else Some path
  | _ => None
  end.

Definition ensure_bare_repo (repo_path : string) : M unit :=
  present ← path_exists repo_path;
  if negb present
  then subprocess_call ["git"; "init"; "--bare"; repo_path]
  else mret tt.

Definition hook_script (this_script : string) : string :=
  "#!/bin/bash" ++ newline ++ "cat | " ++ this_script ++ " hook" ++ newline.

Definition ensure_prereceive_hook (repo_path home_dir : string) : M unit :=
  this_script ← abspath_file;
  let hook_path := PyStr.path_join (PyStr.path_join repo_path "hooks") "pre-receive" in
  write_file hook_path (hook_script this_script);;
  chmod hook_path 493.

(** [l.split('remote: ', 1)[-1]] *)
Definition relay_line (l : string) : string :=
  PyStr.last_item (PyStr.split1 "remote: " l).

(** The inner loop of [trigger_receiver]:
    [for l in output.split('\n'): print(l.split('remote: ', 1)[-1])]. *)
Fixpoint relay (ls : list string) : M unit :=
  match ls with
  | [] => mret tt
  | l :: ls' =>
      print (relay_line l);;
      relay ls'
  end.

(** The outer loop of [trigger_receiver], over the lines of [sys.stdin]. *)
Fixpoint trigger_receiver_lines (lines : list string)
    (repo user fingerprint home_dir : string) : M unit :=
  match lines with
  | [] => mret tt
  | line :: rest =>
      (match PyStr.split_ws line with
       | oldrev :: newrev :: refname :: _ =>
           if (String.eqb refname "refs/heads/master"
               || negb RUN_ONLY_ON_MASTER_BRANCH)%bool
           then
             output ← popen_pipe
                        ["git"; "archive"; newrev]
                        [PyStr.path_join home_dir "receiver";
                         repo; newrev; user; fingerprint];
             relay (PyStr.split_char "010" output)
           else mret tt
       | _ => mret tt
       end);;
      trigger_receiver_lines rest repo user fingerprint home_dir
  end.

Definition trigger_receiver (repo user fingerprint home_dir : string) : M unit :=
  lines ← stdin_lines;
  trigger_receiver_lines lines repo user fingerprint home_dir.

Definition init (argv : list string) (git_user home_dir : string) : M retval :=
  provision E home_dir git_user;;
  print ("Created receiver script in " ++ home_dir ++ " for user '"
           ++ git_user ++ "'.");;
  mret RNone.

(** The loop of [upload_key] over the lines of [sys.stdin]. *)
Fixpoint upload_key_lines (lines : list string) (name : option string)
    (home_dir git_user : string) : M unit :=
  match lines with
  | [] => mret tt
  | line :: rest =>
      (if (negb (PyStr.is_empty line) && negb (PyStr.startswith "#" line))%bool
       then install_authorized_key line name home_dir git_user;; mret tt
       else mret tt);;
      upload_key_lines rest name home_dir git_user
  end.

Definition upload_key (argv : list string) (git_user home_dir : string) : M retval :=
  let name := item_or argv 2 None in
  lines ← stdin_lines;
  upload_key_lines lines name home_dir git_user;;
  mret RNone.

Definition run (argv : list string) (git_user home_dir : string) : M retval :=
  if (length argv <? 4)%nat then
    print "ERROR: Missing arguments";;
    mret RFalse
  else
    user ← item argv 2;
    fingerprint ← item argv 3;
    original ← environ_get "SSH_ORIGINAL_COMMAND";
    let repo := parse_repo_from_ssh_command original in
    if falsy repo then
      print "ERROR: Arbitrary ssh prohibited!";;
      mret RFalse
    else
      let repo := default "" repo in
      let repo_path := PyStr.path_join home_dir repo in
      ensure_bare_repo repo_path;;
      ensure_prereceive_hook repo_path home_dir;;
      environ_set "RECEIVE_USER" user;;
      environ_set "RECEIVE_FINGERPRINT" fingerprint;;
      environ_set "RECEIVE_REPO" repo;;
      chdir home_dir;;
      original ← environ_get "SSH_ORIGINAL_COMMAND";
      cmd ← item (PyStr.split_ws original) 0;
      subprocess_call ["git-shell"; "-c"; cmd ++ " '" ++ repo ++ "'"];;
      mret RNone.

Definition hook (argv : list string) (git_user home_dir : string) : M retval :=
  repo ← environ_get "RECEIVE_REPO";
  user ← environ_get "RECEIVE_USER";
  fingerprint ← environ_get "RECEIVE_FINGERPRINT";
  trigger_receiver repo user fingerprint home_dir;;
  mret RNone.

Definition command : Type := list string -> string -> string -> M retval.

(** [COMMANDS.get(name)] *)
Definition COMMANDS (name : string) : option command :=
  if String.eqb name "init" then Some init
  else if String.eqb name "upload-key" then Some upload_key
  else if String.eqb name "run" then Some run
  else if String.eqb name "hook" then Some hook
  else None.

Definition main (argv : list string) : M unit :=
  git_user ← environ_get_default "GITUSER" "git";
  home_dir ← try_except (getpwnam_dir git_user)
                        (mret (PyStr.path_join "/home" git_user));
  let cmd :=
    match nth_error argv 1 with
    | Some a => COMMANDS a
    | None => None
    end in
  match cmd with
  | Some c => c argv git_user home_dir;; mret tt
  | None =>
      a0 ← item argv 0;
      print ("Usage: " ++ a0 ++ " <command> [options]");;
      raise (SystemExit 2)
  end.

End GitReceive.

(** Line 11 of the script: the setting as shipped. *)
Definition RUN_ONLY_ON_MASTER_BRANCH : bool := false.

(** The two programs [trigger_receiver] starts for one ref update, and the
    world once their output has been relayed. *)
Definition archive_argv (newrev : string) : list string :=
  ["git"; "archive"; newrev].
Definition receiver_argv (home_dir repo newrev user fingerprint : string)
  : list string :=
  [PyStr.path_join home_dir "receiver"; repo; newrev; user; fingerprint].

Definition prints (ls : list string) (w : World) : World :=
  fold_left (fun w l => add_stdout l w) ls w.

Definition handled (E : Externals) (repo user fingerprint home_dir newrev : string)
    (w : World) : World :=
  let a1 := archive_argv newrev in
  let a2 := receiver_argv home_dir repo newrev user fingerprint in
  prints (map relay_line (PyStr.split_char "010" (pipeline E a1 a2 w).1))
         (set_fs (pipeline E a1 a2 w).2 (add_call a2 (add_call a1 w))).

(** The status the interpreter exits with after running [main(sys.argv)] at
    module level: 0 when it returns, the code of [sys.exit], 1 after any
    other uncaught exception. *)
Definition exit_status {A : Type} (r : result A) : Z :=
  match r with
  | Ok _ => 0
  | Raise (SystemExit code) => code
  | Raise _ => 1
  end.

(** ** Concrete library functions and a concrete host

    [hashlib.md5] after RFC 1321 and [base64.b64decode] after CPython 2.7's
    [binascii.a2b_base64], on which the embedding can be run.  The theorems
    below hold for every [Externals]; these instances serve to evaluate the
    script on concrete inputs. *)

Module Md5.
Local Open Scope N_scope.

Definition mask32 : N := 4294967295.
Definition add32 (a b : N) : N := N.land (a + b) mask32.
Definition not32 (a : N) : N := N.lxor a mask32.
Definition rotl32 (x c : N) : N :=
  N.land (N.lor (N.shiftl x c) (N.shiftr x (32 - c))) mask32.

Definition K : list N :=
  [3614090360; 3905402710; 606105819; 3250441966; 4118548399; 1200080426;
   2821735955; 4249261313; 1770035416; 2336552879; 4294925233; 2304563134;
   1804603682; 4254626195; 2792965006; 1236535329; 4129170786; 3225465664;
   643717713; 3921069994; 3593408605; 38016083; 3634488961; 3889429448;
   568446438; 3275163606; 4107603335; 1163531501; 2850285829; 4243563512;
   1735328473; 2368359562; 4294588738; 2272392833; 1839030562; 4259657740;
   2763975236; 1272893353; 4139469664; 3200236656; 681279174; 3936430074;
   3572445317; 76029189; 3654602809; 3873151461; 530742520; 3299628645;
   4096336452; 1126891415; 2878612391; 4237533241; 1700485571; 2399980690;
   4293915773; 2240044497; 1873313359; 4264355552; 2734768916; 1309151649;
   4149444226; 3174756917; 718787259; 3951481745].

Definition shifts : list N :=
  [7; 12; 17; 22; 7; 12; 17; 22; 7; 12; 17; 22; 7; 12; 17; 22;
   5; 9; 14; 20; 5; 9; 14; 20; 5; 9; 14; 20; 5; 9; 14; 20;
   4; 11; 16; 23; 4; 11; 16; 23; 4; 11; 16; 23; 4; 11; 16; 23;
   6; 10; 15; 21; 6; 10; 15; 21; 6; 10; 15; 21; 6; 10; 15; 21].

Definition state : Type := (N * N * N * N)%type.

Definition step (m : list N) (st : state) (i : nat) : state :=
  let '(a, b, c, d) := st in
  let j := N.of_nat i in
  let '(f, g) :=
    if j <? 16 then (N.lor (N.land b c) (N.land (not32 b) d), j)
    else if j <? 32 then
      (N.lor (N.land d b) (N.land (not32 d) c), (5 * j + 1) mod 16)
    else if j <? 48 then (N.lxor b (N.lxor c d), (3 * j + 5) mod 16)
    else (N.lxor c (N.lor b (not32 d)), (7 * j) mod 16) in
  let f' := add32 (add32 (add32 f a) (nth i K 0)) (nth (N.to_nat g) m 0) in
  (d, add32 b (rotl32 f' (nth i shifts 0)), b, c).

Fixpoint words_le (bs : list N) : list N :=
  match bs with
  | b0 :: b1 :: b2 :: b3 :: rest =>
      (b0 + N.shiftl b1 8 + N.shiftl b2 16 + N.shiftl b3 24) :: words_le rest
  | _ => []
  end.

Definition block (st : state) (bs : list N) : state :=
  let '(a0, b0, c0, d0) := st in
  let '(a, b, c, d) := fold_left (step (words_le bs)) (seq 0 64) st in
  (add32 a0 a, add32 b0 b, add32 c0 c, add32 d0 d).

Fixpoint blocks (n : nat) (st : state) (bs : list N) : state :=
  match n with
  | O => st
  | S n' => blocks n' (block st (firstn 64 bs)) (skipn 64 bs)
  end.

Definition bytes_le (count : nat) (x : N) : list N :=
  map (fun k => N.land (N.shiftr x (8 * N.of_nat k)) 255) (seq 0 count).

Definition pad (bs : list N) : list N :=
  let len := N.of_nat (length bs) in
  let zeros := N.to_nat ((119 - len mod 64) mod 64) in
  bs ++ [128] ++ repeat 0 zeros ++ bytes_le 8 (N.land (8 * len) 18446744073709551615).

Definition digest_bytes (bs : list N) : list N :=
  let p := pad bs in
  let '(a, b, c, d) :=
    blocks (length p / 64) (1732584193, 4023233417, 2562383102, 271733878) p in
  bytes_le 4 a ++ bytes_le 4 b ++ bytes_le 4 c ++ bytes_le 4 d.

Definition digest (data : string) : string :=
  string_of_list_ascii
    (map ascii_of_N (digest_bytes (map N_of_ascii (list_ascii_of_string data)))).

End Md5.

Module Base64.
Local Open Scope N_scope.

(** The six-bit value of a character of the alphabet. *)
Definition value (c : ascii) : option N :=
  let n := N_of_ascii c in
  if (65 <=? n) && (n <=? 90) then Some (n - 65)
  else if (97 <=? n) && (n <=? 122) then Some (n - 71)
  else if (48 <=? n) && (n <=? 57) then Some (n + 4)
  else if n =? 43 then Some 62
  else if n =? 47 then Some 63
  else None.

Definition is_pad (c : ascii) : bool := N_of_ascii c =? 61.

(** The first alphabet or padding character of [s], if any. *)
Fixpoint next_valid (s : list ascii) : option ascii :=
  match s with
  | [] => None
  | c :: s' => if is_pad c || bool_decide (is_Some (value c)) then Some c
               else next_valid s'
  end.

(** One pass over the input with the quad position, the pending bits and
    their count; a padding character ends the data once two characters of
    the quad were read (and, after exactly two, only when another padding
    character follows); everything outside the alphabet is skipped.  [None]
    is the "Incorrect padding" error. *)
Fixpoint decode_from (quad left bits : N) (s : list ascii) : option (list ascii) :=
  match s with
  | [] => if bits =? 0 then Some [] else None
  | c :: s' =>
      if is_pad c then
        if (quad <? 2) ||
           ((quad =? 2) &&
            negb (match next_valid s' with Some p => is_pad p | None => false end))
        then decode_from quad left bits s'
        else Some []
      else
        match value c with
        | None => decode_from quad left bits s'
        | Some v =>
            let quad' := (quad + 1) mod 4 in
            let left' := N.lor (N.shiftl left 6) v in
            let bits' := bits + 6 in
            if 8 <=? bits' then
              let bits'' := bits' - 8 in
              match decode_from quad' (N.land left' (N.shiftl 1 bits'' - 1)) bits'' s' with
              | Some out => Some (ascii_of_N (N.land (N.shiftr left' bits'') 255) :: out)
              | None => None
              end
            else decode_from quad' left' bits' s'
        end
  end.

Definition decode (s : string) : option string :=
  match decode_from 0 0 0 (list_ascii_of_string s) with
  | Some out => Some (string_of_list_ascii out)
  | None => None
  end.

End Base64.

(** A host on which the script can be run: [git init --bare] makes the
    repository directory with its [hooks], [objects] and [refs]
    subdirectories and a [HEAD] file; the git shell and the receiver leave
    the file tree alone; the receiver writes a fixed text. *)

Module Host.

Fixpoint mkdirs (p : FS.path) (n : FS.node) : option FS.node :=
  match p with
  | [] => match n with FS.Dir _ => Some n | FS.File _ _ => None end
  | c :: p' =>
      match n with
      | FS.File _ _ => None
      | FS.Dir es =>
          match mkdirs p' (default (FS.Dir []) (FS.lookup_entry c es)) with
          | Some child => Some (FS.Dir (FS.set_entry c child es))
          | None => None
          end
      end
  end.

Definition git_init_bare (p : FS.path) (n : FS.node) : FS.node :=
  default n
    (n1 ← mkdirs (p ++ ["hooks"])%list n;
     n2 ← mkdirs (p ++ ["objects"])%list n1;
     n3 ← mkdirs (p ++ ["refs"])%list n2;
     FS.alter (FS.put_file ("ref: refs/heads/master" ++ newline)) (p ++ ["HEAD"])%list n3).

Definition spawn (argv : list string) (w : World) : FS.node :=
  match argv with
  | [a; b; c; p] =>
      if (String.eqb a "git" && String.eqb b "init" && String.eqb c "--bare")%bool
      then git_init_bare (locate w p) (fs w)
      else fs w
  | _ => fs w
  end.

Definition pipeline (out : string) (a1 a2 : list string) (w : World)
  : string * FS.node := (out, fs w).

(** The host whose receiver writes [out]. *)
Definition externals_with (out : string) : Externals :=
  mkExternals Base64.decode Md5.digest spawn (pipeline out) (fun _ _ => mret tt).

Definition externals : Externals :=
  externals_with ("remote: Building..." ++ newline).

Definition root : FS.node :=
  FS.Dir [("home", FS.Dir [("git", FS.Dir [(".ssh", FS.Dir [])])])].

Definition world (env : list (string * string)) (input : string) : World :=
  mkWorld "/usr/bin/gitreceive" root (list_to_map env) []
          (list_to_map [("git", "/home/git")]) input [] [].

End Host.

(** The repository path as the specification words it: surrounding quote
    characters stripped, then a single leading path separator. *)
Definition spec_repo_path (tok : string) : string :=
  let t := PyStr.strip dquote (PyStr.strip "'" tok) in
  if PyStr.startswith "/" t then PyStr.drop 1 t else t.

(** The relayed line as the specification words it: the marker stripped
    when the line starts with it, the line unchanged otherwise. *)
Definition spec_relay_line (l : string) : string :=
  if PyStr.startswith "remote: " l then PyStr.drop 8 l else l.

(** Reading a fingerprint back: a lowercase hexadecimal digit and its
    value, and a two-digit pair standing for a byte. *)
Definition is_lower_hex (c : ascii) : bool :=
  let n := N_of_ascii c in
  ((48 <=? n) && (n <=? 57) || (97 <=? n) && (n <=? 102))%N.

Definition hex_value (c : ascii) : N :=
  let n := N_of_ascii c in
  if (n <=? 57)%N then (n - 48)%N else (n - 87)%N.

Definition pair_of_byte (b : ascii) (p : string) : Prop :=
  exists h l,
    p = String h (String l "") /\
    is_lower_hex h = true /\ is_lower_hex l = true /\
    (16 * hex_value h + hex_value l)%N = N_of_ascii b.

(** The fingerprint of a digest, as [generate_fingerprint] renders it. *)
Definition render (digest : string) : string :=
  PyStr.join ":" (map (fun x => PyStr.fmt_02x (PyStr.ord x))
                      (list_ascii_of_string digest)).

(** A path component that resolution takes as it is. *)
Definition plain (name : string) : Prop :=
  PyStr.startswith "/" name = false /\
  (forall st, FS.feed st "" name = (st, name)) /\
  (forall st, FS.push name st = name :: st).

(** The key store of a home directory, and the fingerprint a key line gets
    when its second field decodes. *)
Definition key_store (home_dir : string) : string :=
  PyStr.path_join (PyStr.path_join home_dir ".ssh") "authorized_keys".

Definition key_fingerprint (E : Externals) (line : string) : option string :=
  match PyStr.split_ws line with
  | _ :: payload :: _ =>
      match b64decode E payload with
      | Some data => Some (render (md5_digest E data))
      | None => None
      end
  | _ => None
  end.

(** The entry [install_authorized_key] writes for a key line. *)
Definition forced_entry (git_user script who fp line : string) : string :=
  "command=" ++ dquote
    ++ ("GITUSER=" ++ git_user ++ " " ++ script ++ " run " ++ who ++ " " ++ fp)
    ++ dquote
    ++ ",no-agent-forwarding,no-pty,no-user-rc,no-X11-forwarding,no-port-forwarding "
    ++ PyStr.strip_ws line ++ newline.

(** The account [main] works for and the home directory it passes on. *)
Definition account (w : World) : string :=
  default "git" (environ w !! "GITUSER").

Definition home_of (w : World) : string :=
  match passwd w !! account w with
  | Some h => h
  | None => PyStr.path_join "/home" (account w)
  end.

(** The new revision of a pre-receive line that triggers the receiver. *)
Definition triggered (flag : bool) (line : string) : option string :=
  match PyStr.split_ws line with
  | _ :: newrev :: refname :: _ =>
      if (String.eqb refname "refs/heads/master" || negb flag)%bool
      then Some newrev else None
  | _ => None
  end.


(** Reading a fingerprint back into the digest it was rendered from. *)
Definition unhex_pair (p : string) : ascii :=
  match p with
  | String h (String l _) => ascii_of_N (16 * hex_value h + hex_value l)
  | _ => Ascii.zero
  end.

Definition unrender (fp : string) : string :=
  if PyStr.is_empty fp then ""
  else string_of_list_ascii (map unhex_pair (PyStr.split_char ":" fp)).

(** ** Provisioning: [chown], [touch], [setup_git_user], [setup_receiver_script]

    What these need from outside the script: [glob.glob] and [os.makedirs]
    from the library, and what the [useradd] program does to the file tree
    and to the accounts.  Time stamps and file ownership are not part of the
    world: [os.utime] and [os.chown] only fail or succeed. *)
Record Admin : Type := mkAdmin {
  (* glob.glob(expression) *)
  glob : string -> World -> list string;
  (* os.makedirs(path) *)
  makedirs : string -> M unit;
  (* the file tree and the accounts a program leaves behind *)
  program : list string -> World -> FS.node * gmap string string
}.

Definition set_passwd (p : gmap string string) (w : World) : World :=
  mkWorld (this_script w) (fs w) (environ w) (cwd w) p (stdin w) (stdout w) (calls w).

(** [os.utime(filename, None)] *)
Definition os_utime (filename : string) : M unit := fun w =>
  if (negb (PyStr.is_empty filename) && FS.exists_ (locate w filename) (fs w))%bool
  then (Ok tt, w) else (Raise (OSError filename), w).

(** [os.chown(file, uid, -1)] *)
Definition os_chown (file uid : string) : M unit := fun w =>
  if (negb (PyStr.is_empty file) && FS.exists_ (locate w file) (fs w))%bool
  then (Ok tt, w) else (Raise (OSError file), w).

(** [pwd.getpwnam(username).pw_uid]; the account name stands for its uid. *)
Definition getpwnam_uid (username : string) : M string := fun w =>
  match passwd w !! username with
  | Some _ => (Ok username, w)
  | None => (Raise (KeyError username), w)
  end.

(** The template that [setup_receiver_script] writes. *)
Definition receiver_template : string :=
  "#!/bin/bash" ++ newline
  ++ "#URL=http://requestb.in/rlh4znrl" ++ newline
  ++ "#echo " ++ dquote ++ "----> Posting to \$URL ..." ++ dquote ++ newline
  ++ "#curl \" ++ newline
  ++ "#  -X 'POST' \" ++ newline
  ++ "#  -F " ++ dquote ++ "repository=\$1" ++ dquote ++ " \" ++ newline
  ++ "#  -F " ++ dquote ++ "revision=\$2" ++ dquote ++ " \" ++ newline
  ++ "#  -F " ++ dquote ++ "username=\$3" ++ dquote ++ " \" ++ newline
  ++ "#  -F " ++ dquote ++ "fingerprint=\$4" ++ dquote ++ " \" ++ newline
  ++ "#  -F contents=@- \" ++ newline
  ++ "#  --silent \$URL" ++ newline.

Section Provisioning.

Variable A : Admin.

(** [subprocess.call(argv)] of a program that may also change the accounts. *)
Definition admin_call (argv : list string) : M unit := fun w =>
  (Ok tt, set_passwd (program A argv w).2 (set_fs (program A argv w).1 (add_call argv w))).

(** The loop of [chown]. *)
Fixpoint chown_files (files : list string) (uid : string) : M unit :=
  match files with
  | [] => mret tt
  | file :: rest => os_chown file uid;; chown_files rest uid
  end.

Definition glob_glob (expression : string) : M (list string) := fun w =>
  (Ok (glob A expression w), w).

Definition chown (glob_expression username : string) : M unit :=
  uid ← getpwnam_uid username;
  files ← glob_glob glob_expression;
  chown_files files uid.

Definition touch (filename : string) : M unit :=
  try_except (os_utime filename) (append_to_file filename "").

Definition setup_git_user (home_dir git_user : string) : M unit :=
  admin_call ["useradd"; "-d"; home_dir; git_user];;
  try_except (makedirs A (PyStr.path_join home_dir ".ssh")) (mret tt);;
  touch (PyStr.path_join (PyStr.path_join home_dir ".ssh") "authorized_keys");;
  chown home_dir git_user.

Definition setup_receiver_script (home_dir git_user : string) : M unit :=
  let local_receiver_path := PyStr.path_join home_dir "receiver" in
  present ← path_exists local_receiver_path;
  (if negb present then write_file local_receiver_path receiver_template
   else mret tt);;
  chmod local_receiver_path 493;;
  chown local_receiver_path git_user.

(** The two steps of [init] before its message. *)
Definition provisioning (home_dir git_user : string) : M unit :=
  setup_git_user home_dir git_user;;
  setup_receiver_script home_dir git_user.

End Provisioning.

(** A host for provisioning: a pattern without wildcards matches itself
    when it exists, [os.makedirs] makes the directory and its missing
    ancestors and fails when the directory is there or an ancestor is a
    file, and [useradd -d home account] adds the account unless it is there. *)
Module HostAdmin.

Definition glob (expression : string) (w : World) : list string :=
  if (negb (PyStr.is_empty expression)
      && FS.exists_ (locate w expression) (fs w))%bool
  then [expression] else [].

Definition makedirs (p : string) : M unit := fun w =>
  if FS.exists_ (locate w p) (fs w) then (Raise (OSError p), w)
  else match Host.mkdirs (locate w p) (fs w) with
       | Some n => (Ok tt, set_fs n w)
       | None => (Raise (OSError p), w)
       end.

Definition program (argv : list string) (w : World)
  : FS.node * gmap string string :=
  match argv with
  | [a; b; home; user] =>
      if (String.eqb a "useradd" && String.eqb b "-d")%bool
      then match passwd w !! user with
           | Some _ => (fs w, passwd w)
           | None => (fs w, <[user := home]> (passwd w))
           end
      else (fs w, passwd w)
  | _ => (fs w, passwd w)
  end.

Definition admin : Admin := mkAdmin glob makedirs program.

Definition externals : Externals :=
  mkExternals Base64.decode Md5.digest Host.spawn (Host.pipeline "")
              (provisioning admin).

(** A machine with an empty [/home] and no accounts. *)
Definition fresh : World :=
  mkWorld "/usr/bin/gitreceive" (FS.Dir [("home", FS.Dir [])]) ∅ [] ∅ "" [] [].

End HostAdmin.

(** What [glob.glob] promises: the paths it returns exist. *)
Definition glob_sound (A : Admin) : Prop :=
  forall expression w,
    Forall (fun f => (negb (PyStr.is_empty f)
                      && FS.exists_ (locate w f) (fs w))%bool = true)
           (glob A expression w).

(** * Properties *)

(** ** Strings *)

Lemma ascii_eqb_eq a b : PyStr.ascii_eqb a b = true <-> a = b.
Proof. unfold PyStr.ascii_eqb. apply Ascii.eqb_eq. Qed.

Lemma app_cons a (s t : string) : String a s ++ t = String a (s ++ t).
Proof. reflexivity. Qed.

Lemma app_empty (t : string) : "" ++ t = t.
Proof. reflexivity. Qed.

Lemma startswith_app p r : PyStr.startswith p (p ++ r) = true.
Proof.
  induction p as [|a p IH]; [reflexivity|].
  rewrite app_cons. simpl.
  rewrite IH, andb_true_r. apply ascii_eqb_eq. reflexivity.
Qed.

Lemma startswith_inv p s :
  PyStr.startswith p s = true -> exists r, s = p ++ r.
Proof.
  revert s. induction p as [|a p IH]; intros s H; simpl in *.
  - exists s. reflexivity.
  - destruct s as [|b s]; [discriminate|].
    apply andb_true_iff in H as [Hab Hps].
    apply ascii_eqb_eq in Hab. subst b.
    destruct (IH _ Hps) as [r ->]. exists r. reflexivity.
Qed.

Lemma startswith_drop p s :
  PyStr.startswith p s = true -> s = p ++ PyStr.drop (String.length p) s.
Proof.
  revert s. induction p as [|a p IH]; intros s H; simpl in *.
  - reflexivity.
  - destruct s as [|b s]; [discriminate|].
    apply andb_true_iff in H as [Hab Hps].
    apply ascii_eqb_eq in Hab. subst b. rewrite app_cons. f_equal. apply IH, Hps.
Qed.

(** [sub in s] holds exactly when [s] is some text, [sub], some text. *)
Lemma contains_spec sub s :
  PyStr.contains sub s = true <-> exists pre post, s = pre ++ sub ++ post.
Proof.
  split.
  - induction s as [|c s IH]; simpl; intros H.
    + apply orb_true_iff in H as [H|H]; [|discriminate].
      destruct (startswith_inv _ _ H) as [r Hr]. exists "", r. exact Hr.
    + apply orb_true_iff in H as [H|H].
      * destruct (startswith_inv _ _ H) as [r Hr]. exists "", r. exact Hr.
      * destruct (IH H) as (pre & post & ->). exists (String c pre), post.
        reflexivity.
  - intros (pre & post & ->). induction pre as [|c pre IH].
    + rewrite app_empty.
      destruct (sub ++ post) eqn:Heq; simpl; rewrite <- Heq;
        rewrite startswith_app; reflexivity.
    + rewrite app_cons. simpl. rewrite IH. apply orb_true_r.
Qed.

(** ** The state-and-exception monad *)

Lemma bind_ok {A B} (m : M A) (f : A -> M B) w a w' :
  m w = (Ok a, w') -> (m ≫= f) w = f a w'.
Proof. intros H. unfold mbind, M_bind. rewrite H. reflexivity. Qed.

Lemma bind_raise {A B} (m : M A) (f : A -> M B) w e w' :
  m w = (Raise e, w') -> (m ≫= f) w = (Raise e, w').
Proof. intros H. unfold mbind, M_bind. rewrite H. reflexivity. Qed.

Lemma bind_inv {A B} (m : M A) (f : A -> M B) w b w2 :
  (m ≫= f) w = (Ok b, w2) ->
  exists a w1, m w = (Ok a, w1) /\ f a w1 = (Ok b, w2).
Proof.
  unfold mbind, M_bind. destruct (m w) as [[a|e] w1]; intros H.
  - exists a, w1. split; [reflexivity|exact H].
  - discriminate.
Qed.

Lemma item_lookup xs i x w :
  nth_error xs i = Some x -> item xs i w = (Ok x, w).
Proof. intros H. unfold item. rewrite H. reflexivity. Qed.

(** ** Dispatch: rejection *)

(** C1: when the second token of the original command, with its quotes and
    leading slashes stripped, has [..] somewhere in it, [run] returns
    [False] after printing one diagnostic, and the world is otherwise as it
    was: no program was started and the file tree is untouched. *)
Theorem run_rejects_parent_segment
    (E : Externals) (argv : list string) (git_user home_dir : string)
    (w : World) (cmd tok pre post : string) :
  environ w !! "SSH_ORIGINAL_COMMAND" = Some cmd ->
  nth_error (PyStr.split_ws cmd) 1 = Some tok ->
  PyStr.lstrip "/" (PyStr.strip dquote (PyStr.strip "'" tok)) = pre ++ ".." ++ post ->
  let msg := if (length argv <? 4)%nat then "ERROR: Missing arguments"
             else "ERROR: Arbitrary ssh prohibited!" in
  let '(r, w') := run E argv git_user home_dir w in
  r = Ok RFalse /\ w' = add_stdout msg w /\
  fs w' = fs w /\ calls w' = calls w /\ environ w' = environ w.
Proof.
  intros Henv Htok Hdots msg. subst msg. unfold run.
  destruct (length argv <? 4)%nat eqn:Hlen.
  - simpl. repeat split.
  - destruct argv as [|a0 [|a1 [|a2 [|a3 rest]]]]; try discriminate Hlen.
    assert (Hparse : parse_repo_from_ssh_command cmd = None).
    { unfold parse_repo_from_ssh_command.
      destruct (PyStr.split_ws cmd) as [|t0 [|t1 ts]]; try discriminate Htok.
      injection Htok as ->.
      assert (Hc : PyStr.contains ".."
                (PyStr.lstrip "/" (PyStr.strip dquote (PyStr.strip "'" tok))) = true).
      { apply contains_spec. exists pre, post. exact Hdots. }
      rewrite Hc. reflexivity. }
    unfold mbind, M_bind, item, environ_get. simpl.
    rewrite Henv, Hparse. simpl. repeat split.
Qed.

Lemma run_rejects_parent_segment_witness :
  let w := Host.world [("SSH_ORIGINAL_COMMAND", "git-receive-pack '/a/../../etc'")] "" in
  let '(r, w') := run Host.externals ["gitreceive"; "run"; "alice"; "F"] "git" "/home/git" w in
  r = Ok RFalse /\ w' = add_stdout "ERROR: Arbitrary ssh prohibited!" w /\
  fs w' = fs w /\ calls w' = calls w /\ environ w' = environ w.
Proof.
  exact (run_rejects_parent_segment Host.externals
           ["gitreceive"; "run"; "alice"; "F"] "git" "/home/git"
           (Host.world [("SSH_ORIGINAL_COMMAND", "git-receive-pack '/a/../../etc'")] "")
           "git-receive-pack '/a/../../etc'" "'/a/../../etc'" "a/" "/../etc"
           eq_refl eq_refl eq_refl).
Defined.

(** What [run] does with at least four arguments when the original command
    yields no usable path, and when the variable is not set at all. *)
Lemma run_unparsable (E : Externals) a0 a1 a2 a3 rest git_user home_dir w cmd :
  environ w !! "SSH_ORIGINAL_COMMAND" = Some cmd ->
  falsy (parse_repo_from_ssh_command cmd) = true ->
  run E (a0 :: a1 :: a2 :: a3 :: rest) git_user home_dir w
  = (Ok RFalse, add_stdout "ERROR: Arbitrary ssh prohibited!" w).
Proof.
  intros Henv Hf. unfold run, mbind, M_bind, item, environ_get. simpl.
  rewrite Henv, Hf. reflexivity.
Qed.

Lemma run_absent (E : Externals) a0 a1 a2 a3 rest git_user home_dir w :
  environ w !! "SSH_ORIGINAL_COMMAND" = None ->
  run E (a0 :: a1 :: a2 :: a3 :: rest) git_user home_dir w
  = (Raise (KeyError "SSH_ORIGINAL_COMMAND"), w).
Proof.
  intros Henv. unfold run, mbind, M_bind, item, environ_get. simpl.
  rewrite Henv. reflexivity.
Qed.

Lemma main_run (E : Externals) flag script rest w :
  exists git_user home_dir,
    main E flag (script :: "run" :: rest) w
    = (run E (script :: "run" :: rest) git_user home_dir ≫= fun _ => mret tt) w.
Proof.
  unfold main.
  exists (default "git" (environ w !! "GITUSER")).
  unfold mbind at 1 2. unfold M_bind at 1 2.
  unfold environ_get_default, try_except, getpwnam_dir.
  destruct (passwd w !! default "git" (environ w !! "GITUSER")) as [h|];
    eexists; reflexivity.
Qed.

(** C2, as the code has it: in a session whose original command cannot be
    parsed into a repository path, dispatch prints its diagnostic and starts
    no program, but [main] drops the [False] that [run] returns and the
    process ends with status 0; when the variable is absent, the lookup
    raises [KeyError], which nothing catches, and the process ends with
    status 1, again without a program started. *)
Theorem main_run_without_usable_command
    (E : Externals) (flag : bool) (script user fingerprint : string)
    (rest : list string) (w : World) :
  let argv := script :: "run" :: user :: fingerprint :: rest in
  (forall cmd,
     environ w !! "SSH_ORIGINAL_COMMAND" = Some cmd ->
     falsy (parse_repo_from_ssh_command cmd) = true ->
     main E flag argv w = (Ok tt, add_stdout "ERROR: Arbitrary ssh prohibited!" w)
     /\ exit_status (main E flag argv w).1 = 0%Z
     /\ calls (main E flag argv w).2 = calls w)
  /\
  (environ w !! "SSH_ORIGINAL_COMMAND" = None ->
     main E flag argv w = (Raise (KeyError "SSH_ORIGINAL_COMMAND"), w)
     /\ exit_status (main E flag argv w).1 = 1%Z
     /\ calls (main E flag argv w).2 = calls w).
Proof.
  intros argv. subst argv.
  destruct (main_run E flag script (user :: fingerprint :: rest) w)
    as (git_user & home_dir & Hmain).
  split.
  - intros cmd Henv Hf.
    assert (H : main E flag (script :: "run" :: user :: fingerprint :: rest) w
                = (Ok tt, add_stdout "ERROR: Arbitrary ssh prohibited!" w)).
    { rewrite Hmain.
      erewrite bind_ok by (eapply run_unparsable; eassumption). reflexivity. }
    rewrite H. repeat split.
  - intros Henv.
    assert (H : main E flag (script :: "run" :: user :: fingerprint :: rest) w
                = (Raise (KeyError "SSH_ORIGINAL_COMMAND"), w)).
    { rewrite Hmain.
      erewrite bind_raise by (eapply run_absent; eassumption). reflexivity. }
    rewrite H. repeat split.
Qed.

Lemma main_run_without_usable_command_witness :
  let argv := ["gitreceive"; "run"; "alice"; "F"] in
  let w1 := Host.world [("SSH_ORIGINAL_COMMAND", "ls")] "" in
  let w2 := Host.world [] "" in
  (main Host.externals false argv w1
     = (Ok tt, add_stdout "ERROR: Arbitrary ssh prohibited!" w1)
   /\ exit_status (main Host.externals false argv w1).1 = 0%Z
   /\ calls (main Host.externals false argv w1).2 = calls w1)
  /\
  (main Host.externals false argv w2
     = (Raise (KeyError "SSH_ORIGINAL_COMMAND"), w2)
   /\ exit_status (main Host.externals false argv w2).1 = 1%Z
   /\ calls (main Host.externals false argv w2).2 = calls w2).
Proof.
  split.
  - exact (proj1 (main_run_without_usable_command Host.externals false
             "gitreceive" "alice" "F" []
             (Host.world [("SSH_ORIGINAL_COMMAND", "ls")] ""))
             "ls" eq_refl eq_refl).
  - exact (proj2 (main_run_without_usable_command Host.externals false
             "gitreceive" "alice" "F" [] (Host.world [] "")) eq_refl).
Defined.

(** C2 as stated fails: the original command [ls] has no second token, the
    session is refused, and the process still ends with status 0. *)
Lemma unparsable_command_exits_zero :
  let w := Host.world [("SSH_ORIGINAL_COMMAND", "ls")] "" in
  let out := main Host.externals false ["gitreceive"; "run"; "alice"; "F"] w in
  parse_repo_from_ssh_command "ls" = None /\
  stdout out.2 = ["ERROR: Arbitrary ssh prohibited!"] /\
  ~ (exit_status out.1 <> 0%Z).
Proof.
  vm_compute. repeat split. intros H. apply H. reflexivity.
Qed.

(** ** Dispatch: what reaches the git shell *)

Ltac bind_step H a w Ha :=
  apply bind_inv in H as (a & w & Ha & H).

Lemma fs_op_frame f e p w r w' :
  fs_op f e p w = (r, w') -> w' = set_fs (fs w') w.
Proof.
  unfold fs_op. destruct (PyStr.is_empty p).
  - intros [= <- <-]. destruct w; reflexivity.
  - destruct (FS.alter f (locate w p) (fs w)); intros [= <- <-];
      destruct w; reflexivity.
Qed.

Lemma fs_op_inv f e p w w' :
  fs_op f e p w = (Ok tt, w') ->
  exists n, FS.alter f (locate w p) (fs w) = Some n /\ w' = set_fs n w.
Proof.
  unfold fs_op. destruct (PyStr.is_empty p); [discriminate|].
  destruct (FS.alter f (locate w p) (fs w)) as [n|]; [|discriminate].
  intros [= <-]. exists n. split; reflexivity.
Qed.

Lemma environ_get_inv key w v w' :
  environ_get key w = (Ok v, w') -> w' = w /\ environ w !! key = Some v.
Proof.
  unfold environ_get. destruct (environ w !! key); [|discriminate].
  intros [= <- <-]. split; reflexivity.
Qed.

Lemma item_inv xs i w x w' :
  item xs i w = (Ok x, w') -> w' = w /\ nth_error xs i = Some x.
Proof.
  unfold item. destruct (nth_error xs i); [|discriminate].
  intros [= <- <-]. split; reflexivity.
Qed.

Lemma chdir_inv p w w' :
  chdir p w = (Ok tt, w') ->
  w' = set_cwd (locate w p) w /\ FS.is_dir (locate w p) (fs w) = true.
Proof.
  unfold chdir. destruct (PyStr.is_empty p); simpl; [discriminate|].
  destruct (FS.is_dir (locate w p) (fs w)); [|discriminate].
  intros [= <-]. split; reflexivity.
Qed.

Lemma ensure_bare_repo_inv E p w r w' :
  ensure_bare_repo E p w = (r, w') ->
  r = Ok tt /\
  ((present p w = true /\ w' = w)
   \/ (present p w = false /\
       let argv := ["git"; "init"; "--bare"; p] in
       w' = set_fs (spawn E argv w) (add_call argv w))).
Proof.
  unfold ensure_bare_repo, mbind, M_bind, path_exists.
  destruct (present p w); simpl.
  - intros [= <- <-]. split; [reflexivity|]. left. split; reflexivity.
  - unfold subprocess_call. intros [= <- <-]. split; [reflexivity|].
    right. split; reflexivity.
Qed.

Lemma ensure_prereceive_hook_inv p h w w' :
  ensure_prereceive_hook p h w = (Ok tt, w') ->
  let hook_path := PyStr.path_join (PyStr.path_join p "hooks") "pre-receive" in
  exists n1 n2,
    FS.alter (FS.put_file (hook_script (this_script w))) (locate w hook_path) (fs w)
      = Some n1 /\
    FS.alter (FS.set_mode 493) (locate w hook_path) n1 = Some n2 /\
    w' = set_fs n2 w.
Proof.
  intros H. cbv zeta. unfold ensure_prereceive_hook in H.
  bind_step H s w0 Hs. unfold abspath_file in Hs. injection Hs as <- <-.
  bind_step H u w1 H1. destruct u.
  apply fs_op_inv in H1 as (n1 & Hn1 & ->).
  apply fs_op_inv in H as (n2 & Hn2 & ->).
  exists n1, n2. split; [exact Hn1|]. split; [exact Hn2|].
  destruct w; reflexivity.
Qed.

(** C3, as the code has it: a dispatch that runs to its end has started the
    git shell exactly once, as its last program, with the single command
    string made of the first token of the original command, a space, and,
    between single quotes, the second token stripped of surrounding single
    quotes, then of surrounding double quotes, then of all its leading
    slashes; no other token of the original command is passed on.  The only
    other program it may have started is [git init --bare] on that path
    under the home directory. *)
Theorem run_git_shell_invocation
    (E : Externals) (argv : list string) (git_user home_dir : string)
    (w w' : World) :
  run E argv git_user home_dir w = (Ok RNone, w') ->
  exists cmd verb tok rest,
    environ w !! "SSH_ORIGINAL_COMMAND" = Some cmd /\
    PyStr.split_ws cmd = verb :: tok :: rest /\
    let path := PyStr.lstrip "/" (PyStr.strip dquote (PyStr.strip "'" tok)) in
    let shell := ["git-shell"; "-c"; verb ++ " '" ++ path ++ "'"] in
    let init := ["git"; "init"; "--bare"; PyStr.path_join home_dir path] in
    (calls w' = calls w ++ [shell] \/ calls w' = calls w ++ [init; shell])%list.
Proof.
  unfold run. destruct (length argv <? 4)%nat eqn:Hlen; [discriminate|].
  intros H.
  bind_step H user w1 Hu. apply item_inv in Hu as [-> _].
  bind_step H fp w1 Hfp. apply item_inv in Hfp as [-> _].
  bind_step H cmd w1 Hcmd. apply environ_get_inv in Hcmd as [-> Henv].
  destruct (falsy (parse_repo_from_ssh_command cmd)) eqn:Hf; [discriminate|].
  unfold parse_repo_from_ssh_command in *.
  destruct (PyStr.split_ws cmd) as [|verb [|tok ts]] eqn:Hsplit; try discriminate Hf.
  set (path := PyStr.lstrip "/" (PyStr.strip dquote (PyStr.strip "'" tok))) in *.
  destruct (PyStr.contains ".." path); [discriminate Hf|].
  simpl default in H.
  exists cmd, verb, tok, ts. split; [exact Henv|]. split; [exact Hsplit|].
  bind_step H u1 w1 H1. apply ensure_bare_repo_inv in H1 as [_ H1].
  bind_step H u2 w2 H2. destruct u2.
  apply ensure_prereceive_hook_inv in H2 as (n1 & n2 & _ & _ & ->).
  bind_step H u3 w3 H3. injection H3 as _ <-.
  bind_step H u4 w4 H4. injection H4 as _ <-.
  bind_step H u5 w5 H5. injection H5 as _ <-.
  bind_step H u6 w6 H6. destruct u6. apply chdir_inv in H6 as [-> _].
  bind_step H c7 w7 H7. apply environ_get_inv in H7 as [-> H7].
  simpl in H7.
  rewrite !lookup_insert_ne in H7 by discriminate.
  rewrite (match H1 with
           | or_introl (conj _ e) | or_intror (conj _ e) =>
               f_equal environ e end) in H7.
  simpl in H7.
  assert (c7 = cmd) as -> by (destruct H1 as [[_ ->]|[_ ->]]; simpl in H7; congruence).
  clear H7.
  bind_step H c8 w8 H8. apply item_inv in H8 as [-> H8].
  rewrite Hsplit in H8. injection H8 as <-.
  bind_step H u9 w9 H9. unfold subprocess_call in H9. injection H9 as _ <-.
  injection H as <-. simpl.
  destruct H1 as [[_ ->]|[_ ->]]; simpl.
  - left. reflexivity.
  - right. rewrite <- app_assoc. reflexivity.
Qed.

Lemma run_git_shell_invocation_witness :
  let w := Host.world [("SSH_ORIGINAL_COMMAND", "git-receive-pack '/proj.git' --extra")] "" in
  let w' := (run Host.externals ["gitreceive"; "run"; "alice"; "F"] "git" "/home/git" w).2 in
  exists cmd verb tok rest,
    environ w !! "SSH_ORIGINAL_COMMAND" = Some cmd /\
    PyStr.split_ws cmd = verb :: tok :: rest /\
    let path := PyStr.lstrip "/" (PyStr.strip dquote (PyStr.strip "'" tok)) in
    let shell := ["git-shell"; "-c"; verb ++ " '" ++ path ++ "'"] in
    let init := ["git"; "init"; "--bare"; PyStr.path_join "/home/git" path] in
    (calls w' = calls w ++ [shell] \/ calls w' = calls w ++ [init; shell])%list.
Proof.
  intros w w'.
  apply (run_git_shell_invocation Host.externals
           ["gitreceive"; "run"; "alice"; "F"] "git" "/home/git" w w').
  vm_compute. reflexivity.
Defined.

(** The example of C3: [git-receive-pack '/proj.git'] reaches the git shell
    as the verb [git-receive-pack] applied to [proj.git]. *)
Example run_proj_git :
  let w := Host.world [("SSH_ORIGINAL_COMMAND", "git-receive-pack '/proj.git'")] "" in
  let out := run Host.externals ["gitreceive"; "run"; "alice"; "F"] "git" "/home/git" w in
  out.1 = Ok RNone /\
  calls out.2 = [["git"; "init"; "--bare"; "/home/git/proj.git"];
                 ["git-shell"; "-c"; "git-receive-pack 'proj.git'"]].
Proof. vm_compute. split; reflexivity. Qed.

(** C3 as stated fails: with two leading slashes the code passes
    [proj.git], not the token less its quotes and one slash. *)
Lemma run_strips_every_leading_slash :
  let w := Host.world [("SSH_ORIGINAL_COMMAND", "git-receive-pack '//proj.git'")] "" in
  let out := run Host.externals ["gitreceive"; "run"; "alice"; "F"] "git" "/home/git" w in
  out.1 = Ok RNone /\
  last (calls out.2) = Some ["git-shell"; "-c"; "git-receive-pack 'proj.git'"] /\
  spec_repo_path "'//proj.git'" = "/proj.git" /\
  parse_repo_from_ssh_command "git-receive-pack '//proj.git'"
    <> Some (spec_repo_path "'//proj.git'").
Proof. vm_compute. repeat split. discriminate. Qed.

(** ** The push pipeline *)

Lemma prints_app ls l w : prints (ls ++ [l]) w = add_stdout l (prints ls w).
Proof. unfold prints. rewrite fold_left_app. reflexivity. Qed.

Lemma prints_cons l ls w : prints (l :: ls) w = prints ls (add_stdout l w).
Proof. reflexivity. Qed.

Lemma prints_frame ls w :
  fs (prints ls w) = fs w /\ calls (prints ls w) = calls w /\
  environ (prints ls w) = environ w /\
  stdout (prints ls w) = (stdout w ++ ls)%list.
Proof.
  revert w. induction ls as [|l ls IH]; intros w.
  - simpl. rewrite app_nil_r. repeat split.
  - rewrite prints_cons. destruct (IH (add_stdout l w)) as (-> & -> & -> & ->).
    simpl. rewrite <- app_assoc. repeat split.
Qed.

(** The inner loop prints the relayed form of each line, in order, and
    does nothing else. *)
Lemma relay_prints ls w : relay ls w = (Ok tt, prints (map relay_line ls) w).
Proof.
  revert w. induction ls as [|l ls IH]; intros w; [reflexivity|].
  simpl relay. erewrite bind_ok by reflexivity. rewrite IH. reflexivity.
Qed.

(** One turn of the outer loop on a line that triggers the receiver. *)
Lemma trigger_line_handled E flag line rest repo user fp home w old new ref extra :
  PyStr.split_ws line = old :: new :: ref :: extra ->
  (String.eqb ref "refs/heads/master" || negb flag)%bool = true ->
  trigger_receiver_lines E flag (line :: rest) repo user fp home w
  = trigger_receiver_lines E flag rest repo user fp home
      (handled E repo user fp home new w).
Proof.
  intros Hs Hg. simpl trigger_receiver_lines. rewrite Hs, Hg.
  unfold mbind at 1. unfold M_bind at 1.
  unfold mbind at 1. unfold M_bind at 1.
  unfold popen_pipe.
  fold (archive_argv new). fold (receiver_argv home repo new user fp).
  destruct (pipeline E (archive_argv new) (receiver_argv home repo new user fp) w)
    as [out n] eqn:Hp.
  rewrite relay_prints. unfold handled. rewrite Hp. reflexivity.
Qed.

(** One turn of the outer loop on a line that is passed over. *)
Lemma trigger_line_skipped E flag line rest repo user fp home w :
  match PyStr.split_ws line with
  | _ :: _ :: ref :: _ =>
      (String.eqb ref "refs/heads/master" || negb flag)%bool = false
  | _ => True
  end ->
  trigger_receiver_lines E flag (line :: rest) repo user fp home w
  = trigger_receiver_lines E flag rest repo user fp home w.
Proof.
  intros H. simpl trigger_receiver_lines.
  destruct (PyStr.split_ws line) as [|a [|b [|c d]]]; try reflexivity.
  rewrite H. reflexivity.
Qed.

Lemma handled_calls E repo user fp home new w :
  calls (handled E repo user fp home new w)
  = (calls w ++ [archive_argv new; receiver_argv home repo new user fp])%list.
Proof.
  unfold handled. destruct (prints_frame
    (map relay_line (PyStr.split_char "010"
       (pipeline E (archive_argv new) (receiver_argv home repo new user fp) w).1))
    (set_fs (pipeline E (archive_argv new) (receiver_argv home repo new user fp) w).2
       (add_call (receiver_argv home repo new user fp)
          (add_call (archive_argv new) w)))) as (_ & -> & _).
  simpl. rewrite <- app_assoc. reflexivity.
Qed.

Lemma handled_stdout E repo user fp home new w :
  stdout (handled E repo user fp home new w)
  = (stdout w ++
     map relay_line
       (PyStr.split_char "010"
          (pipeline E (archive_argv new)
             (receiver_argv home repo new user fp) w).1))%list.
Proof.
  unfold handled. destruct (prints_frame
    (map relay_line (PyStr.split_char "010"
       (pipeline E (archive_argv new) (receiver_argv home repo new user fp) w).1))
    (set_fs (pipeline E (archive_argv new) (receiver_argv home repo new user fp) w).2
       (add_call (receiver_argv home repo new user fp)
          (add_call (archive_argv new) w)))) as (_ & _ & _ & ->).
  reflexivity.
Qed.


(** C9: a line of fewer than three fields changes nothing, raises nothing,
    and the loop goes on with the lines after it; a batch of such lines only
    ends normally in the world it started in. *)
Theorem short_line_skipped
    (E : Externals) (flag : bool) (line : string) (rest : list string)
    (repo user fingerprint home_dir : string) (w : World) :
  (length (PyStr.split_ws line) < 3)%nat ->
  trigger_receiver_lines E flag (line :: rest) repo user fingerprint home_dir w
  = trigger_receiver_lines E flag rest repo user fingerprint home_dir w
  /\
  trigger_receiver_lines E flag [line] repo user fingerprint home_dir w = (Ok tt, w).
Proof.
  intros Hlen.
  assert (Hskip : forall rest',
    trigger_receiver_lines E flag (line :: rest') repo user fingerprint home_dir w
    = trigger_receiver_lines E flag rest' repo user fingerprint home_dir w).
  { intros rest'. apply trigger_line_skipped.
    destruct (PyStr.split_ws line) as [|a [|b [|c d]]]; simpl in Hlen;
      try exact I; lia. }
  split; [apply Hskip|]. rewrite Hskip. reflexivity.
Qed.


Lemma short_line_skipped_witness :
  let w := Host.world [] "" in
  trigger_receiver_lines Host.externals false
    ["old new"; "old new refs/heads/master"] "proj.git" "alice" "F" "/home/git" w
  = trigger_receiver_lines Host.externals false
      ["old new refs/heads/master"] "proj.git" "alice" "F" "/home/git" w
  /\
  trigger_receiver_lines Host.externals false ["old new"]
    "proj.git" "alice" "F" "/home/git" w = (Ok tt, w).
Proof.
  intros w.
  apply (short_line_skipped Host.externals false "old new"
           ["old new refs/heads/master"] "proj.git" "alice" "F" "/home/git" w).
  vm_compute. lia.
Defined.

(** ** Relaying the receiver's output *)

Lemma app_empty_r (s : string) : s ++ "" = s.
Proof. induction s as [|c s IH]; [reflexivity|]. rewrite app_cons, IH. reflexivity. Qed.

Lemma app_snoc (a : string) c (s : string) : (a ++ String c "") ++ s = a ++ String c s.
Proof.
  induction a as [|x a IH]; [reflexivity|].
  rewrite !app_cons, IH. reflexivity.
Qed.

Lemma split1_from_absent sep s before :
  PyStr.contains sep s = false -> PyStr.split1_from before sep s = [before ++ s].
Proof.
  revert before. induction s as [|c s IH]; intros before H; simpl in H;
    apply orb_false_iff in H as [Hs Hc].
  - simpl. rewrite Hs, app_empty_r. reflexivity.
  - simpl. rewrite Hs. rewrite (IH _ Hc), app_snoc. reflexivity.
Qed.

Lemma split1_from_present sep s before :
  PyStr.contains sep s = true ->
  exists pre post,
    s = pre ++ sep ++ post /\
    PyStr.split1_from before sep s = [before ++ pre; post] /\
    forall pre' post', s = pre' ++ sep ++ post' ->
                       (String.length pre <= String.length pre')%nat.
Proof.
  revert before. induction s as [|c s IH]; intros before H.
  - simpl in H. rewrite orb_false_r in H.
    exists "", (PyStr.drop (String.length sep) "").
    split; [apply (startswith_drop _ _ H)|]. split.
    + simpl. rewrite H, app_empty_r. reflexivity.
    + intros. simpl. lia.
  - simpl in H. destruct (PyStr.startswith sep (String c s)) eqn:Hs.
    + exists "", (PyStr.drop (String.length sep) (String c s)).
      split; [apply (startswith_drop _ _ Hs)|]. split.
      * simpl PyStr.split1_from. rewrite Hs, app_empty_r. reflexivity.
      * intros. simpl. lia.
    + simpl in H. destruct (IH (before ++ String c "") H) as (pre & post & -> & Hsp & Hmin).
      exists (String c pre), post. split; [reflexivity|]. split.
      * simpl PyStr.split1_from. rewrite Hs, Hsp, app_snoc. reflexivity.
      * intros pre' post' Heq. destruct pre' as [|c' pre'].
        -- rewrite app_empty in Heq. rewrite Heq, startswith_app in Hs. discriminate.
        -- rewrite app_cons in Heq. injection Heq as _ Heq.
           simpl. apply le_n_S. eapply Hmin, Heq.
Qed.

Lemma relay_line_absent l :
  PyStr.contains "remote: " l = false -> relay_line l = l.
Proof.
  intros H. unfold relay_line, PyStr.split1.
  rewrite (split1_from_absent _ _ _ H). reflexivity.
Qed.

Lemma relay_line_present l :
  PyStr.contains "remote: " l = true ->
  exists pre,
    l = pre ++ "remote: " ++ relay_line l /\
    forall pre' post', l = pre' ++ "remote: " ++ post' ->
                       (String.length pre <= String.length pre')%nat.
Proof.
  intros H. unfold relay_line, PyStr.split1.
  destruct (split1_from_present _ _ "" H) as (pre & post & Hl & -> & Hmin).
  exists pre. split; [exact Hl|exact Hmin].
Qed.

(** C8, as the code has it: the receiver's output is cut at every newline
    and the pieces are printed one by one in their order; a piece in which
    [remote: ] does not occur is printed as it is, and of a piece in which
    it occurs, at the start or further in, only what follows its leftmost
    occurrence is printed. *)
Theorem relay_of_receiver_output
    (E : Externals) (flag : bool) (line : string)
    (repo user fingerprint home_dir : string) (w : World)
    (old new ref : string) (extra : list string) :
  PyStr.split_ws line = old :: new :: ref :: extra ->
  (String.eqb ref "refs/heads/master" || negb flag)%bool = true ->
  let output :=
    (pipeline E (archive_argv new)
       (receiver_argv home_dir repo new user fingerprint) w).1 in
  (exists w',
     trigger_receiver_lines E flag [line] repo user fingerprint home_dir w
       = (Ok tt, w') /\
     stdout w' = (stdout w ++ map relay_line (PyStr.split_char "010" output))%list)
  /\ (forall l, PyStr.contains "remote: " l = false -> relay_line l = l)
  /\ (forall l, PyStr.contains "remote: " l = true ->
        exists pre,
          l = pre ++ "remote: " ++ relay_line l /\
          forall pre' post', l = pre' ++ "remote: " ++ post' ->
                             (String.length pre <= String.length pre')%nat)
  /\ (forall rest, relay_line ("remote: " ++ rest) = rest).
Proof.
  intros Hs Hg output. split; [|split; [|split]].
  - exists (handled E repo user fingerprint home_dir new w). split.
    + rewrite (trigger_line_handled _ _ _ _ _ _ _ _ _ _ _ _ _ Hs Hg). reflexivity.
    + apply handled_stdout.
  - apply relay_line_absent.
  - apply relay_line_present.
  - intros rest. reflexivity.
Qed.

Lemma relay_of_receiver_output_witness :
  let w := Host.world [] "" in
  (exists w',
     trigger_receiver_lines Host.externals false ["oldsha newsha refs/heads/master"]
       "proj.git" "alice" "F" "/home/git" w = (Ok tt, w') /\
     stdout w' = ["Building..."; ""])
  /\ relay_line "Building..." = "Building..."
  /\ (exists pre, "a remote: b" = pre ++ "remote: " ++ relay_line "a remote: b")
  /\ relay_line "remote: Building..." = "Building...".
Proof.
  intros w.
  destruct (relay_of_receiver_output Host.externals false
              "oldsha newsha refs/heads/master" "proj.git" "alice" "F" "/home/git" w
              "oldsha" "newsha" "refs/heads/master" [] eq_refl eq_refl)
    as (H1 & H2 & H3 & H4).
  split; [exact H1|]. split; [exact (H2 "Building..." eq_refl)|].
  split; [|exact (H4 "Building...")].
  destruct (H3 "a remote: b" eq_refl) as (pre & Hpre & _).
  exists pre. exact Hpre.
Defined.

(** C8 as stated fails: in [a remote: b] the marker is not at the start,
    yet what is relayed is [b], neither the line unchanged nor the line
    less its marker. *)
Lemma relay_drops_text_before_marker :
  let E := Host.externals_with "a remote: b" in
  let w := Host.world [("RECEIVE_REPO", "proj.git"); ("RECEIVE_USER", "alice");
                       ("RECEIVE_FINGERPRINT", "F")]
                      ("oldsha newsha refs/heads/master" ++ newline) in
  stdout (main E false ["gitreceive"; "hook"] w).2 = ["b"] /\
  spec_relay_line "a remote: b" = "a remote: b" /\
  relay_line "a remote: b" <> spec_relay_line "a remote: b" /\
  relay_line "a remote: b" <> "a b".
Proof. vm_compute. repeat split; discriminate. Qed.

(** ** Fingerprints *)

Lemma hexdigit_ok n :
  (n < 16)%N ->
  is_lower_hex (PyStr.hexdigit n) = true /\ hex_value (PyStr.hexdigit n) = n.
Proof.
  intros H. destruct n as [|p]; [split; reflexivity|].
  do 4 (destruct p as [p|p|]; try (split; reflexivity)); lia.
Qed.

Lemma fmt_02x_pair (b : ascii) : pair_of_byte b (PyStr.fmt_02x (PyStr.ord b)).
Proof.
  unfold PyStr.fmt_02x, PyStr.ord.
  assert (Hb : (N_of_ascii b < 256)%N) by apply N_ascii_bounded.
  destruct (hexdigit_ok (N_of_ascii b / 16)) as [Hh Hhv].
  { apply N.Div0.div_lt_upper_bound. lia. }
  destruct (hexdigit_ok (N_of_ascii b mod 16)) as [Hl Hlv].
  { apply N.mod_lt. lia. }
  eexists _, _. split; [reflexivity|]. split; [exact Hh|]. split; [exact Hl|].
  rewrite Hhv, Hlv. symmetry. apply N.div_mod. lia.
Qed.

Lemma lower_hex_not_colon c :
  is_lower_hex c = true -> PyStr.ascii_eqb c ":" = false.
Proof.
  intros H. destruct (PyStr.ascii_eqb c ":") eqn:Hc; [|reflexivity].
  apply ascii_eqb_eq in Hc. subst c. discriminate H.
Qed.

Lemma split_char_pair cur h l rest :
  is_lower_hex h = true -> is_lower_hex l = true ->
  PyStr.split_char_from cur ":" (String h (String l rest))
  = PyStr.split_char_from (cur ++ String h (String l "")) ":" rest.
Proof.
  intros Hh Hl. simpl.
  rewrite (lower_hex_not_colon _ Hh), (lower_hex_not_colon _ Hl), app_snoc.
  reflexivity.
Qed.

(** Cutting a fingerprint at its colons gives back the pairs. *)
Lemma split_render bs ps :
  Forall2 pair_of_byte bs ps -> ps <> [] ->
  PyStr.split_char ":" (PyStr.join ":" ps) = ps.
Proof.
  unfold PyStr.split_char. intros H. induction H as [|b p bs ps Hp Hrest IH];
    intros Hne; [contradiction|].
  destruct Hp as (h & l & -> & Hh & Hl & _).
  destruct ps as [|p' ps'].
  - simpl PyStr.join. rewrite split_char_pair by assumption. reflexivity.
  - change (PyStr.join ":" (String h (String l "") :: p' :: ps'))
      with (String h (String l (String ":" (PyStr.join ":" (p' :: ps'))))).
    rewrite split_char_pair by assumption.
    change (PyStr.split_char_from ("" ++ String h (String l "")) ":"
              (String ":" (PyStr.join ":" (p' :: ps'))))
      with (("" ++ String h (String l ""))
              :: PyStr.split_char_from "" ":" (PyStr.join ":" (p' :: ps'))).
    rewrite IH by discriminate. reflexivity.
Qed.

Lemma generate_fingerprint_decoded E key data w :
  b64decode E key = Some data ->
  generate_fingerprint E key w = (Ok (render (md5_digest E data)), w).
Proof. intros H. unfold generate_fingerprint. rewrite H. reflexivity. Qed.

Lemma append_to_file_frame p data w r w' :
  append_to_file p data w = (r, w') ->
  stdout w' = stdout w /\ calls w' = calls w.
Proof.
  unfold append_to_file. intros H.
  pose proof (fs_op_frame _ _ _ _ _ _ H) as Hw.
  rewrite Hw. split; reflexivity.
Qed.

(** What installing a line of at least two fields whose payload decodes
    does: append one entry, then print the fingerprint. *)
Lemma install_decoded E line name home_dir git_user w alg payload rest data :
  PyStr.split_ws line = alg :: payload :: rest ->
  b64decode E payload = Some data ->
  exists entry,
    install_authorized_key E line name home_dir git_user w
    = (append_to_file
         (PyStr.path_join (PyStr.path_join home_dir ".ssh") "authorized_keys") entry
       ≫= fun _ => print (render (md5_digest E data)) ≫= fun _ => mret RNone) w.
Proof.
  intros Hs Hd. unfold install_authorized_key.
  rewrite (bind_ok abspath_file _ w (this_script w) w eq_refl).
  cbv zeta. rewrite Hs.
  change (length (alg :: payload :: rest) <? 2)%nat with false. cbv iota.
  rewrite (bind_ok (item (alg :: payload :: rest) 1) _ w payload w eq_refl).
  rewrite (bind_ok _ _ _ _ _ (generate_fingerprint_decoded E payload data w Hd)).
  eexists. reflexivity.
Qed.

Lemma install_decoded_prints E line name home_dir git_user w w' alg payload rest data :
  PyStr.split_ws line = alg :: payload :: rest ->
  b64decode E payload = Some data ->
  install_authorized_key E line name home_dir git_user w = (Ok RNone, w') ->
  stdout w' = (stdout w ++ [render (md5_digest E data)])%list.
Proof.
  intros Hs Hd H.
  destruct (install_decoded E line name home_dir git_user w _ _ _ _ Hs Hd)
    as (entry & Heq).
  rewrite Heq in H. bind_step H u w1 H1.
  apply append_to_file_frame in H1 as (Hout & _).
  bind_step H u2 w2 H2. unfold print in H2. injection H2 as _ <-.
  injection H as <-. simpl. rewrite Hout. reflexivity.
Qed.

(** The fingerprint of a concrete key, as [upload-key] prints it. *)
Example fingerprint_example :
  let key := "AAAAC3NzaC1lZDI1NTE5AAAAIJ7k3pQ4Tn+1oYl1cYp1u0X3o0m9wq1mJ8cXk2Vn5P2r" in
  let w := Host.world [] ("ssh-ed25519 " ++ key ++ " alice" ++ newline) in
  stdout (main Host.externals false ["gitreceive"; "upload-key"] w).2
  = ["7b:55:6a:d8:9b:bd:5f:b8:e2:e0:d6:ea:e9:e4:9c:85"].
Proof. vm_compute. reflexivity. Qed.

(** ** Installing keys *)

(** A line of fewer than two fields reaches line 98, whose [key] is bound
    nowhere: [NameError], before anything is printed or written. *)
Lemma install_short_line E line name home_dir git_user w :
  (length (PyStr.split_ws line) < 2)%nat ->
  install_authorized_key E line name home_dir git_user w
  = (Raise (NameError "key"), w).
Proof.
  intros H. unfold install_authorized_key.
  rewrite (bind_ok abspath_file _ w (this_script w) w eq_refl).
  cbv zeta. apply Nat.ltb_lt in H. rewrite H. reflexivity.
Qed.

(** A line that is not empty and does not start with [#] is handed to
    [install_authorized_key]; the loop goes on only if that returns. *)
Lemma upload_key_lines_installs E line rest name home_dir git_user w :
  PyStr.is_empty line = false ->
  PyStr.startswith "#" line = false ->
  upload_key_lines E (line :: rest) name home_dir git_user w
  = (install_authorized_key E line name home_dir git_user
     ≫= fun _ => upload_key_lines E rest name home_dir git_user) w.
Proof.
  intros He Hc. cbn [upload_key_lines]. rewrite He, Hc. cbn [negb andb].
  unfold mbind, M_bind.
  destruct (install_authorized_key E line name home_dir git_user w) as [[r|e] w'];
    reflexivity.
Qed.

(** C5 on the code: a key line of one field raises [NameError] inside
    [install_authorized_key]; nothing is reported, nothing is appended, and
    [upload-key] dies on it, so that the valid line after it, which alone
    would have been installed, is never read. *)
Theorem invalid_key_line_aborts_batch :
  let good := "ssh-ed25519 AAAAC3NzaC1lZDI1NTE5AAAAIJ7k3pQ4Tn+1oYl1cYp1u0X3o0m9wq1mJ8cXk2Vn5P2r alice"
              ++ newline in
  let bad := "ssh-rsa" ++ newline in
  let w := Host.world [] (bad ++ good) in
  let argv := ["gitreceive"; "upload-key"] in
  length (PyStr.split_ws bad) = 1%nat /\
  install_authorized_key Host.externals bad None "/home/git" "git" w
    = (Raise (NameError "key"), w) /\
  main Host.externals false argv w = (Raise (NameError "key"), w) /\
  exit_status (main Host.externals false argv w).1 = 1%Z /\
  stdout (main Host.externals false argv (Host.world [] good)).2
    = ["7b:55:6a:d8:9b:bd:5f:b8:e2:e0:d6:ea:e9:e4:9c:85"].
Proof. vm_compute. repeat split. Qed.

(** C10 on the code: a comment line is passed over, but a blank line, which
    the iterator delivers as a newline character and not as the empty
    string, passes the test of line 180 and is handed to
    [install_authorized_key], where it raises; the key after it is never
    installed. *)
Theorem blank_line_reaches_install :
  let good := "ssh-ed25519 AAAAC3NzaC1lZDI1NTE5AAAAIJ7k3pQ4Tn+1oYl1cYp1u0X3o0m9wq1mJ8cXk2Vn5P2r alice"
              ++ newline in
  let argv := ["gitreceive"; "upload-key"] in
  let w := Host.world [] (newline ++ good) in
  PyStr.readlines (newline ++ good) = [newline; good] /\
  (forall E rest name home_dir git_user w0,
     upload_key_lines E (newline :: rest) name home_dir git_user w0
     = (install_authorized_key E newline name home_dir git_user
        ≫= fun _ => upload_key_lines E rest name home_dir git_user) w0) /\
  main Host.externals false argv w = (Raise (NameError "key"), w) /\
  stdout (main Host.externals false argv
            (Host.world [] ("# a comment" ++ newline ++ good))).2
    = ["7b:55:6a:d8:9b:bd:5f:b8:e2:e0:d6:ea:e9:e4:9c:85"].
Proof.
  split; [vm_compute; reflexivity|]. split.
  - intros. apply upload_key_lines_installs; reflexivity.
  - vm_compute. split; reflexivity.
Qed.

(** ** The file tree *)

Lemma lookup_entry_set_eq c x es :
  FS.lookup_entry c (FS.set_entry c x es) = Some x.
Proof.
  induction es as [|[k m] es IH]; simpl.
  - rewrite String.eqb_refl. reflexivity.
  - destruct (String.eqb k c) eqn:Hk; simpl; rewrite Hk; [reflexivity|exact IH].
Qed.

Lemma set_entry_id c x es :
  FS.lookup_entry c es = Some x -> FS.set_entry c x es = es.
Proof.
  induction es as [|[k m] es IH]; simpl; [discriminate|].
  destruct (String.eqb k c); intros H.
  - injection H as ->. reflexivity.
  - rewrite (IH H). reflexivity.
Qed.

(** What is under a path that exists hangs from every prefix of it. *)
Lemma lookup_app p q n :
  FS.lookup (p ++ q)%list n
  = match FS.lookup p n with Some m => FS.lookup q m | None => None end.
Proof.
  revert n. induction p as [|c p IH]; intros n; simpl; [reflexivity|].
  destruct n as [|es]; [reflexivity|].
  destruct (FS.lookup_entry c es); [apply IH|reflexivity].
Qed.

(** After a successful [alter], the path holds what [f] made. *)
Lemma alter_lookup f p n n' :
  FS.alter f p n = Some n' ->
  exists x, f (FS.lookup p n) = Some x /\ FS.lookup p n' = Some x.
Proof.
  revert n n'. induction p as [|c p IH]; intros n n' H; simpl in *.
  - exists n'. split; [exact H|reflexivity].
  - destruct n as [|es]; [discriminate|].
    destruct (FS.lookup_entry c es) as [child|] eqn:Hc.
    + destruct (FS.alter f p child) as [child'|] eqn:Ha; [|discriminate].
      injection H as <-. destruct (IH _ _ Ha) as (x & Hf & Hl).
      exists x. split; [exact Hf|]. simpl. rewrite lookup_entry_set_eq. exact Hl.
    + destruct p as [|c' p']; [|discriminate].
      destruct (f None) as [x|] eqn:Hf; [|discriminate].
      injection H as <-. exists x. split; [reflexivity|].
      simpl. rewrite lookup_entry_set_eq. reflexivity.
Qed.

(** Writing back what is already there leaves the tree as it is. *)
Lemma alter_id f p n x :
  FS.lookup p n = Some x -> f (Some x) = Some x -> FS.alter f p n = Some n.
Proof.
  revert n. induction p as [|c p IH]; intros n Hl Hf; simpl in *.
  - injection Hl as ->. exact Hf.
  - destruct n as [|es]; [discriminate|].
    destruct (FS.lookup_entry c es) as [child|] eqn:Hc; [|discriminate].
    rewrite (IH _ Hl Hf), (set_entry_id _ _ _ Hc). reflexivity.
Qed.

(** ** Path strings *)

Lemma feed_app st cur a b :
  FS.feed st cur (a ++ b) = FS.feed (FS.feed st cur a).1 (FS.feed st cur a).2 b.
Proof.
  revert st cur. induction a as [|c a IH]; intros st cur; [reflexivity|].
  rewrite app_cons. simpl.
  destruct (PyStr.ascii_eqb c "/"); apply IH.
Qed.

Lemma feed_ends_with_slash st cur a :
  PyStr.endswith_char "/" a = true -> (FS.feed st cur a).2 = "".
Proof.
  revert st cur. induction a as [|c a IH]; intros st cur H; [discriminate|].
  destruct a as [|c' a'].
  - simpl in *. rewrite H. reflexivity.
  - change (PyStr.endswith_char "/" (String c' a') = true) in H.
    change (FS.feed st cur (String c (String c' a')))
      with (if PyStr.ascii_eqb c "/" then FS.feed (FS.push cur st) "" (String c' a')
            else FS.feed st (cur ++ String c "") (String c' a')).
    destruct (PyStr.ascii_eqb c "/"); apply IH, H.
Qed.

Lemma is_empty_app_r (a b : string) :
  PyStr.is_empty b = false -> PyStr.is_empty (a ++ b) = false.
Proof. destruct a; [rewrite app_empty; auto|reflexivity]. Qed.

Lemma is_empty_path_join a b :
  PyStr.is_empty b = false -> PyStr.is_empty (PyStr.path_join a b) = false.
Proof.
  intros H. unfold PyStr.path_join.
  destruct (PyStr.startswith "/" b); [exact H|].
  destruct (PyStr.is_empty a || PyStr.endswith_char "/" a)%bool;
    repeat apply is_empty_app_r; exact H.
Qed.

Lemma plain_hooks : plain "hooks".
Proof. repeat split. Qed.

Lemma plain_pre_receive : plain "pre-receive".
Proof. repeat split. Qed.

Lemma resolve_start cwd s :
  FS.resolve cwd s
  = FS.resolve_from (if PyStr.startswith "/" s then [] else rev cwd) "" s.
Proof. unfold FS.resolve. destruct (PyStr.startswith "/" s); reflexivity. Qed.

Lemma resolve_join cwd a name :
  plain name ->
  FS.resolve cwd (PyStr.path_join a name) = (FS.resolve cwd a ++ [name])%list.
Proof.
  intros (Hrel & Hfeed & Hpush). unfold PyStr.path_join. rewrite Hrel.
  destruct a as [|c a].
  - simpl PyStr.is_empty. cbn [orb]. rewrite app_empty.
    unfold FS.resolve. rewrite Hrel. unfold FS.resolve_from.
    rewrite Hfeed, Hpush. simpl.
    change (FS.push "" (rev cwd)) with (rev cwd).
    rewrite rev_involutive. reflexivity.
  - simpl PyStr.is_empty. cbn [orb].
    set (s := String c a).
    assert (Hhead : forall t, PyStr.startswith "/" (s ++ t) = PyStr.startswith "/" s).
    { intros t. subst s. rewrite app_cons. simpl.
      rewrite !andb_true_r. reflexivity. }
    destruct (PyStr.endswith_char "/" s) eqn:Hend;
      rewrite !resolve_start, Hhead;
      set (st0 := if PyStr.startswith "/" s then [] else rev cwd);
      unfold FS.resolve_from; rewrite feed_app;
      destruct (FS.feed st0 "" s) as [st' cur'] eqn:Hf; simpl fst; simpl snd.
    + pose proof (feed_ends_with_slash st0 "" s Hend) as Hc.
      rewrite Hf in Hc. simpl in Hc. subst cur'.
      rewrite Hfeed, Hpush. reflexivity.
    + change ("/" ++ name) with (String "/" name). simpl FS.feed.
      rewrite Hfeed, Hpush. reflexivity.
Qed.

Lemma locate_hook w p :
  locate w (PyStr.path_join (PyStr.path_join p "hooks") "pre-receive")
  = (locate w p ++ ["hooks"; "pre-receive"])%list.
Proof.
  unfold locate.
  rewrite (resolve_join _ _ _ plain_pre_receive), (resolve_join _ _ _ plain_hooks).
  rewrite <- app_assoc. reflexivity.
Qed.

(** ** Dispatching twice *)

Lemma set_fs_same w : set_fs (fs w) w = w.
Proof. destruct w; reflexivity. Qed.

Lemma chdir_inv_full p w w' :
  chdir p w = (Ok tt, w') ->
  PyStr.is_empty p = false /\ FS.is_dir (locate w p) (fs w) = true /\
  w' = set_cwd (locate w p) w.
Proof.
  unfold chdir. destruct (PyStr.is_empty p); simpl; [discriminate|].
  destruct (FS.is_dir (locate w p) (fs w)); [|discriminate].
  intros [= <-]. repeat split.
Qed.

Lemma chdir_ok p w :
  PyStr.is_empty p = false -> FS.is_dir (locate w p) (fs w) = true ->
  chdir p w = (Ok tt, set_cwd (locate w p) w).
Proof. intros He Hd. unfold chdir. rewrite He, Hd. reflexivity. Qed.

Lemma ensure_bare_repo_frame E p w r w' :
  ensure_bare_repo E p w = (r, w') ->
  this_script w' = this_script w /\ environ w' = environ w /\ cwd w' = cwd w.
Proof.
  intros H. apply ensure_bare_repo_inv in H as [_ [[_ ->]|[_ ->]]];
    repeat split.
Qed.

Lemma append_assoc (a b c : string) : (a ++ b) ++ c = a ++ b ++ c.
Proof.
  induction a as [|x a IH]; [reflexivity|].
  rewrite !app_cons, IH. reflexivity.
Qed.

Lemma ensure_bare_repo_present E p w :
  present p w = true -> ensure_bare_repo E p w = (Ok tt, w).
Proof.
  intros Hx. unfold ensure_bare_repo, mbind, M_bind, path_exists.
  rewrite Hx. reflexivity.
Qed.

(** A path under which something lies is a directory, and so is present
    however it is written. *)
Lemma lookup_under_is_dir p c q n x :
  FS.lookup (p ++ c :: q)%list n = Some x -> FS.is_dir p n = true.
Proof.
  rewrite lookup_app. unfold FS.is_dir.
  destruct (FS.lookup p n) as [[|es]|]; [discriminate|reflexivity|discriminate].
Qed.

Lemma is_dir_present p w :
  PyStr.is_empty p = false -> FS.is_dir (locate w p) (fs w) = true ->
  present p w = true.
Proof.
  intros He Hd. unfold present. rewrite He. simpl.
  destruct (FS.names_dir p); [exact Hd|].
  unfold FS.is_dir in Hd. unfold FS.exists_.
  destruct (FS.lookup (locate w p) (fs w)); [reflexivity|discriminate].
Qed.

(** A path that ends in a plain name is present when something is there. *)
Lemma feed_cur st st' cur s :
  (FS.feed st cur s).2 = (FS.feed st' cur s).2.
Proof.
  revert st st' cur. induction s as [|c s IH]; intros st st' cur; [reflexivity|].
  simpl. destruct (PyStr.ascii_eqb c "/"); apply IH.
Qed.

Lemma names_dir_join a name : plain name -> FS.names_dir (PyStr.path_join a name) = false.
Proof.
  intros (Hrel & Hfeed & Hpush).
  assert (Hname : (PyStr.is_empty name || String.eqb name "."
                   || String.eqb name "..")%bool = false).
  { specialize (Hpush []). unfold FS.push in Hpush.
    destruct (PyStr.is_empty name || String.eqb name ".")%bool; [discriminate|].
    destruct (String.eqb name ".."); [discriminate|reflexivity]. }
  assert (Hslash : forall b, (FS.feed [] "" (b ++ "/" ++ name)).2 = name).
  { intros b. rewrite <- append_assoc, feed_app.
    rewrite (feed_ends_with_slash [] "" (b ++ "/")).
    - rewrite Hfeed. reflexivity.
    - clear. induction b as [|c b IH]; [reflexivity|].
      rewrite app_cons. destruct b as [|c' b']; [reflexivity|].
      rewrite app_cons in IH |- *. exact IH. }
  unfold FS.names_dir, PyStr.path_join. rewrite Hrel.
  destruct (PyStr.is_empty a || PyStr.endswith_char "/" a)%bool eqn:Ha.
  - assert (Hcur : (FS.feed [] "" (a ++ name)).2 = name).
    { apply orb_true_iff in Ha as [Ha|Ha].
      - destruct a; [|discriminate]. rewrite app_empty, Hfeed. reflexivity.
      - rewrite feed_app, (feed_ends_with_slash _ _ _ Ha), Hfeed. reflexivity. }
    cbv zeta. rewrite Hcur. exact Hname.
  - cbv zeta. rewrite Hslash. exact Hname.
Qed.

Lemma present_join a name w :
  plain name ->
  present (PyStr.path_join a name) w
  = FS.exists_ (locate w a ++ [name])%list (fs w).
Proof.
  intros Hp. unfold present.
  rewrite (names_dir_join a name Hp).
  rewrite is_empty_path_join.
  - unfold locate. rewrite (resolve_join _ _ _ Hp). reflexivity.
  - destruct Hp as (_ & _ & Hpush). specialize (Hpush []). unfold FS.push in Hpush.
    destruct (PyStr.is_empty name); [discriminate|reflexivity].
Qed.

(** Once the hook is installed, its file holds the script with mode 0755. *)
Lemma hook_installed p h w w' :
  ensure_prereceive_hook p h w = (Ok tt, w') ->
  FS.lookup (locate w p ++ ["hooks"; "pre-receive"])%list (fs w')
    = Some (FS.File (hook_script (this_script w)) 493) /\
  w' = set_fs (fs w') w.
Proof.
  intros H. apply ensure_prereceive_hook_inv in H as (n1 & n2 & H1 & H2 & ->).
  rewrite locate_hook in H1, H2. split; [|reflexivity]. simpl.
  apply alter_lookup in H1 as (x1 & Hf1 & Hl1).
  apply alter_lookup in H2 as (x2 & Hf2 & Hl2).
  rewrite Hl1 in Hf2. rewrite Hl2. f_equal.
  destruct (FS.lookup (locate w p ++ ["hooks"; "pre-receive"])%list (fs w))
    as [[c m|es]|]; simpl in Hf1; try discriminate;
    injection Hf1 as <-; simpl in Hf2; injection Hf2 as <-; reflexivity.
Qed.

(** Installing the hook over itself changes nothing. *)
Lemma ensure_prereceive_hook_same p h w :
  FS.lookup (locate w p ++ ["hooks"; "pre-receive"])%list (fs w)
    = Some (FS.File (hook_script (this_script w)) 493) ->
  ensure_prereceive_hook p h w = (Ok tt, w).
Proof.
  intros Hl. unfold ensure_prereceive_hook.
  rewrite (bind_ok abspath_file _ w (this_script w) w eq_refl).
  assert (He : PyStr.is_empty
                 (PyStr.path_join (PyStr.path_join p "hooks") "pre-receive") = false)
    by (apply is_empty_path_join; reflexivity).
  assert (Hw : write_file (PyStr.path_join (PyStr.path_join p "hooks") "pre-receive")
                 (hook_script (this_script w)) w = (Ok tt, w)).
  { unfold write_file, fs_op. rewrite He, locate_hook.
    rewrite (alter_id _ _ _ _ Hl eq_refl), set_fs_same. reflexivity. }
  rewrite (bind_ok _ _ _ _ _ Hw).
  unfold chmod, fs_op. rewrite He, locate_hook.
  rewrite (alter_id _ _ _ _ Hl eq_refl), set_fs_same. reflexivity.
Qed.

(** C6: when a dispatch has run to its end and the git shell it started
    left the hook file and the home directory in place, a second dispatch of
    the same session on the file tree the first one left also runs to its
    end; it starts the git shell and nothing else (no [git init]), and the
    hook file holds the same script after it as after the first. *)
Theorem second_dispatch_idempotent
    (E : Externals) (argv : list string) (git_user home_dir : string)
    (w0 w1 : World) (cmd repo : string) :
  environ w0 !! "SSH_ORIGINAL_COMMAND" = Some cmd ->
  parse_repo_from_ssh_command cmd = Some repo ->
  run E argv git_user home_dir w0 = (Ok RNone, w1) ->
  let hook_file :=
    (locate w0 (PyStr.path_join home_dir repo) ++ ["hooks"; "pre-receive"])%list in
  (forall c w, FS.lookup hook_file (spawn E ["git-shell"; "-c"; c] w)
               = FS.lookup hook_file (fs w)) ->
  (forall c w, FS.is_dir (locate w0 home_dir) (fs w) = true ->
               FS.is_dir (locate w0 home_dir) (spawn E ["git-shell"; "-c"; c] w) = true) ->
  exists w2 verb,
    run E argv git_user home_dir (set_fs (fs w1) w0) = (Ok RNone, w2) /\
    calls w2 = (calls w0 ++ [["git-shell"; "-c"; (verb ++ " '" ++ repo ++ "'")%string]])%list /\
    FS.read hook_file (fs w1) = Some (hook_script (this_script w0)) /\
    FS.read hook_file (fs w2) = FS.read hook_file (fs w1).
Proof.
  intros Henv Hparse H hook_file Hkeep Hdir.
  (* the first dispatch, step by step *)
  unfold run in H |- *.
  destruct (length argv <? 4)%nat eqn:Hlen; [discriminate|].
  destruct argv as [|a0 [|a1 [|user [|fp rest]]]]; try discriminate Hlen.
  bind_step H x1 v1 Hx1. apply item_inv in Hx1 as [-> [= <-]].
  bind_step H x2 v2 Hx2. apply item_inv in Hx2 as [-> [= <-]].
  bind_step H x3 v3 Hx3. apply environ_get_inv in Hx3 as [-> Hx3].
  rewrite Henv in Hx3. injection Hx3 as <-.
  rewrite Hparse in H. simpl default in H.
  destruct (falsy (Some repo)) eqn:Hf; [discriminate|]. simpl in Hf.
  set (repo_path := PyStr.path_join home_dir repo) in *.
  assert (Hrp : PyStr.is_empty repo_path = false)
    by (apply is_empty_path_join; exact Hf).
  bind_step H u4 wa Ha. apply ensure_bare_repo_frame in Ha as (Hsa & Hea & Hca).
  bind_step H u5 wb Hb. destruct u5.
  apply hook_installed in Hb as [Hhook Hwb].
  assert (Hloc_a : forall p, locate wa p = locate w0 p)
    by (intros p; unfold locate; rewrite Hca; reflexivity).
  rewrite Hloc_a, Hsa in Hhook. fold hook_file in Hhook.
  bind_step H u6 wc H3. injection H3 as _ <-.
  bind_step H u7 wc4 H4. injection H4 as _ <-.
  bind_step H u8 wc5 H5. injection H5 as _ <-.
  bind_step H u9 wd Hd. destruct u9.
  apply chdir_inv_full in Hd as (Hhome & Hisdir & ->).
  assert (Hloc_b : forall p,
            locate (set_environ (<["RECEIVE_REPO":=repo]>
                      (environ (set_environ (<["RECEIVE_FINGERPRINT":=fp]>
                         (environ (set_environ (<["RECEIVE_USER":=user]> (environ wb)) wb)))
                         (set_environ (<["RECEIVE_USER":=user]> (environ wb)) wb))))
                      (set_environ (<["RECEIVE_FINGERPRINT":=fp]>
                         (environ (set_environ (<["RECEIVE_USER":=user]> (environ wb)) wb)))
                         (set_environ (<["RECEIVE_USER":=user]> (environ wb)) wb))) p
            = locate w0 p).
  { intros p. unfold locate. simpl. rewrite Hwb. simpl. rewrite Hca. reflexivity. }
  rewrite Hloc_b in Hisdir. simpl in Hisdir.
  bind_step H c7 wd7 H7. apply environ_get_inv in H7 as [-> H7].
  simpl in H7. rewrite !lookup_insert_ne in H7 by discriminate.
  rewrite Hwb in H7. simpl in H7. rewrite Hea, Henv in H7. injection H7 as <-.
  bind_step H verb wd8 H8. apply item_inv in H8 as [-> H8].
  bind_step H u10 wd9 H9. unfold subprocess_call in H9. injection H9 as _ <-.
  injection H as Hw1. symmetry in Hw1.
  assert (Hhook1 : FS.lookup hook_file (fs w1)
                   = Some (FS.File (hook_script (this_script w0)) 493)).
  { rewrite Hw1. simpl fs. rewrite Hkeep. simpl fs. exact Hhook. }
  assert (Hdir1 : FS.is_dir (locate w0 home_dir) (fs w1) = true).
  { rewrite Hw1. simpl fs. apply Hdir. simpl fs. exact Hisdir. }
  clear Hw1.
  (* the second dispatch *)
  set (v0 := set_fs (fs w1) w0).
  assert (Hloc0 : forall p, locate v0 p = locate w0 p) by reflexivity.
  exists (set_fs (spawn E ["git-shell"; "-c"; verb ++ " '" ++ repo ++ "'"]
                    (set_cwd (locate w0 home_dir)
                       (set_environ
                          (<["RECEIVE_REPO":=repo]>
                             (<["RECEIVE_FINGERPRINT":=fp]>
                                (<["RECEIVE_USER":=user]> (environ w0)))) v0)))
            (add_call ["git-shell"; "-c"; verb ++ " '" ++ repo ++ "'"]
               (set_cwd (locate w0 home_dir)
                  (set_environ
                     (<["RECEIVE_REPO":=repo]>
                        (<["RECEIVE_FINGERPRINT":=fp]>
                           (<["RECEIVE_USER":=user]> (environ w0)))) v0)))), verb.
  split; [|split; [|split]].
  - rewrite (bind_ok _ _ v0 user v0 eq_refl).
    rewrite (bind_ok _ _ v0 fp v0 eq_refl).
    assert (Hget : environ_get "SSH_ORIGINAL_COMMAND" v0 = (Ok cmd, v0))
      by (unfold environ_get; simpl; rewrite Henv; reflexivity).
    rewrite (bind_ok _ _ _ _ _ Hget).
    rewrite Hparse. change (falsy (Some repo)) with (PyStr.is_empty repo).
    rewrite Hf. simpl default. fold repo_path.
    assert (Hx : present repo_path v0 = true).
    { apply is_dir_present; [exact Hrp|]. rewrite Hloc0. simpl fs.
      eapply lookup_under_is_dir. exact Hhook1. }
    rewrite (bind_ok _ _ _ _ _ (ensure_bare_repo_present E _ _ Hx)).
    assert (Hh : ensure_prereceive_hook repo_path home_dir v0 = (Ok tt, v0)).
    { apply ensure_prereceive_hook_same. rewrite Hloc0. exact Hhook1. }
    rewrite (bind_ok _ _ _ _ _ Hh).
    rewrite (bind_ok (environ_set "RECEIVE_USER" user) _ v0 tt _ eq_refl).
    rewrite (bind_ok (environ_set "RECEIVE_FINGERPRINT" fp) _ _ tt _ eq_refl).
    rewrite (bind_ok (environ_set "RECEIVE_REPO" repo) _ _ tt _ eq_refl).
    simpl environ.
    erewrite bind_ok; [|apply chdir_ok; [exact Hhome|exact Hdir1]].
    erewrite bind_ok; cycle 1.
    { unfold environ_get. simpl environ.
      rewrite !lookup_insert_ne by discriminate. rewrite Henv. reflexivity. }
    erewrite bind_ok by (apply item_lookup; exact H8).
    erewrite bind_ok by reflexivity.
    reflexivity.
  - reflexivity.
  - unfold FS.read. rewrite Hhook1. reflexivity.
  - unfold FS.read. simpl fs. rewrite Hkeep. reflexivity.
Qed.

Lemma second_dispatch_idempotent_witness :
  let argv := ["gitreceive"; "run"; "alice"; "F"] in
  let w0 := Host.world [("SSH_ORIGINAL_COMMAND", "git-receive-pack '/proj.git'")] "" in
  let w1 := (run Host.externals argv "git" "/home/git" w0).2 in
  let hook_file := ["home"; "git"; "proj.git"; "hooks"; "pre-receive"] in
  exists w2 verb,
    run Host.externals argv "git" "/home/git" (set_fs (fs w1) w0) = (Ok RNone, w2) /\
    calls w2 = [["git-shell"; "-c"; verb ++ " '" ++ "proj.git" ++ "'"]] /\
    FS.read hook_file (fs w1) = Some (hook_script "/usr/bin/gitreceive") /\
    FS.read hook_file (fs w2) = FS.read hook_file (fs w1).
Proof.
  intros argv w0 w1 hook_file.
  apply (second_dispatch_idempotent Host.externals argv "git" "/home/git" w0 w1
           "git-receive-pack '/proj.git'" "proj.git").
  - vm_compute. reflexivity.
  - vm_compute. reflexivity.
  - vm_compute. reflexivity.
  - intros c w. reflexivity.
  - intros c w H. exact H.
Defined.

(** The first dispatch need not run to its end: on a path that exists
    without being a repository, no repository is made and writing the hook
    raises. *)
Example dispatch_on_plain_directory :
  let w := Host.world [("SSH_ORIGINAL_COMMAND", "git-receive-pack '.ssh'")] "" in
  run Host.externals ["gitreceive"; "run"; "alice"; "F"] "git" "/home/git" w
  = (Raise (IOError "/home/git/.ssh/hooks/pre-receive"), w).
Proof. vm_compute. reflexivity. Qed.

(** * Further properties of the script *)

(** ** The repository path stays under the home directory *)


Lemma contains_app_l sub a b :
  PyStr.contains sub (a ++ b) = false -> PyStr.contains sub a = false.
Proof.
  intros H. destruct (PyStr.contains sub a) eqn:Ha; [|reflexivity].
  apply contains_spec in Ha as (pre & post & ->).
  assert (Hc : PyStr.contains sub ((pre ++ sub ++ post) ++ b) = true).
  { apply contains_spec. exists pre, (post ++ b).
    rewrite !append_assoc. reflexivity. }
  rewrite Hc in H. discriminate.
Qed.

Lemma contains_app_r sub a b :
  PyStr.contains sub (a ++ b) = false -> PyStr.contains sub b = false.
Proof.
  intros H. destruct (PyStr.contains sub b) eqn:Hb; [|reflexivity].
  apply contains_spec in Hb as (pre & post & ->).
  assert (Hc : PyStr.contains sub (a ++ pre ++ sub ++ post) = true).
  { apply contains_spec. exists (a ++ pre), post.
    rewrite !append_assoc. reflexivity. }
  rewrite Hc in H. discriminate.
Qed.

Lemma lstrip_by_head p s c r :
  PyStr.lstrip_by p s = String c r -> p c = false.
Proof.
  induction s as [|a s IH]; simpl; [discriminate|].
  destruct (p a) eqn:Hp; [exact IH|].
  intros [= <- _]. exact Hp.
Qed.

Lemma parse_repo_inv cmd path :
  parse_repo_from_ssh_command cmd = Some path ->
  exists verb tok rest,
    PyStr.split_ws cmd = verb :: tok :: rest /\
    path = PyStr.lstrip "/" (PyStr.strip dquote (PyStr.strip "'" tok)) /\
    PyStr.contains ".." path = false.
Proof.
  unfold parse_repo_from_ssh_command.
  destruct (PyStr.split_ws cmd) as [|verb [|tok rest]]; try discriminate.
  destruct (PyStr.contains ".." _) eqn:Hc; [discriminate|].
  intros [= <-]. exists verb, tok, rest. repeat split. exact Hc.
Qed.

(** A component without [..] in it is never the parent directory: pushing
    it leaves the stack as it is or puts the component on top. *)
Lemma push_clean cur st :
  PyStr.contains ".." cur = false ->
  exists ext, FS.push cur st = (ext ++ st)%list /\ ~ In ".." ext.
Proof.
  intros H. unfold FS.push.
  destruct (PyStr.is_empty cur || String.eqb cur ".")%bool.
  - exists []. split; [reflexivity|]. intros [].
  - destruct (String.eqb cur "..") eqn:He.
    + apply String.eqb_eq in He. subst cur. discriminate H.
    + exists [cur]. split; [reflexivity|].
      intros [Hin|[]]. subst cur. discriminate H.
Qed.

Lemma feed_grows st cur s :
  PyStr.contains ".." (cur ++ s) = false ->
  exists ext,
    FS.push (FS.feed st cur s).2 (FS.feed st cur s).1 = (ext ++ st)%list /\
    ~ In ".." ext.
Proof.
  revert st cur. induction s as [|c s IH]; intros st cur H.
  - rewrite app_empty_r in H. simpl. apply push_clean, H.
  - simpl. destruct (PyStr.ascii_eqb c "/") eqn:Hc.
    + destruct (push_clean cur st (contains_app_l _ _ _ H)) as (e0 & -> & Hn0).
      assert (Hs : PyStr.contains ".." ("" ++ s) = false).
      { rewrite app_empty.
        apply (contains_app_r ".." (cur ++ String c "") s).
        rewrite app_snoc. exact H. }
      destruct (IH (e0 ++ st)%list "" Hs) as (e1 & -> & Hn1).
      exists (e1 ++ e0)%list. split; [apply app_assoc|].
      intros Hin. apply in_app_or in Hin as [Hin|Hin]; auto.
    + apply IH. rewrite app_snoc. exact H.
Qed.

Lemma parse_repo_relative cmd path :
  parse_repo_from_ssh_command cmd = Some path ->
  PyStr.startswith "/" path = false /\ PyStr.contains ".." path = false.
Proof.
  intros H. apply parse_repo_inv in H as (verb & tok & rest & _ & Hp & Hc).
  split; [|exact Hc].
  destruct path as [|c r]; [reflexivity|].
  symmetry in Hp. apply lstrip_by_head in Hp.
  change (PyStr.startswith "/" (String c r))
    with (PyStr.ascii_eqb "/" c && true)%bool.
  rewrite andb_true_r.
  destruct (PyStr.ascii_eqb "/" c) eqn:He; [|reflexivity].
  apply ascii_eqb_eq in He. subst c. discriminate Hp.
Qed.

(** X1: a path that [parse_repo_from_ssh_command] returns never starts with
    a slash and never has [..] in it. *)
Theorem parse_repo_result_is_relative (cmd path : string) :
  parse_repo_from_ssh_command cmd = Some path ->
  PyStr.startswith "/" path = false /\ PyStr.contains ".." path = false.
Proof. exact (parse_repo_relative cmd path). Qed.

Lemma parse_repo_result_is_relative_witness :
  PyStr.startswith "/" "a/b.git" = false /\ PyStr.contains ".." "a/b.git" = false.
Proof.
  apply (parse_repo_result_is_relative "git-upload-pack '///a/b.git'" "a/b.git").
  vm_compute. reflexivity.
Defined.

(** X2: whatever the original command, the repository path that dispatch
    builds from the home directory and the parsed path resolves to a place
    under the home directory, reached from it without a parent step; the
    hook file lies under that place. *)
Theorem repo_path_under_home (w : World) (home_dir cmd repo : string) :
  parse_repo_from_ssh_command cmd = Some repo ->
  exists rel,
    locate w (PyStr.path_join home_dir repo) = (locate w home_dir ++ rel)%list /\
    ~ In ".." rel /\
    locate w (PyStr.path_join
                (PyStr.path_join (PyStr.path_join home_dir repo) "hooks")
                "pre-receive")
    = (locate w home_dir ++ rel ++ ["hooks"; "pre-receive"])%list.
Proof.
  intros H. destruct (parse_repo_relative _ _ H) as [Hrel Hclean].
  assert (Hgoal : exists rel,
            locate w (PyStr.path_join home_dir repo) = (locate w home_dir ++ rel)%list /\
            ~ In ".." rel).
  { unfold locate, PyStr.path_join. rewrite Hrel.
    destruct home_dir as [|c h].
    - simpl PyStr.is_empty. cbn [orb]. rewrite app_empty.
      unfold FS.resolve. rewrite Hrel. unfold FS.resolve_from.
      destruct (feed_grows (rev (cwd w)) "" repo) as (ext & He & Hn);
        [rewrite app_empty; exact Hclean|].
      destruct (FS.feed (rev (cwd w)) "" repo) as [st' cur'].
      simpl in He. rewrite He. exists (rev ext). split.
      + simpl. change (FS.push "" (rev (cwd w))) with (rev (cwd w)).
        rewrite rev_app_distr, rev_involutive. reflexivity.
      + rewrite <- in_rev. exact Hn.
    - simpl PyStr.is_empty. cbn [orb]. set (s := String c h).
      assert (Hhead : forall t, PyStr.startswith "/" (s ++ t) = PyStr.startswith "/" s).
      { intros t. subst s. rewrite app_cons. simpl.
        rewrite !andb_true_r. reflexivity. }
      destruct (PyStr.endswith_char "/" s) eqn:Hend;
        rewrite !resolve_start, Hhead;
        set (st0 := if PyStr.startswith "/" s then [] else rev (cwd w));
        unfold FS.resolve_from; rewrite feed_app;
        destruct (FS.feed st0 "" s) as [st' cur'] eqn:Hf; simpl fst; simpl snd.
      + pose proof (feed_ends_with_slash st0 "" s Hend) as Hc.
        rewrite Hf in Hc. simpl in Hc. subst cur'.
        destruct (feed_grows st' "" repo) as (ext & He & Hn);
          [rewrite app_empty; exact Hclean|].
        destruct (FS.feed st' "" repo) as [st2 cur2].
        simpl in He. rewrite He. exists (rev ext). split.
        * change (FS.push "" st') with st'. apply rev_app_distr.
        * rewrite <- in_rev. exact Hn.
      + change ("/" ++ repo) with (String "/" repo). simpl FS.feed.
        destruct (feed_grows (FS.push cur' st') "" repo) as (ext & He & Hn);
          [rewrite app_empty; exact Hclean|].
        destruct (FS.feed (FS.push cur' st') "" repo) as [st2 cur2].
        simpl in He. rewrite He. exists (rev ext). split.
        * apply rev_app_distr.
        * rewrite <- in_rev. exact Hn. }
  destruct Hgoal as (rel & Hloc & Hn). exists rel.
  split; [exact Hloc|]. split; [exact Hn|].
  rewrite locate_hook, Hloc, <- app_assoc. reflexivity.
Qed.

Lemma repo_path_under_home_witness :
  let w := Host.world [] "" in
  exists rel,
    locate w (PyStr.path_join "/home/git/" "team/proj.git")
      = (locate w "/home/git/" ++ rel)%list /\
    ~ In ".." rel /\
    locate w (PyStr.path_join
                (PyStr.path_join (PyStr.path_join "/home/git/" "team/proj.git") "hooks")
                "pre-receive")
    = (locate w "/home/git/" ++ rel ++ ["hooks"; "pre-receive"])%list.
Proof.
  intros w.
  apply (repo_path_under_home w "/home/git/"
           "git-receive-pack '/team/proj.git'" "team/proj.git").
  vm_compute. reflexivity.
Defined.

(** ** What a completed dispatch has done *)

(** Every step of a dispatch that ran to its end. *)
Lemma run_accepted_inv E argv git_user home_dir w w' :
  run E argv git_user home_dir w = (Ok RNone, w') ->
  exists a0 a1 user fp rest cmd verb repo wa n2,
    argv = a0 :: a1 :: user :: fp :: rest /\
    environ w !! "SSH_ORIGINAL_COMMAND" = Some cmd /\
    parse_repo_from_ssh_command cmd = Some repo /\
    PyStr.is_empty repo = false /\
    nth_error (PyStr.split_ws cmd) 0 = Some verb /\
    ensure_bare_repo E (PyStr.path_join home_dir repo) w = (Ok tt, wa) /\
    ensure_prereceive_hook (PyStr.path_join home_dir repo) home_dir wa
      = (Ok tt, set_fs n2 wa) /\
    PyStr.is_empty home_dir = false /\
    FS.is_dir (locate w home_dir) n2 = true /\
    let wd :=
      set_cwd (locate w home_dir)
        (set_environ
           (<["RECEIVE_REPO":=repo]>
              (<["RECEIVE_FINGERPRINT":=fp]>
                 (<["RECEIVE_USER":=user]> (environ w))))
           (set_fs n2 wa)) in
    let shell := ["git-shell"; "-c"; verb ++ " '" ++ repo ++ "'"] in
    w' = set_fs (spawn E shell wd) (add_call shell wd).
Proof.
  unfold run. destruct (length argv <? 4)%nat eqn:Hlen; [discriminate|].
  destruct argv as [|a0 [|a1 [|user [|fp rest]]]]; try discriminate Hlen.
  intros H.
  bind_step H x1 v1 Hx1. apply item_inv in Hx1 as [-> [= <-]].
  bind_step H x2 v2 Hx2. apply item_inv in Hx2 as [-> [= <-]].
  bind_step H cmd v3 Hx3. apply environ_get_inv in Hx3 as [-> Henv].
  destruct (parse_repo_from_ssh_command cmd) as [repo|] eqn:Hparse;
    [|discriminate].
  destruct (falsy (Some repo)) eqn:Hf; [discriminate|]. simpl in Hf.
  simpl default in H.
  bind_step H u4 wa Ha. destruct u4.
  pose proof (ensure_bare_repo_frame _ _ _ _ _ Ha) as (Hsa & Hea & Hca).
  bind_step H u5 wb Hb. destruct u5.
  pose proof (hook_installed _ _ _ _ Hb) as [_ Hwb].
  bind_step H u6 wc H3. injection H3 as _ <-.
  bind_step H u7 wc4 H4. injection H4 as _ <-.
  bind_step H u8 wc5 H5. injection H5 as _ <-.
  bind_step H u9 wd Hd. destruct u9.
  apply chdir_inv_full in Hd as (Hhome & Hisdir & ->).
  bind_step H c7 wd7 H7. apply environ_get_inv in H7 as [-> H7].
  simpl in H7. rewrite !lookup_insert_ne in H7 by discriminate.
  rewrite Hwb in H7. simpl in H7. rewrite Hea, Henv in H7. injection H7 as <-.
  bind_step H verb wd8 H8. apply item_inv in H8 as [-> H8].
  bind_step H u10 wd9 H9. unfold subprocess_call in H9. injection H9 as _ <-.
  injection H as <-.
  exists a0, a1, user, fp, rest, cmd, verb, repo, wa, (fs wb).
  rewrite <- Hwb.
  split; [reflexivity|]. split; [exact Henv|]. split; [exact Hparse|].
  split; [exact Hf|]. split; [exact H8|]. split; [exact Ha|].
  split; [exact Hb|]. split; [exact Hhome|].
  assert (Hloc : forall (e : gmap string string) p,
            locate (set_environ e wb) p = locate w p).
  { intros e p. unfold locate. simpl. rewrite Hwb. simpl. rewrite Hca. reflexivity. }
  split.
  - unfold locate in Hisdir |- *. simpl in Hisdir.
    rewrite Hwb in Hisdir. simpl in Hisdir. rewrite Hca in Hisdir. exact Hisdir.
  - cbv zeta. unfold locate. simpl.
    rewrite Hwb. simpl. rewrite Hca, Hea. reflexivity.
Qed.

(** X3: a dispatch that ran to its end has bound the session for the hook:
    [RECEIVE_USER] and [RECEIVE_FINGERPRINT] hold its third and fourth
    arguments and [RECEIVE_REPO] the parsed path, every other variable is as
    it was, and the working directory is the home directory.  The last
    program it started is the git shell, [git-shell -c "<verb> '<repo>'"],
    started after all that, in a process that already had this environment
    and working directory. *)
Theorem run_binds_session
    (E : Externals) (argv : list string) (git_user home_dir : string)
    (w w' : World) :
  run E argv git_user home_dir w = (Ok RNone, w') ->
  exists user fp cmd verb repo wd,
    nth_error argv 2 = Some user /\
    nth_error argv 3 = Some fp /\
    environ w !! "SSH_ORIGINAL_COMMAND" = Some cmd /\
    nth_error (PyStr.split_ws cmd) 0 = Some verb /\
    parse_repo_from_ssh_command cmd = Some repo /\
    environ w' !! "RECEIVE_USER" = Some user /\
    environ w' !! "RECEIVE_FINGERPRINT" = Some fp /\
    environ w' !! "RECEIVE_REPO" = Some repo /\
    (forall k, k <> "RECEIVE_USER" -> k <> "RECEIVE_FINGERPRINT" ->
               k <> "RECEIVE_REPO" -> environ w' !! k = environ w !! k) /\
    cwd w' = locate w home_dir /\
    let shell := ["git-shell"; "-c"; verb ++ " '" ++ repo ++ "'"] in
    last (calls w') = Some shell /\
    calls w' = (calls wd ++ [shell])%list /\
    fs w' = spawn E shell wd /\
    environ wd = environ w' /\ cwd wd = cwd w'.
Proof.
  intros H.
  apply run_accepted_inv in H
    as (a0 & a1 & user & fp & rest & cmd & verb & repo & wa & n2 &
        -> & Henv & Hparse & _ & Hverb & _ & _ & _ & _ & ->).
  eexists user, fp, cmd, verb, repo, _.
  split; [reflexivity|]. split; [reflexivity|]. split; [exact Henv|].
  split; [exact Hverb|].
  split; [exact Hparse|]. simpl environ.
  split; [rewrite !lookup_insert_ne by discriminate; apply lookup_insert_eq|].
  split; [rewrite lookup_insert_ne by discriminate; apply lookup_insert_eq|].
  split; [apply lookup_insert_eq|].
  split; [intros k H1 H2 H3; rewrite !lookup_insert_ne by congruence; reflexivity|].
  split; [reflexivity|]. cbv zeta.
  split; [simpl calls; apply last_snoc|].
  split; [reflexivity|].
  split; [reflexivity|]. split; reflexivity.
Qed.

Lemma run_binds_session_witness :
  let w := Host.world [("SSH_ORIGINAL_COMMAND", "git-receive-pack '/proj.git'");
                       ("LANG", "C")] "" in
  let w' := (run Host.externals ["gitreceive"; "run"; "alice"; "F"] "git" "/home/git" w).2 in
  exists user fp cmd verb repo wd,
    nth_error ["gitreceive"; "run"; "alice"; "F"] 2 = Some user /\
    nth_error ["gitreceive"; "run"; "alice"; "F"] 3 = Some fp /\
    environ w !! "SSH_ORIGINAL_COMMAND" = Some cmd /\
    nth_error (PyStr.split_ws cmd) 0 = Some verb /\
    parse_repo_from_ssh_command cmd = Some repo /\
    environ w' !! "RECEIVE_USER" = Some user /\
    environ w' !! "RECEIVE_FINGERPRINT" = Some fp /\
    environ w' !! "RECEIVE_REPO" = Some repo /\
    (forall k, k <> "RECEIVE_USER" -> k <> "RECEIVE_FINGERPRINT" ->
               k <> "RECEIVE_REPO" -> environ w' !! k = environ w !! k) /\
    cwd w' = locate w "/home/git" /\
    let shell := ["git-shell"; "-c"; verb ++ " '" ++ repo ++ "'"] in
    last (calls w') = Some shell /\
    calls w' = (calls wd ++ [shell])%list /\
    fs w' = spawn Host.externals shell wd /\
    environ wd = environ w' /\ cwd wd = cwd w'.
Proof.
  intros w w'.
  apply (run_binds_session Host.externals ["gitreceive"; "run"; "alice"; "F"]
           "git" "/home/git" w w').
  vm_compute. reflexivity.
Defined.

Lemma hook_reads_session E flag argv git_user home_dir w repo user fp :
  environ w !! "RECEIVE_REPO" = Some repo ->
  environ w !! "RECEIVE_USER" = Some user ->
  environ w !! "RECEIVE_FINGERPRINT" = Some fp ->
  hook E flag argv git_user home_dir w
  = (trigger_receiver_lines E flag (PyStr.readlines (stdin w))
       repo user fp home_dir ≫= fun _ => mret RNone) w.
Proof.
  intros Hr Hu Hf. unfold hook.
  rewrite (bind_ok (environ_get "RECEIVE_REPO") _ w repo w)
    by (unfold environ_get; rewrite Hr; reflexivity).
  rewrite (bind_ok (environ_get "RECEIVE_USER") _ w user w)
    by (unfold environ_get; rewrite Hu; reflexivity).
  rewrite (bind_ok (environ_get "RECEIVE_FINGERPRINT") _ w fp w)
    by (unfold environ_get; rewrite Hf; reflexivity).
  unfold trigger_receiver.
  unfold mbind at 1 3. unfold M_bind at 1 3. unfold stdin_lines.
  reflexivity.
Qed.

(** X4: dispatch and hook compose.  In any process that inherits the
    environment a completed dispatch left, the hook hands the receiver the
    repository path parsed by that dispatch and the user and fingerprint it
    was started with: for a line of standard input that triggers the
    receiver, the two programs started are the archive of the line's new
    revision and the receiver with exactly those values. *)
Theorem hook_receives_what_run_bound
    (E : Externals) (argv : list string) (git_user home_dir : string)
    (w w1 : World) (user fp cmd repo : string) :
  run E argv git_user home_dir w = (Ok RNone, w1) ->
  nth_error argv 2 = Some user ->
  nth_error argv 3 = Some fp ->
  environ w !! "SSH_ORIGINAL_COMMAND" = Some cmd ->
  parse_repo_from_ssh_command cmd = Some repo ->
  forall flag argv' git_user' home' w2,
    environ w2 = environ w1 ->
    hook E flag argv' git_user' home' w2
    = (trigger_receiver_lines E flag (PyStr.readlines (stdin w2))
         repo user fp home' ≫= fun _ => mret RNone) w2
    /\
    forall line old new ref extra,
      PyStr.readlines (stdin w2) = [line] ->
      PyStr.split_ws line = old :: new :: ref :: extra ->
      (String.eqb ref "refs/heads/master" || negb flag)%bool = true ->
      exists w3,
        hook E flag argv' git_user' home' w2 = (Ok RNone, w3) /\
        calls w3 = (calls w2 ++ [archive_argv new;
                                 receiver_argv home' repo new user fp])%list.
Proof.
  intros H Hu Hf Henv Hparse flag argv' git_user' home' w2 He.
  apply run_accepted_inv in H
    as (a0 & a1 & user0 & fp0 & rest & cmd0 & verb & repo0 & wa & n2 &
        -> & Henv0 & Hparse0 & _ & _ & _ & _ & _ & _ & ->).
  simpl in Hu, Hf. injection Hu as ->. injection Hf as ->.
  rewrite Henv in Henv0. injection Henv0 as <-.
  rewrite Hparse in Hparse0. injection Hparse0 as <-.
  simpl environ in He.
  assert (Hhook : hook E flag argv' git_user' home' w2
                  = (trigger_receiver_lines E flag (PyStr.readlines (stdin w2))
                       repo user fp home' ≫= fun _ => mret RNone) w2).
  { apply hook_reads_session; rewrite He.
    - apply lookup_insert_eq.
    - rewrite !lookup_insert_ne by discriminate. apply lookup_insert_eq.
    - rewrite lookup_insert_ne by discriminate. apply lookup_insert_eq. }
  split; [exact Hhook|].
  intros line old new ref extra Hlines Hs Hg.
  exists (handled E repo user fp home' new w2). split.
  - rewrite Hhook, Hlines.
    erewrite bind_ok; [reflexivity|].
    rewrite (trigger_line_handled _ _ _ _ _ _ _ _ _ _ _ _ _ Hs Hg). reflexivity.
  - apply handled_calls.
Qed.

Lemma hook_receives_what_run_bound_witness :
  let w := Host.world [("SSH_ORIGINAL_COMMAND", "git-receive-pack '/proj.git'")] "" in
  let w1 := (run Host.externals ["gitreceive"; "run"; "alice"; "F"] "git" "/home/git" w).2 in
  let w2 := mkWorld (this_script w1) (fs w1) (environ w1) (cwd w1) (passwd w1)
                    ("0000 1111 refs/heads/master" ++ newline) [] [] in
  exists w3,
    hook Host.externals false ["gitreceive"; "hook"] "git" "/home/git" w2 = (Ok RNone, w3) /\
    calls w3 = [["git"; "archive"; "1111"];
                ["/home/git/receiver"; "proj.git"; "1111"; "alice"; "F"]].
Proof.
  intros w w1 w2.
  destruct (hook_receives_what_run_bound Host.externals
              ["gitreceive"; "run"; "alice"; "F"] "git" "/home/git" w w1
              "alice" "F" "git-receive-pack '/proj.git'" "proj.git"
              ltac:(vm_compute; reflexivity) eq_refl eq_refl
              ltac:(vm_compute; reflexivity) ltac:(vm_compute; reflexivity)
              false ["gitreceive"; "hook"] "git" "/home/git" w2 eq_refl)
    as [_ Hline].
  exact (Hline ("0000 1111 refs/heads/master" ++ newline)
           "0000" "1111" "refs/heads/master" []
           ltac:(vm_compute; reflexivity) ltac:(vm_compute; reflexivity) eq_refl).
Defined.

(** X5: a dispatch that ran to its end started [git init --bare] on the
    repository path exactly when [os.path.exists] did not hold of that path,
    and then before anything else; the only other program it started is the
    git shell, [git-shell -c "<verb> '<repo>'"], which is the only program
    at all when something was at the path, whatever it is. *)
Theorem run_initialises_only_absent_path
    (E : Externals) (argv : list string) (git_user home_dir : string)
    (w w' : World) :
  run E argv git_user home_dir w = (Ok RNone, w') ->
  exists cmd verb repo,
    environ w !! "SSH_ORIGINAL_COMMAND" = Some cmd /\
    nth_error (PyStr.split_ws cmd) 0 = Some verb /\
    parse_repo_from_ssh_command cmd = Some repo /\
    let repo_path := PyStr.path_join home_dir repo in
    let shell := ["git-shell"; "-c"; verb ++ " '" ++ repo ++ "'"] in
    (present repo_path w = true /\
     calls w' = (calls w ++ [shell])%list)
    \/
    (present repo_path w = false /\
     calls w' = (calls w ++ [["git"; "init"; "--bare"; repo_path]; shell])%list).
Proof.
  intros H.
  apply run_accepted_inv in H
    as (a0 & a1 & user & fp & rest & cmd & verb & repo & wa & n2 &
        -> & Henv & Hparse & Hne & Hverb & Ha & _ & _ & _ & ->).
  exists cmd, verb, repo.
  split; [exact Henv|]. split; [exact Hverb|]. split; [exact Hparse|]. cbv zeta.
  apply ensure_bare_repo_inv in Ha as [_ [[Hx ->]|[Hx ->]]].
  - left. split; [exact Hx|reflexivity].
  - right. split; [exact Hx|]. simpl. rewrite <- app_assoc. reflexivity.
Qed.

Lemma run_initialises_only_absent_path_witness :
  let w := Host.world [("SSH_ORIGINAL_COMMAND", "git-receive-pack '/proj.git'")] "" in
  let w' := (run Host.externals ["gitreceive"; "run"; "alice"; "F"] "git" "/home/git" w).2 in
  calls w' = [["git"; "init"; "--bare"; "/home/git/proj.git"];
              ["git-shell"; "-c"; "git-receive-pack 'proj.git'"]].
Proof.
  intros w w'.
  destruct (run_initialises_only_absent_path Host.externals
              ["gitreceive"; "run"; "alice"; "F"] "git" "/home/git" w w'
              ltac:(vm_compute; reflexivity))
    as (cmd & verb & repo & Henv & Hverb & Hparse & Hcalls).
  vm_compute in Henv. injection Henv as <-.
  vm_compute in Hverb. injection Hverb as <-.
  vm_compute in Hparse. injection Hparse as <-.
  destruct Hcalls as [[Hx _]|[_ Hc]]; [vm_compute in Hx; discriminate Hx|].
  exact Hc.
Defined.

(** Nothing can be put under a path that is not a directory. *)
Lemma alter_missing_parent f p c n :
  FS.is_dir p n = false -> FS.alter f (p ++ [c])%list n = None.
Proof.
  unfold FS.is_dir. revert n. induction p as [|x p IH]; intros n H; simpl in *.
  - destruct n as [|es]; [reflexivity|discriminate].
  - destruct n as [|es]; [reflexivity|].
    destruct (FS.lookup_entry x es) as [child|].
    + rewrite (IH _ H). reflexivity.
    + destruct p; reflexivity.
Qed.

(** X6: a repository path that holds no [hooks] directory.  When
    [os.path.exists] holds of the path (a regular file, or a directory that
    is not a repository), dispatch raises [IOError] on writing the hook: no
    repository is made, no program is started, nothing is printed, and the
    environment is as it was.  When [os.path.exists] does not hold of it
    (nothing is there, or a regular file is named with a trailing slash),
    [git init --bare] is started first, and when it leaves no [hooks]
    directory there the same [IOError] follows, [git init] being the only
    program started. *)
Theorem run_on_path_without_hooks
    (E : Externals) (a0 a1 user fp : string) (rest : list string)
    (git_user home_dir : string) (w : World) (cmd repo : string) :
  environ w !! "SSH_ORIGINAL_COMMAND" = Some cmd ->
  parse_repo_from_ssh_command cmd = Some repo ->
  PyStr.is_empty repo = false ->
  let repo_path := PyStr.path_join home_dir repo in
  let hook_path := PyStr.path_join (PyStr.path_join repo_path "hooks") "pre-receive" in
  let git_init := ["git"; "init"; "--bare"; repo_path] in
  (present repo_path w = true ->
   FS.is_dir (locate w repo_path ++ ["hooks"])%list (fs w) = false ->
   run E (a0 :: a1 :: user :: fp :: rest) git_user home_dir w
   = (Raise (IOError hook_path), w))
  /\
  (present repo_path w = false ->
   FS.is_dir (locate w repo_path ++ ["hooks"])%list (spawn E git_init w) = false ->
   run E (a0 :: a1 :: user :: fp :: rest) git_user home_dir w
   = (Raise (IOError hook_path), set_fs (spawn E git_init w) (add_call git_init w))).
Proof.
  intros Henv Hparse Hne repo_path hook_path git_init.
  assert (Hrun : forall wa,
            ensure_bare_repo E repo_path w = (Ok tt, wa) ->
            cwd wa = cwd w -> this_script wa = this_script w ->
            FS.is_dir (locate w repo_path ++ ["hooks"])%list (fs wa) = false ->
            run E (a0 :: a1 :: user :: fp :: rest) git_user home_dir w
            = (Raise (IOError hook_path), wa)).
  { intros wa Ha Hcwd Hscript Hd. unfold run.
    change (length (a0 :: a1 :: user :: fp :: rest) <? 4)%nat with false. cbv iota.
    rewrite (bind_ok _ _ w user w eq_refl).
    rewrite (bind_ok _ _ w fp w eq_refl).
    assert (Hget : environ_get "SSH_ORIGINAL_COMMAND" w = (Ok cmd, w))
      by (unfold environ_get; rewrite Henv; reflexivity).
    rewrite (bind_ok _ _ _ _ _ Hget). rewrite Hparse.
    change (falsy (Some repo)) with (PyStr.is_empty repo). rewrite Hne.
    simpl default. fold repo_path.
    rewrite (bind_ok _ _ _ _ _ Ha).
    apply bind_raise. unfold ensure_prereceive_hook.
    rewrite (bind_ok abspath_file _ wa (this_script wa) wa eq_refl).
    apply bind_raise. unfold write_file, fs_op. fold hook_path.
    assert (He : PyStr.is_empty hook_path = false)
      by (apply is_empty_path_join; reflexivity).
    rewrite He. unfold hook_path. rewrite locate_hook.
    assert (Hloc : locate wa repo_path = locate w repo_path)
      by (unfold locate; rewrite Hcwd; reflexivity).
    rewrite Hloc.
    change (locate w repo_path ++ ["hooks"; "pre-receive"])%list
      with (locate w repo_path ++ ["hooks"] ++ ["pre-receive"])%list.
    rewrite app_assoc, (alter_missing_parent _ _ _ _ Hd). reflexivity. }
  split.
  - intros Hx Hd. apply Hrun; [|reflexivity|reflexivity|exact Hd].
    apply ensure_bare_repo_present, Hx.
  - intros Hx Hd. apply Hrun; [|reflexivity|reflexivity|exact Hd].
    unfold ensure_bare_repo.
    rewrite (bind_ok (path_exists repo_path) _ w false w)
      by (unfold path_exists; rewrite Hx; reflexivity).
    reflexivity.
Qed.

Lemma run_on_path_without_hooks_witness :
  let w := Host.world [("SSH_ORIGINAL_COMMAND", "git-receive-pack '.ssh'")] "" in
  let tree := FS.Dir [("home", FS.Dir [("git",
                FS.Dir [("receiver", FS.File "#!/bin/bash" 493)])])] in
  let v := mkWorld "/usr/bin/gitreceive" tree
             (list_to_map [("SSH_ORIGINAL_COMMAND", "git-receive-pack 'receiver/'")])
             [] (list_to_map [("git", "/home/git")]) "" [] [] in
  run Host.externals ["gitreceive"; "run"; "alice"; "F"] "git" "/home/git" w
  = (Raise (IOError "/home/git/.ssh/hooks/pre-receive"), w)
  /\
  run Host.externals ["gitreceive"; "run"; "alice"; "F"] "git" "/home/git" v
  = (Raise (IOError "/home/git/receiver/hooks/pre-receive"),
     add_call ["git"; "init"; "--bare"; "/home/git/receiver/"] v).
Proof.
  intros w tree v. split.
  - exact (proj1 (run_on_path_without_hooks Host.externals "gitreceive" "run"
                    "alice" "F" [] "git" "/home/git" w
                    "git-receive-pack '.ssh'" ".ssh" eq_refl eq_refl eq_refl)
             eq_refl eq_refl).
  - exact (proj2 (run_on_path_without_hooks Host.externals "gitreceive" "run"
                    "alice" "F" [] "git" "/home/git" v
                    "git-receive-pack 'receiver/'" "receiver/" eq_refl eq_refl eq_refl)
             eq_refl eq_refl).
Defined.

(** ** Installing the hook *)

Lemma lookup_entry_set_ne c d x es :
  c <> d -> FS.lookup_entry d (FS.set_entry c x es) = FS.lookup_entry d es.
Proof.
  intros Hne. induction es as [|[k m] es IH]; simpl.
  - destruct (String.eqb c d) eqn:He; [|reflexivity].
    apply String.eqb_eq in He. contradiction.
  - destruct (String.eqb k c) eqn:Hk; simpl.
    + apply String.eqb_eq in Hk. subst k.
      destruct (String.eqb c d) eqn:He; [|reflexivity].
      apply String.eqb_eq in He. contradiction.
    + destruct (String.eqb k d); [reflexivity|exact IH].
Qed.

(** [alter] at [p] is not seen from a path that neither leads to [p] nor
    lies under it. *)
Lemma alter_frame f p n n' q :
  FS.alter f p n = Some n' ->
  (forall r, q <> p ++ r)%list -> (forall r, p <> q ++ r)%list ->
  FS.lookup q n' = FS.lookup q n.
Proof.
  revert n n' q. induction p as [|c p IH]; intros n n' q H Hq Hp.
  - exfalso. apply (Hq q). reflexivity.
  - destruct q as [|d q]; [exfalso; apply (Hp (c :: p)); reflexivity|].
    simpl in H. destruct n as [|es]; [discriminate|].
    destruct (string_dec c d) as [<-|Hcd].
    + destruct (FS.lookup_entry c es) as [child|] eqn:Hc.
      * destruct (FS.alter f p child) as [child'|] eqn:Ha; [|discriminate].
        injection H as <-. simpl. rewrite lookup_entry_set_eq, Hc.
        apply (IH _ _ _ Ha).
        -- intros r Hr. apply (Hq r). rewrite Hr. reflexivity.
        -- intros r Hr. apply (Hp r). rewrite Hr. reflexivity.
      * destruct p as [|c' p']; [|discriminate].
        exfalso. apply (Hq q). reflexivity.
    + assert (Hn' : exists x, n' = FS.Dir (FS.set_entry c x es)).
      { destruct (FS.lookup_entry c es) as [child|].
        - destruct (FS.alter f p child) as [child'|]; [|discriminate].
          injection H as <-. eexists. reflexivity.
        - destruct p as [|c' p']; [|discriminate].
          destruct (f None) as [x|]; [|discriminate].
          injection H as <-. eexists. reflexivity. }
      destruct Hn' as [x ->]. simpl.
      rewrite (lookup_entry_set_ne _ _ _ _ Hcd). reflexivity.
Qed.

(** X7: installing the hook replaces whatever the hook file held by the
    script that pipes standard input into [<this script> hook], gives it
    mode 0755, and leaves alone every path that neither leads to the hook
    file nor lies under it. *)
Theorem ensure_prereceive_hook_overwrites
    (repo_path home_dir : string) (w w' : World) :
  ensure_prereceive_hook repo_path home_dir w = (Ok tt, w') ->
  let hook_file := (locate w repo_path ++ ["hooks"; "pre-receive"])%list in
  FS.lookup hook_file (fs w')
    = Some (FS.File ("#!/bin/bash" ++ newline ++ "cat | " ++ this_script w
                       ++ " hook" ++ newline) 493) /\
  (forall q, (forall r, q <> hook_file ++ r)%list ->
             (forall r, hook_file <> q ++ r)%list ->
             FS.lookup q (fs w') = FS.lookup q (fs w)) /\
  environ w' = environ w /\ calls w' = calls w /\ stdout w' = stdout w.
Proof.
  intros H hook_file.
  pose proof (hook_installed _ _ _ _ H) as [Hl _].
  split; [exact Hl|].
  apply ensure_prereceive_hook_inv in H as (n1 & n2 & H1 & H2 & ->).
  rewrite locate_hook in H1, H2. fold hook_file in H1, H2.
  split; [|repeat split].
  intros q Hq Hp. simpl fs.
  rewrite (alter_frame _ _ _ _ _ H2 Hq Hp).
  apply (alter_frame _ _ _ _ _ H1 Hq Hp).
Qed.

Lemma ensure_prereceive_hook_overwrites_witness :
  let stale := FS.Dir [("repo", FS.Dir [("hooks",
                 FS.Dir [("pre-receive", FS.File "exit 1" 420);
                         ("update", FS.File "keep" 493)])])] in
  let w := mkWorld "/opt/gitreceive.py" stale ∅ [] ∅ "" [] [] in
  let w' := (ensure_prereceive_hook "/repo" "/" w).2 in
  FS.lookup ["repo"; "hooks"; "pre-receive"] (fs w')
    = Some (FS.File ("#!/bin/bash" ++ newline ++ "cat | /opt/gitreceive.py hook"
                       ++ newline) 493) /\
  FS.lookup ["repo"; "hooks"; "update"] (fs w') = Some (FS.File "keep" 493).
Proof.
  intros stale w w'.
  destruct (ensure_prereceive_hook_overwrites "/repo" "/" w w'
              ltac:(vm_compute; reflexivity)) as (Hl & Hframe & _).
  split; [exact Hl|].
  rewrite (Hframe ["repo"; "hooks"; "update"]).
  - reflexivity.
  - intros r Hr. discriminate Hr.
  - intros r Hr. discriminate Hr.
Defined.

(** ** The key store *)

Lemma split_ws_from_nonempty cur s :
  Forall (fun t => PyStr.is_empty t = false) (PyStr.split_ws_from cur s).
Proof.
  revert cur. induction s as [|c s IH]; intros cur; simpl.
  - destruct (PyStr.is_empty cur) eqn:He; constructor; [exact He|constructor].
  - destruct (PyStr.is_space c).
    + destruct (PyStr.is_empty cur) eqn:He; [apply IH|].
      constructor; [exact He|apply IH].
    + apply IH.
Qed.

(** A successful [alter] of something that is there. *)
Lemma alter_present f p n x y :
  FS.lookup p n = Some x -> f (Some x) = Some y ->
  exists n', FS.alter f p n = Some n' /\ FS.lookup p n' = Some y.
Proof.
  revert n. induction p as [|c p IH]; intros n Hl Hf; simpl in *.
  - injection Hl as ->. exists y. split; [exact Hf|reflexivity].
  - destruct n as [|es]; [discriminate|].
    destruct (FS.lookup_entry c es) as [child|] eqn:Hc; [|discriminate].
    destruct (IH _ Hl Hf) as (child' & -> & Hl').
    eexists. split; [reflexivity|].
    simpl. rewrite lookup_entry_set_eq. exact Hl'.
Qed.

Lemma is_empty_key_store home_dir : PyStr.is_empty (key_store home_dir) = false.
Proof. apply is_empty_path_join. reflexivity. Qed.

(** Installing a key line whose payload decodes, into a key store that is
    a regular file. *)
Lemma install_appends E line name home_dir git_user w alg payload rest data old m :
  PyStr.split_ws line = alg :: payload :: rest ->
  b64decode E payload = Some data ->
  FS.lookup (locate w (key_store home_dir)) (fs w) = Some (FS.File old m) ->
  let fp := render (md5_digest E data) in
  let who := if falsy name then hd fp rest else default "" name in
  let entry := forced_entry git_user (this_script w) who fp line in
  exists n,
    install_authorized_key E line name home_dir git_user w
      = (Ok RNone, add_stdout fp (set_fs n w)) /\
    FS.lookup (locate w (key_store home_dir)) n = Some (FS.File (old ++ entry) m).
Proof.
  intros Hs Hd Hl fp who entry.
  destruct (alter_present (FS.append_file entry) _ _ _ (FS.File (old ++ entry) m)
              Hl eq_refl) as (n & Ha & Hn).
  exists n. split; [|exact Hn].
  unfold install_authorized_key.
  rewrite (bind_ok abspath_file _ w (this_script w) w eq_refl).
  cbv zeta. rewrite Hs.
  change (length (alg :: payload :: rest) <? 2)%nat with false. cbv iota.
  rewrite (bind_ok (item (alg :: payload :: rest) 1) _ w payload w eq_refl).
  rewrite (bind_ok _ _ _ _ _ (generate_fingerprint_decoded E payload data w Hd)).
  fold fp.
  assert (Hwho : (if falsy name
                  then default fp (item_or (alg :: payload :: rest) 2 (Some fp))
                  else default "" name) = who).
  { subst who. destruct (falsy name); [|reflexivity].
    unfold item_or. simpl nth_error. destruct rest as [|r rest']; [reflexivity|].
    pose proof (split_ws_from_nonempty "" line) as Hall.
    fold (PyStr.split_ws line) in Hall. rewrite Hs in Hall.
    inversion Hall as [|? ? _ Hall1]; subst.
    inversion Hall1 as [|? ? _ Hall2]; subst.
    inversion Hall2 as [|? ? Hr _]; subst.
    simpl nth_error. rewrite Hr. reflexivity. }
  rewrite Hwho.
  fold (key_store home_dir). fold (forced_entry git_user (this_script w) who fp line).
  fold entry.
  assert (Happ : append_to_file (key_store home_dir) entry w = (Ok tt, set_fs n w)).
  { unfold append_to_file, fs_op. rewrite is_empty_key_store, Ha. reflexivity. }
  rewrite (bind_ok _ _ _ _ _ Happ).
  reflexivity.
Qed.

(** C4: the fingerprint is a function of the decoded payload alone.  Two
    key lines whose second fields decode to the same bytes, whatever their
    spacing, algorithm field, comment, the name they are installed under,
    the account or the key store, get the same fingerprint: installing
    either into a key store that is a regular file returns, prints that
    fingerprint and appends an entry whose forced command carries it, and
    any installation of either that returns has printed it.  The
    fingerprint is the digest of the decoded bytes written as one two-digit
    lowercase hexadecimal pair per byte, the pairs joined by colons. *)
Theorem fingerprint_of_decoded_payload
    (E : Externals) (line1 line2 : string) (name1 name2 : option string)
    (home1 home2 user1 user2 : string) (w1 w2 : World)
    (alg1 alg2 key1 key2 : string) (rest1 rest2 : list string) (data : string) :
  PyStr.split_ws line1 = alg1 :: key1 :: rest1 ->
  PyStr.split_ws line2 = alg2 :: key2 :: rest2 ->
  b64decode E key1 = Some data ->
  b64decode E key2 = Some data ->
  let fp := render (md5_digest E data) in
  generate_fingerprint E key1 w1 = (Ok fp, w1) /\
  generate_fingerprint E key2 w2 = (Ok fp, w2) /\
  (forall old m,
     FS.lookup (locate w1 (key_store home1)) (fs w1) = Some (FS.File old m) ->
     exists w1' who,
       install_authorized_key E line1 name1 home1 user1 w1 = (Ok RNone, w1') /\
       stdout w1' = (stdout w1 ++ [fp])%list /\
       FS.lookup (locate w1 (key_store home1)) (fs w1')
         = Some (FS.File (old ++ forced_entry user1 (this_script w1) who fp line1) m)) /\
  (forall old m,
     FS.lookup (locate w2 (key_store home2)) (fs w2) = Some (FS.File old m) ->
     exists w2' who,
       install_authorized_key E line2 name2 home2 user2 w2 = (Ok RNone, w2') /\
       stdout w2' = (stdout w2 ++ [fp])%list /\
       FS.lookup (locate w2 (key_store home2)) (fs w2')
         = Some (FS.File (old ++ forced_entry user2 (this_script w2) who fp line2) m)) /\
  (forall w1', install_authorized_key E line1 name1 home1 user1 w1 = (Ok RNone, w1') ->
               stdout w1' = (stdout w1 ++ [fp])%list) /\
  (forall w2', install_authorized_key E line2 name2 home2 user2 w2 = (Ok RNone, w2') ->
               stdout w2' = (stdout w2 ++ [fp])%list) /\
  exists pairs,
    fp = PyStr.join ":" pairs /\
    Forall2 pair_of_byte (list_ascii_of_string (md5_digest E data)) pairs /\
    (pairs <> [] -> PyStr.split_char ":" fp = pairs).
Proof.
  intros Hs1 Hs2 Hd1 Hd2 fp.
  assert (Hinstall : forall line name home user w alg key rest old m,
            PyStr.split_ws line = alg :: key :: rest ->
            b64decode E key = Some data ->
            FS.lookup (locate w (key_store home)) (fs w) = Some (FS.File old m) ->
            exists w' who,
              install_authorized_key E line name home user w = (Ok RNone, w') /\
              stdout w' = (stdout w ++ [fp])%list /\
              FS.lookup (locate w (key_store home)) (fs w')
                = Some (FS.File (old ++ forced_entry user (this_script w) who fp line) m)).
  { intros line name home user w alg key rest old m Hs Hd Hl.
    destruct (install_appends E line name home user w alg key rest data old m Hs Hd Hl)
      as (n & Hi & Hn).
    eexists _, _. split; [exact Hi|]. split; [reflexivity|exact Hn]. }
  split; [apply generate_fingerprint_decoded, Hd1|].
  split; [apply generate_fingerprint_decoded, Hd2|].
  split; [intros old m; apply (Hinstall _ _ _ _ _ _ _ _ _ _ Hs1 Hd1)|].
  split; [intros old m; apply (Hinstall _ _ _ _ _ _ _ _ _ _ Hs2 Hd2)|].
  split; [intros w1'; eapply install_decoded_prints; eassumption|].
  split; [intros w2'; eapply install_decoded_prints; eassumption|].
  assert (Hpairs : Forall2 pair_of_byte (list_ascii_of_string (md5_digest E data))
            (map (fun x => PyStr.fmt_02x (PyStr.ord x))
                 (list_ascii_of_string (md5_digest E data)))).
  { induction (list_ascii_of_string (md5_digest E data)) as [|b bs IH];
      constructor; [apply fmt_02x_pair|exact IH]. }
  eexists. split; [reflexivity|]. split; [exact Hpairs|].
  intros Hne. eapply split_render; eassumption.
Qed.

Lemma fingerprint_of_decoded_payload_witness :
  let key := "AAAAC3NzaC1lZDI1NTE5AAAAIJ7k3pQ4Tn+1oYl1cYp1u0X3o0m9wq1mJ8cXk2Vn5P2r" in
  let line1 := "ssh-ed25519 " ++ key ++ " alice" in
  let line2 := "   ssh-rsa   " ++ key ++ "   bob@example.org  " ++ newline in
  let root := FS.Dir [("home", FS.Dir [("git", FS.Dir [(".ssh",
                FS.Dir [("authorized_keys", FS.File "# keys" 384)])])])] in
  let w := mkWorld "/usr/bin/gitreceive" root ∅ [] ∅ "" [] [] in
  let fp := "7b:55:6a:d8:9b:bd:5f:b8:e2:e0:d6:ea:e9:e4:9c:85" in
  exists w1 w2,
    install_authorized_key Host.externals line1 None "/home/git" "git" w
      = (Ok RNone, w1) /\
    install_authorized_key Host.externals line2 (Some "bob") "/home/git" "git" w
      = (Ok RNone, w2) /\
    stdout w1 = [fp] /\ stdout w2 = [fp] /\
    PyStr.split_char ":" fp
    = ["7b"; "55"; "6a"; "d8"; "9b"; "bd"; "5f"; "b8";
       "e2"; "e0"; "d6"; "ea"; "e9"; "e4"; "9c"; "85"].
Proof.
  intros key line1 line2 root w fp.
  destruct (fingerprint_of_decoded_payload Host.externals line1 line2
              None (Some "bob") "/home/git" "/home/git" "git" "git" w w
              "ssh-ed25519" "ssh-rsa" key key ["alice"] ["bob@example.org"]
              (default "" (Base64.decode key))
              ltac:(vm_compute; reflexivity) ltac:(vm_compute; reflexivity)
              ltac:(vm_compute; reflexivity) ltac:(vm_compute; reflexivity))
    as (_ & _ & H1 & H2 & _ & _ & _).
  destruct (H1 "# keys" 384%Z ltac:(vm_compute; reflexivity)) as (w1 & who1 & Hi1 & Ho1 & _).
  destruct (H2 "# keys" 384%Z ltac:(vm_compute; reflexivity)) as (w2 & who2 & Hi2 & Ho2 & _).
  exists w1, w2.
  split; [exact Hi1|]. split; [exact Hi2|].
  split; [vm_compute in Ho1; exact Ho1|].
  split; [vm_compute in Ho2; exact Ho2|].
  vm_compute. reflexivity.
Defined.

(** X8: installing a key line of at least two fields whose payload decodes,
    into a key store that is a regular file, appends exactly one entry after
    what the store held and prints the fingerprint.  The entry is the forced
    command [GITUSER=<account> <this script> run <name> <fingerprint>] with
    the five restrictions, then the key line stripped of surrounding
    whitespace, then a newline; the name is the explicit one when it is
    given and not empty, else the third field of the line, else the
    fingerprint. *)
Theorem install_appends_forced_command
    (E : Externals) (line : string) (name : option string)
    (home_dir git_user : string) (w : World)
    (alg payload : string) (rest : list string) (data old : string) (m : Z) :
  PyStr.split_ws line = alg :: payload :: rest ->
  b64decode E payload = Some data ->
  FS.lookup (locate w (key_store home_dir)) (fs w) = Some (FS.File old m) ->
  let fp := render (md5_digest E data) in
  let who :=
    match name with
    | Some (String c s) => String c s
    | _ => match rest with comment :: _ => comment | [] => fp end
    end in
  let entry :=
    "command=" ++ dquote
      ++ ("GITUSER=" ++ git_user ++ " " ++ this_script w ++ " run " ++ who ++ " " ++ fp)
      ++ dquote
      ++ ",no-agent-forwarding,no-pty,no-user-rc,no-X11-forwarding,no-port-forwarding "
      ++ PyStr.strip_ws line ++ newline in
  exists w',
    install_authorized_key E line name home_dir git_user w = (Ok RNone, w') /\
    FS.lookup (locate w (key_store home_dir)) (fs w')
      = Some (FS.File (old ++ entry) m) /\
    stdout w' = (stdout w ++ [fp])%list /\
    calls w' = calls w /\ environ w' = environ w.
Proof.
  intros Hs Hd Hl fp who entry.
  destruct (install_appends E line name home_dir git_user w _ _ _ _ _ _ Hs Hd Hl)
    as (n & Hi & Hn).
  eexists. split; [exact Hi|]. simpl.
  split; [|repeat split].
  rewrite Hn. subst entry who fp. unfold forced_entry.
  destruct name as [[|c s]|]; destruct rest; reflexivity.
Qed.

Lemma install_appends_forced_command_witness :
  let key := "AAAAC3NzaC1lZDI1NTE5AAAAIJ7k3pQ4Tn+1oYl1cYp1u0X3o0m9wq1mJ8cXk2Vn5P2r" in
  let line := "ssh-ed25519 " ++ key ++ " alice@laptop" ++ newline in
  let root := FS.Dir [("home", FS.Dir [("git", FS.Dir [(".ssh",
                FS.Dir [("authorized_keys", FS.File "# keys" 384)])])])] in
  let w := mkWorld "/usr/bin/gitreceive" root ∅ [] ∅ "" [] [] in
  let fp := "7b:55:6a:d8:9b:bd:5f:b8:e2:e0:d6:ea:e9:e4:9c:85" in
  exists w',
    install_authorized_key Host.externals line None "/home/git" "git" w = (Ok RNone, w') /\
    FS.lookup ["home"; "git"; ".ssh"; "authorized_keys"] (fs w')
      = Some (FS.File
                ("# keys" ++ "command=" ++ dquote
                   ++ "GITUSER=git /usr/bin/gitreceive run alice@laptop " ++ fp
                   ++ dquote
                   ++ ",no-agent-forwarding,no-pty,no-user-rc,no-X11-forwarding,no-port-forwarding "
                   ++ "ssh-ed25519 " ++ key ++ " alice@laptop" ++ newline) 384) /\
    stdout w' = [fp].
Proof.
  intros key line root w fp.
  destruct (install_appends_forced_command Host.externals line None "/home/git" "git" w
              "ssh-ed25519" key ["alice@laptop"]
              (default "" (Base64.decode key)) "# keys" 384
              ltac:(vm_compute; reflexivity) ltac:(vm_compute; reflexivity)
              ltac:(vm_compute; reflexivity))
    as (w' & Hi & Hl & Hout & _).
  exists w'. split; [exact Hi|]. split.
  - vm_compute in Hl. vm_compute. exact Hl.
  - vm_compute in Hout. exact Hout.
Defined.

(** X9: a key line of at least two fields whose payload does not decode
    raises the decoder's [TypeError] out of [install_authorized_key]:
    nothing is appended, nothing is printed, and [upload-key] stops there,
    leaving the lines after it uninstalled. *)
Theorem install_undecodable_payload
    (E : Externals) (line : string) (later : list string) (name : option string)
    (home_dir git_user : string) (w : World)
    (alg payload : string) (rest : list string) :
  PyStr.split_ws line = alg :: payload :: rest ->
  b64decode E payload = None ->
  install_authorized_key E line name home_dir git_user w = (Raise TypeError, w) /\
  (PyStr.startswith "#" line = false ->
   upload_key_lines E (line :: later) name home_dir git_user w
   = (Raise TypeError, w)).
Proof.
  intros Hs Hd.
  assert (Hi : install_authorized_key E line name home_dir git_user w
               = (Raise TypeError, w)).
  { unfold install_authorized_key.
    rewrite (bind_ok abspath_file _ w (this_script w) w eq_refl).
    cbv zeta. rewrite Hs.
    change (length (alg :: payload :: rest) <? 2)%nat with false. cbv iota.
    rewrite (bind_ok (item (alg :: payload :: rest) 1) _ w payload w eq_refl).
    apply bind_raise. unfold generate_fingerprint. rewrite Hd. reflexivity. }
  split; [exact Hi|]. intros Hc.
  rewrite upload_key_lines_installs.
  - apply bind_raise. exact Hi.
  - destruct line; [discriminate Hs|reflexivity].
  - exact Hc.
Qed.

Lemma install_undecodable_payload_witness :
  let w := Host.world [] "" in
  install_authorized_key Host.externals "ssh-rsa AAAAB" None "/home/git" "git" w
    = (Raise TypeError, w) /\
  (PyStr.startswith "#" "ssh-rsa AAAAB" = false ->
   upload_key_lines Host.externals ["ssh-rsa AAAAB"; "ssh-rsa AAAA"] None
     "/home/git" "git" w = (Raise TypeError, w)).
Proof.
  intros w.
  apply (install_undecodable_payload Host.externals "ssh-rsa AAAAB"
           ["ssh-rsa AAAA"] None "/home/git" "git" w "ssh-rsa" "AAAAB" []).
  - vm_compute. reflexivity.
  - vm_compute. reflexivity.
Defined.

Lemma omap_cons_eq {A B} (f : A -> option B) x l :
  omap f (x :: l) = match f x with Some y => y :: omap f l | None => omap f l end.
Proof. reflexivity. Qed.

Lemma upload_key_lines_comment E line rest name home_dir git_user w :
  PyStr.startswith "#" line = true ->
  upload_key_lines E (line :: rest) name home_dir git_user w
  = upload_key_lines E rest name home_dir git_user w.
Proof.
  intros Hc. cbn [upload_key_lines]. rewrite Hc, andb_false_r. reflexivity.
Qed.

(** X10: [upload-key] on a batch.  When every line of standard input either
    starts with [#] or is a key line whose payload decodes, and the key
    store is a regular file, the command returns normally, prints the
    fingerprints of the key lines in their order, one per line and none for
    a comment, only ever adds to the end of the key store, and starts no
    program. *)
Theorem upload_key_installs_batch
    (E : Externals) (argv : list string) (git_user home_dir : string)
    (w : World) (old : string) (m : Z) :
  Forall (fun l => PyStr.startswith "#" l = true \/ is_Some (key_fingerprint E l))
         (PyStr.readlines (stdin w)) ->
  FS.lookup (locate w (key_store home_dir)) (fs w) = Some (FS.File old m) ->
  exists w' added,
    upload_key E argv git_user home_dir w = (Ok RNone, w') /\
    stdout w' =
      (stdout w ++
       omap (fun l => if PyStr.startswith "#" l then None else key_fingerprint E l)
            (PyStr.readlines (stdin w)))%list /\
    FS.lookup (locate w (key_store home_dir)) (fs w')
      = Some (FS.File (old ++ added) m) /\
    calls w' = calls w.
Proof.
  intros Hall Hl.
  assert (Hloop : forall lines w0 old0,
            Forall (fun l => PyStr.startswith "#" l = true
                             \/ is_Some (key_fingerprint E l)) lines ->
            cwd w0 = cwd w ->
            FS.lookup (locate w (key_store home_dir)) (fs w0) = Some (FS.File old0 m) ->
            exists w' added,
              upload_key_lines E lines (item_or argv 2 None) home_dir git_user w0
                = (Ok tt, w') /\
              stdout w' =
                (stdout w0 ++
                 omap (fun l => if PyStr.startswith "#" l then None
                                else key_fingerprint E l) lines)%list /\
              FS.lookup (locate w (key_store home_dir)) (fs w')
                = Some (FS.File (old0 ++ added) m) /\
              calls w' = calls w0).
  { induction lines as [|l lines IH]; intros w0 old0 Hf Hcwd Hl0.
    - exists w0, "". simpl. rewrite app_nil_r, app_empty_r. repeat split. exact Hl0.
    - inversion Hf as [|? ? Hhead Htail]; subst.
      destruct (PyStr.startswith "#" l) eqn:Hc.
      + rewrite upload_key_lines_comment by exact Hc.
        destruct (IH w0 old0 Htail Hcwd Hl0) as (w' & added & Hr & Ho & Hk & Hcalls).
        exists w', added. split; [exact Hr|]. split; [|split; assumption].
        rewrite omap_cons_eq, Hc. exact Ho.
      + destruct Hhead as [Hh|[fp Hfp]]; [discriminate|].
        pose proof Hfp as Hfp0. unfold key_fingerprint in Hfp.
        destruct (PyStr.split_ws l) as [|alg [|payload rest]] eqn:Hs;
          try discriminate.
        destruct (b64decode E payload) as [data|] eqn:Hd; [|discriminate].
        injection Hfp as <-.
        assert (Hl0' : FS.lookup (locate w0 (key_store home_dir)) (fs w0)
                       = Some (FS.File old0 m))
          by (unfold locate; rewrite Hcwd; exact Hl0).
        destruct (install_appends E l (item_or argv 2 None) home_dir git_user w0
                    _ _ _ _ _ _ Hs Hd Hl0') as (n & Hi & Hn).
        assert (Hnonempty : PyStr.is_empty l = false)
          by (destruct l; [discriminate Hs|reflexivity]).
        rewrite (upload_key_lines_installs _ _ _ _ _ _ _ Hnonempty Hc).
        rewrite (bind_ok _ _ _ _ _ Hi).
        unfold locate in Hn. rewrite Hcwd in Hn.
        edestruct (IH (add_stdout (render (md5_digest E data)) (set_fs n w0)))
          as (w' & added & Hr & Ho & Hk & Hcalls);
          [exact Htail|exact Hcwd|exact Hn|].
        eexists w', _. split; [exact Hr|]. split; [|split].
        * rewrite Ho, omap_cons_eq, Hc, Hfp0. simpl stdout.
          rewrite <- app_assoc. reflexivity.
        * rewrite Hk, append_assoc. reflexivity.
        * exact Hcalls. }
  destruct (Hloop _ w old Hall eq_refl Hl) as (w' & added & Hr & Ho & Hk & Hcalls).
  exists w', added. split; [|split; [exact Ho|split; assumption]].
  unfold upload_key.
  rewrite (bind_ok stdin_lines _ w (PyStr.readlines (stdin w)) w eq_refl).
  rewrite (bind_ok _ _ _ _ _ Hr). reflexivity.
Qed.

Lemma upload_key_installs_batch_witness :
  let key := "AAAAC3NzaC1lZDI1NTE5AAAAIJ7k3pQ4Tn+1oYl1cYp1u0X3o0m9wq1mJ8cXk2Vn5P2r" in
  let input := "# team keys" ++ newline
               ++ "ssh-ed25519 " ++ key ++ " alice" ++ newline
               ++ "ssh-ed25519 " ++ key ++ " alice" ++ newline in
  let root := FS.Dir [("home", FS.Dir [("git", FS.Dir [(".ssh",
                FS.Dir [("authorized_keys", FS.File "" 420)])])])] in
  let w := mkWorld "/usr/bin/gitreceive" root ∅ [] ∅ input [] [] in
  let fp := "7b:55:6a:d8:9b:bd:5f:b8:e2:e0:d6:ea:e9:e4:9c:85" in
  exists w' added,
    upload_key Host.externals ["gitreceive"; "upload-key"] "git" "/home/git" w
      = (Ok RNone, w') /\
    stdout w' = [fp; fp] /\
    FS.lookup ["home"; "git"; ".ssh"; "authorized_keys"] (fs w')
      = Some (FS.File ("" ++ added) 420) /\
    calls w' = [].
Proof.
  intros key input root w fp.
  assert (Hlines : PyStr.readlines (stdin w)
                   = ["# team keys" ++ newline;
                      "ssh-ed25519 " ++ key ++ " alice" ++ newline;
                      "ssh-ed25519 " ++ key ++ " alice" ++ newline])
    by (vm_compute; reflexivity).
  assert (Hfp : key_fingerprint Host.externals
                  ("ssh-ed25519 " ++ key ++ " alice" ++ newline) = Some fp)
    by (vm_compute; reflexivity).
  destruct (upload_key_installs_batch Host.externals ["gitreceive"; "upload-key"]
              "git" "/home/git" w "" 420)
    as (w' & added & Hr & Ho & Hk & Hc).
  - rewrite Hlines. constructor; [left; reflexivity|].
    constructor; [right; exists fp; exact Hfp|].
    constructor; [right; exists fp; exact Hfp|constructor].
  - reflexivity.
  - exists w', added. split; [exact Hr|]. split; [|split].
    + rewrite Ho, Hlines, !omap_cons_eq, Hfp. reflexivity.
    + exact Hk.
    + exact Hc.
Defined.

(** ** The entry point *)

Lemma main_unfold E flag argv w :
  main E flag argv w
  = (match
       match nth_error argv 1 with
       | Some a => COMMANDS E flag a
       | None => None
       end
     with
     | Some c => c argv (account w) (home_of w) ≫= fun _ => mret tt
     | None =>
         item argv 0 ≫= fun a0 =>
         print ("Usage: " ++ a0 ++ " <command> [options]") ≫= fun _ =>
         raise (SystemExit 2)
     end) w.
Proof.
  unfold main. unfold mbind at 1 2. unfold M_bind at 1 2.
  unfold environ_get_default, try_except, getpwnam_dir.
  fold (account w). unfold home_of.
  destruct (passwd w !! account w); reflexivity.
Qed.

(** X11: with no subcommand, or one that is none of [init], [upload-key],
    [run] and [hook], [main] prints the usage line with the program name
    and exits with status 2; nothing else happens. *)
Theorem main_unknown_command
    (E : Externals) (flag : bool) (a0 : string) (rest : list string) (w : World) :
  match rest with
  | [] => True
  | name :: _ =>
      name <> "init" /\ name <> "upload-key" /\ name <> "run" /\ name <> "hook"
  end ->
  main E flag (a0 :: rest) w
  = (Raise (SystemExit 2),
     add_stdout ("Usage: " ++ a0 ++ " <command> [options]") w)
  /\ exit_status (main E flag (a0 :: rest) w).1 = 2%Z.
Proof.
  intros H.
  assert (Hm : main E flag (a0 :: rest) w
               = (Raise (SystemExit 2),
                  add_stdout ("Usage: " ++ a0 ++ " <command> [options]") w)).
  { rewrite main_unfold. destruct rest as [|name rest']; [reflexivity|].
    destruct H as (H1 & H2 & H3 & H4).
    change (nth_error (a0 :: name :: rest') 1) with (Some name). cbv beta iota.
    unfold COMMANDS. apply String.eqb_neq in H1, H2, H3, H4.
    rewrite H1, H2, H3, H4. reflexivity. }
  rewrite Hm. split; reflexivity.
Qed.

Lemma main_unknown_command_witness :
  let w := Host.world [] "" in
  main Host.externals false ["gitreceive"; "dispatch"; "alice"] w
  = (Raise (SystemExit 2), add_stdout "Usage: gitreceive <command> [options]" w)
  /\ exit_status (main Host.externals false ["gitreceive"; "dispatch"; "alice"] w).1 = 2%Z.
Proof.
  intros w.
  apply (main_unknown_command Host.externals false "gitreceive" ["dispatch"; "alice"] w).
  repeat split; discriminate.
Defined.

(** X12: [main] runs the named command for the account in [GITUSER], or
    [git] when that is not set, with the account's home directory, or
    [/home/<account>] when the account is unknown, and drops what the
    command returns: whenever the command returns, be it [None] or [False],
    the process ends with status 0 in the world the command left. *)
Theorem main_discards_result
    (E : Externals) (flag : bool) (a0 name : string) (rest : list string)
    (w : World) (c : command) (r : retval) (w' : World) :
  COMMANDS E flag name = Some c ->
  c (a0 :: name :: rest) (account w) (home_of w) w = (Ok r, w') ->
  main E flag (a0 :: name :: rest) w = (Ok tt, w') /\
  exit_status (main E flag (a0 :: name :: rest) w).1 = 0%Z.
Proof.
  intros Hc Hr.
  assert (Hm : main E flag (a0 :: name :: rest) w = (Ok tt, w')).
  { rewrite main_unfold.
    change (nth_error (a0 :: name :: rest) 1) with (Some name). cbv beta iota.
    rewrite Hc. rewrite (bind_ok _ _ _ _ _ Hr). reflexivity. }
  rewrite Hm. split; reflexivity.
Qed.

Lemma main_discards_result_witness :
  let w := mkWorld "/usr/bin/gitreceive" Host.root (list_to_map [("GITUSER", "repo")])
                   [] ∅ "" [] [] in
  account w = "repo" /\ home_of w = "/home/repo" /\
  main Host.externals false ["gitreceive"; "run"; "alice"] w
    = (Ok tt, add_stdout "ERROR: Missing arguments" w) /\
  exit_status (main Host.externals false ["gitreceive"; "run"; "alice"] w).1 = 0%Z.
Proof.
  intros w. split; [vm_compute; reflexivity|]. split; [vm_compute; reflexivity|].
  apply (main_discards_result Host.externals false "gitreceive" "run" ["alice"] w
           (run Host.externals) RFalse (add_stdout "ERROR: Missing arguments" w)).
  - reflexivity.
  - reflexivity.
Defined.

(** X13: the hook outside a dispatched session.  When one of
    [RECEIVE_REPO], [RECEIVE_USER], [RECEIVE_FINGERPRINT] is not set, looked
    up in that order, [main] with [hook] dies on the [KeyError] of the first
    one missing, with status 1: standard input is not acted upon, no
    program is started and nothing is printed. *)
Theorem main_hook_without_session
    (E : Externals) (flag : bool) (a0 : string) (rest : list string) (w : World) :
  let out := main E flag (a0 :: "hook" :: rest) w in
  (environ w !! "RECEIVE_REPO" = None ->
     out = (Raise (KeyError "RECEIVE_REPO"), w)) /\
  (is_Some (environ w !! "RECEIVE_REPO") ->
   environ w !! "RECEIVE_USER" = None ->
     out = (Raise (KeyError "RECEIVE_USER"), w)) /\
  (is_Some (environ w !! "RECEIVE_REPO") ->
   is_Some (environ w !! "RECEIVE_USER") ->
   environ w !! "RECEIVE_FINGERPRINT" = None ->
     out = (Raise (KeyError "RECEIVE_FINGERPRINT"), w)) /\
  (forall k, out = (Raise (KeyError k), w) -> exit_status out.1 = 1%Z).
Proof.
  intros out. subst out. rewrite main_unfold.
  change (nth_error (a0 :: "hook" :: rest) 1) with (Some "hook"). cbv beta iota.
  change (COMMANDS E flag "hook") with (Some (hook E flag)). cbv beta iota.
  unfold hook, mbind, M_bind, environ_get.
  split; [|split; [|split]].
  - intros ->. reflexivity.
  - intros [r ->] ->. reflexivity.
  - intros [r ->] [u ->] ->. reflexivity.
  - intros k ->. reflexivity.
Qed.

Lemma main_hook_without_session_witness :
  let w := Host.world [("RECEIVE_REPO", "proj.git")]
                      ("old new refs/heads/master" ++ newline) in
  main Host.externals false ["gitreceive"; "hook"] w
    = (Raise (KeyError "RECEIVE_USER"), w) /\
  exit_status (main Host.externals false ["gitreceive"; "hook"] w).1 = 1%Z.
Proof.
  intros w.
  destruct (main_hook_without_session Host.externals false "gitreceive" [] w)
    as (_ & H2 & _ & H4).
  assert (H : main Host.externals false ["gitreceive"; "hook"] w
              = (Raise (KeyError "RECEIVE_USER"), w)).
  { apply H2; [eexists; vm_compute; reflexivity|vm_compute; reflexivity]. }
  split; [exact H|]. exact (H4 _ H).
Defined.

(** ** A whole push *)

Lemma triggered_some flag line new :
  triggered flag line = Some new ->
  exists old ref extra,
    PyStr.split_ws line = old :: new :: ref :: extra /\
    (String.eqb ref "refs/heads/master" || negb flag)%bool = true.
Proof.
  unfold triggered.
  destruct (PyStr.split_ws line) as [|old [|new' [|ref extra]]]; try discriminate.
  destruct (String.eqb ref "refs/heads/master" || negb flag)%bool eqn:Hg;
    [|discriminate].
  intros [= ->]. exists old, ref, extra. split; [reflexivity|exact Hg].
Qed.

Lemma triggered_none flag line :
  triggered flag line = None ->
  match PyStr.split_ws line with
  | _ :: _ :: ref :: _ =>
      (String.eqb ref "refs/heads/master" || negb flag)%bool = false
  | _ => True
  end.
Proof.
  unfold triggered.
  destruct (PyStr.split_ws line) as [|old [|new' [|ref extra]]]; try exact (fun _ => I).
  destruct (String.eqb ref "refs/heads/master" || negb flag)%bool;
    [discriminate|reflexivity].
Qed.

(** The loop over the lines, for programs that start. *)
Lemma trigger_receiver_lines_calls E flag repo user fingerprint home_dir lines w0 :
  exists w',
    trigger_receiver_lines E flag lines repo user fingerprint home_dir w0
      = (Ok tt, w') /\
    calls w' =
      (calls w0 ++
       flat_map (fun new => [archive_argv new;
                             receiver_argv home_dir repo new user fingerprint])
                (omap (triggered flag) lines))%list.
Proof.
  revert w0. induction lines as [|l lines IH]; intros w0.
  - exists w0. split; [reflexivity|]. simpl. rewrite app_nil_r. reflexivity.
  - rewrite omap_cons_eq. destruct (triggered flag l) as [new|] eqn:Ht.
    + apply triggered_some in Ht as (old & ref & extra & Hs & Hg).
      rewrite (trigger_line_handled _ _ _ _ _ _ _ _ _ _ _ _ _ Hs Hg).
      destruct (IH (handled E repo user fingerprint home_dir new w0))
        as (w' & Hr & Hc).
      exists w'. split; [exact Hr|].
      rewrite Hc, handled_calls. simpl flat_map.
      rewrite <- app_assoc. reflexivity.
    + apply triggered_none in Ht.
      rewrite (trigger_line_skipped _ _ _ _ _ _ _ _ _ Ht). apply IH.
Qed.

(** When no line triggers the receiver, the loop does nothing. *)
Lemma trigger_receiver_lines_idle E flag repo user fingerprint home_dir lines w0 :
  omap (triggered flag) lines = [] ->
  trigger_receiver_lines E flag lines repo user fingerprint home_dir w0 = (Ok tt, w0).
Proof.
  induction lines as [|l lines IH]; [reflexivity|].
  rewrite omap_cons_eq. destruct (triggered flag l) as [new|] eqn:Ht; [discriminate|].
  intros Hrest. apply triggered_none in Ht.
  rewrite (trigger_line_skipped _ _ _ _ _ _ _ _ _ Ht). apply IH, Hrest.
Qed.

(** X14: the programs a push starts.  When [trigger_receiver] returns, the
    programs it started are, for each line that triggers the receiver and in
    the order of the lines, the archive of the line's second field followed
    by the receiver with the repository, that revision, the user and the
    fingerprint; no other program is started.  When no line of standard
    input triggers the receiver, it returns having done nothing. *)
Theorem trigger_receiver_programs
    (E : Externals) (flag : bool) (repo user fingerprint home_dir : string)
    (w w' : World) :
  (trigger_receiver E flag repo user fingerprint home_dir w = (Ok tt, w') ->
   calls w' =
     (calls w ++
      flat_map (fun new => [archive_argv new;
                            receiver_argv home_dir repo new user fingerprint])
               (omap (triggered flag) (PyStr.readlines (stdin w))))%list)
  /\
  (omap (triggered flag) (PyStr.readlines (stdin w)) = [] ->
   trigger_receiver E flag repo user fingerprint home_dir w = (Ok tt, w)).
Proof.
  assert (Hrun : trigger_receiver E flag repo user fingerprint home_dir w
                 = trigger_receiver_lines E flag (PyStr.readlines (stdin w))
                     repo user fingerprint home_dir w).
  { unfold trigger_receiver.
    rewrite (bind_ok stdin_lines _ w (PyStr.readlines (stdin w)) w eq_refl).
    reflexivity. }
  rewrite Hrun. split.
  - intros H.
    destruct (trigger_receiver_lines_calls E flag repo user fingerprint home_dir
                (PyStr.readlines (stdin w)) w) as (w1 & Hr & Hc).
    rewrite Hr in H. injection H as <-. exact Hc.
  - apply trigger_receiver_lines_idle.
Qed.

Lemma trigger_receiver_programs_witness :
  let w := Host.world [] ("a b refs/heads/topic" ++ newline ++ "junk" ++ newline
                          ++ "c d refs/heads/master extra" ++ newline) in
  let v := Host.world [] ("junk" ++ newline ++ "a b refs/heads/topic" ++ newline) in
  calls (trigger_receiver Host.externals true "proj.git" "alice" "F" "/home/git" w).2
  = [["git"; "archive"; "d"];
     ["/home/git/receiver"; "proj.git"; "d"; "alice"; "F"]]
  /\
  trigger_receiver Host.externals true "proj.git" "alice" "F" "/home/git" v = (Ok tt, v).
Proof.
  intros w v. split.
  - exact (proj1 (trigger_receiver_programs Host.externals true "proj.git" "alice"
                    "F" "/home/git" w
                    (trigger_receiver Host.externals true "proj.git" "alice" "F"
                       "/home/git" w).2)
             ltac:(vm_compute; reflexivity)).
  - exact (proj2 (trigger_receiver_programs Host.externals true "proj.git" "alice"
                    "F" "/home/git" v v) eq_refl).
Defined.

(** ** How much is relayed *)



Lemma relay_line_empty : relay_line "" = "".
Proof. reflexivity. Qed.


(** ** Output that does not mention the marker *)







(** ** Reading a fingerprint back *)

Lemma unhex_pair_of_byte b p : pair_of_byte b p -> unhex_pair p = b.
Proof.
  intros (h & l & -> & _ & _ & Hv). simpl. rewrite Hv. apply ascii_N_embedding.
Qed.

Lemma render_pairs (digest : string) :
  Forall2 pair_of_byte (list_ascii_of_string digest)
    (map (fun x => PyStr.fmt_02x (PyStr.ord x)) (list_ascii_of_string digest)).
Proof.
  induction (list_ascii_of_string digest) as [|b bs IH];
    constructor; [apply fmt_02x_pair|exact IH].
Qed.

Lemma map_unhex_pairs bs ps :
  Forall2 pair_of_byte bs ps -> map unhex_pair ps = bs.
Proof.
  induction 1 as [|b p bs ps Hb _ IH]; [reflexivity|].
  simpl. rewrite (unhex_pair_of_byte _ _ Hb), IH. reflexivity.
Qed.

Lemma unrender_render (digest : string) : unrender (render digest) = digest.
Proof.
  unfold unrender, render.
  destruct digest as [|c d]; [reflexivity|].
  pose proof (render_pairs (String c d)) as Hp.
  assert (Hne : map (fun x => PyStr.fmt_02x (PyStr.ord x))
                    (list_ascii_of_string (String c d)) <> []) by discriminate.
  rewrite (split_render _ _ Hp Hne), (map_unhex_pairs _ _ Hp).
  rewrite string_of_list_ascii_of_string.
  assert (He : PyStr.is_empty
                 (PyStr.join ":" (map (fun x => PyStr.fmt_02x (PyStr.ord x))
                                      (list_ascii_of_string (String c d)))) = false).
  { simpl. destruct (map _ (list_ascii_of_string d)); reflexivity. }
  rewrite He. reflexivity.
Qed.

Lemma render_cons c c' d :
  render (String c (String c' d))
  = String (PyStr.hexdigit (PyStr.ord c / 16))
      (String (PyStr.hexdigit (PyStr.ord c mod 16))
         (String ":" (render (String c' d)))).
Proof. reflexivity. Qed.

Lemma render_length c d :
  S (String.length (render (String c d))) = (3 * String.length (String c d))%nat.
Proof.
  revert c. induction d as [|c' d IH]; intros c; [reflexivity|].
  rewrite render_cons.
  change (String.length (String c (String c' d)))
    with (S (String.length (String c' d))).
  cbn [String.length]. specialize (IH c'). cbn [String.length] in IH. lia.
Qed.

(** X17: a fingerprint can be read back into the digest it was rendered
    from, so that two keys get the same fingerprint only when their decoded
    payloads have the same digest; and the fingerprint of a digest of [n]
    bytes, [n] positive, is [3n - 1] characters long. *)
Theorem fingerprint_determines_digest
    (E : Externals) (key1 key2 fp : string) (w1 w2 w1' w2' : World) :
  generate_fingerprint E key1 w1 = (Ok fp, w1') ->
  generate_fingerprint E key2 w2 = (Ok fp, w2') ->
  exists data1 data2,
    b64decode E key1 = Some data1 /\ b64decode E key2 = Some data2 /\
    md5_digest E data1 = unrender fp /\
    md5_digest E data2 = unrender fp /\
    (S (String.length fp) = 3 * String.length (md5_digest E data1)
     \/ md5_digest E data1 = "")%nat.
Proof.
  unfold generate_fingerprint. intros H1 H2.
  destruct (b64decode E key1) as [d1|]; [|discriminate].
  destruct (b64decode E key2) as [d2|]; [|discriminate].
  injection H1 as H1 _. injection H2 as H2 _.
  fold (render (md5_digest E d1)) in H1. fold (render (md5_digest E d2)) in H2.
  exists d1, d2. split; [reflexivity|]. split; [reflexivity|].
  split; [rewrite <- H1; symmetry; apply unrender_render|].
  split; [rewrite <- H2; symmetry; apply unrender_render|].
  rewrite <- H1. destruct (md5_digest E d1) as [|c d]; [right; reflexivity|].
  left. apply render_length.
Qed.

Lemma fingerprint_determines_digest_witness :
  let w := Host.world [] "" in
  let fp := "5d:41:40:2a:bc:4b:2a:76:b9:71:9d:91:10:17:c5:92" in
  exists data1 data2,
    b64decode Host.externals "aGVsbG8=" = Some data1 /\
    b64decode Host.externals "aGVs!bG8=" = Some data2 /\
    md5_digest Host.externals data1 = unrender fp /\
    md5_digest Host.externals data2 = unrender fp /\
    (S (String.length fp) = 3 * String.length (md5_digest Host.externals data1)
     \/ md5_digest Host.externals data1 = "")%nat.
Proof.
  intros w fp.
  apply (fingerprint_determines_digest Host.externals "aGVsbG8=" "aGVs!bG8=" fp w w w w).
  - vm_compute. reflexivity.
  - vm_compute. reflexivity.
Defined.

(** ** Provisioning *)

(** A new last component under a directory. *)
Lemma alter_create f p c n y :
  FS.is_dir p n = true ->
  FS.lookup (p ++ [c])%list n = None ->
  f None = Some y ->
  exists n', FS.alter f (p ++ [c])%list n = Some n' /\
             FS.lookup (p ++ [c])%list n' = Some y.
Proof.
  unfold FS.is_dir. revert n. induction p as [|x p IH]; intros n Hd Hl Hf.
  - simpl in Hd. destruct n as [|es]; [discriminate|]. simpl in Hl |- *.
    destruct (FS.lookup_entry c es) as [ch|] eqn:Hc; [discriminate|].
    rewrite Hf. eexists. split; [reflexivity|].
    simpl. rewrite lookup_entry_set_eq. reflexivity.
  - simpl in Hd, Hl |- *. destruct n as [|es]; [discriminate|].
    destruct (FS.lookup_entry x es) as [child|] eqn:Hx; [|discriminate].
    destruct (IH _ Hd Hl Hf) as (child' & -> & Hl').
    eexists. split; [reflexivity|].
    simpl. rewrite lookup_entry_set_eq. exact Hl'.
Qed.

Lemma exists_lookup p n : FS.exists_ p n = false -> FS.lookup p n = None.
Proof. unfold FS.exists_. destruct (FS.lookup p n); [discriminate|reflexivity]. Qed.

(** X18: [touch] leaves alone whatever exists at the path, file or
    directory; where nothing exists it makes an empty file of mode 0644 when
    the parent is a directory, touching nothing else, and raises the
    [IOError] of [open] when it is not. *)
Theorem touch_keeps_or_creates (filename : string) (w : World) :
  PyStr.is_empty filename = false ->
  (FS.exists_ (locate w filename) (fs w) = true -> touch filename w = (Ok tt, w))
  /\
  (forall parent c,
     locate w filename = (parent ++ [c])%list ->
     FS.exists_ (locate w filename) (fs w) = false ->
     (FS.is_dir parent (fs w) = true ->
      exists n,
        touch filename w = (Ok tt, set_fs n w) /\
        FS.lookup (locate w filename) n = Some (FS.File "" 420) /\
        forall q, (forall r, q <> locate w filename ++ r)%list ->
                  (forall r, locate w filename <> q ++ r)%list ->
                  FS.lookup q n = FS.lookup q (fs w))
     /\
     (FS.is_dir parent (fs w) = false ->
      touch filename w = (Raise (IOError filename), w))).
Proof.
  intros Hne. split.
  - intros Hx. unfold touch, try_except, os_utime. rewrite Hne, Hx. reflexivity.
  - intros parent c Hloc Hx.
    assert (Hut : os_utime filename w = (Raise (OSError filename), w))
      by (unfold os_utime; rewrite Hne, Hx; reflexivity).
    split.
    + intros Hd.
      destruct (alter_create (FS.append_file "") parent c (fs w) (FS.File "" 420)
                  Hd) as (n & Ha & Hl);
        [rewrite <- Hloc; apply exists_lookup, Hx|reflexivity|].
      exists n. rewrite <- Hloc in Ha, Hl.
      split; [|split; [exact Hl|]].
      * unfold touch, try_except. rewrite Hut.
        unfold append_to_file, fs_op. rewrite Hne, Ha. reflexivity.
      * intros q Hq Hp. apply (alter_frame _ _ _ _ _ Ha Hq Hp).
    + intros Hd. unfold touch, try_except. rewrite Hut.
      unfold append_to_file, fs_op. rewrite Hne, Hloc.
      rewrite (alter_missing_parent _ _ _ _ Hd). reflexivity.
Qed.

Lemma touch_keeps_or_creates_witness :
  let w := Host.world [] "" in
  touch "/home/git/.ssh" w = (Ok tt, w) /\
  (exists n, touch "/home/git/.ssh/authorized_keys" w = (Ok tt, set_fs n w) /\
             FS.lookup ["home"; "git"; ".ssh"; "authorized_keys"] n
               = Some (FS.File "" 420)) /\
  touch "/home/nobody/.ssh/authorized_keys" w
    = (Raise (IOError "/home/nobody/.ssh/authorized_keys"), w).
Proof.
  intros w.
  destruct (touch_keeps_or_creates "/home/git/.ssh" w eq_refl) as [H1 _].
  destruct (touch_keeps_or_creates "/home/git/.ssh/authorized_keys" w eq_refl)
    as [_ H2].
  destruct (touch_keeps_or_creates "/home/nobody/.ssh/authorized_keys" w eq_refl)
    as [_ H3].
  split; [exact (H1 eq_refl)|]. split.
  - destruct (H2 ["home"; "git"; ".ssh"] "authorized_keys" eq_refl eq_refl)
      as [Hc _].
    destruct (Hc eq_refl) as (n & Ht & Hl & _). exists n. split; [exact Ht|exact Hl].
  - destruct (H3 ["home"; "nobody"; ".ssh"] "authorized_keys" eq_refl eq_refl)
      as [_ Hr].
    exact (Hr eq_refl).
Defined.

Lemma chown_files_sound files uid w :
  Forall (fun f => (negb (PyStr.is_empty f)
                    && FS.exists_ (locate w f) (fs w))%bool = true) files ->
  chown_files files uid w = (Ok tt, w).
Proof.
  induction 1 as [|f files Hf _ IH]; [reflexivity|].
  simpl chown_files.
  assert (Hc : os_chown f uid w = (Ok tt, w))
    by (unfold os_chown; rewrite Hf; reflexivity).
  rewrite (bind_ok _ _ _ _ _ Hc). exact IH.
Qed.

Lemma chown_files_frame files uid w r w' :
  chown_files files uid w = (r, w') -> w' = w.
Proof.
  induction files as [|f files IH]; simpl.
  - intros [= _ <-]. reflexivity.
  - unfold mbind, M_bind, os_chown.
    destruct (negb (PyStr.is_empty f) && FS.exists_ (locate w f) (fs w))%bool.
    + exact IH.
    + intros [= _ <-]. reflexivity.
Qed.

Lemma chown_known A e user w h :
  glob_sound A -> passwd w !! user = Some h -> chown A e user w = (Ok tt, w).
Proof.
  intros Hg Hp. unfold chown.
  assert (Hu : getpwnam_uid user w = (Ok user, w))
    by (unfold getpwnam_uid; rewrite Hp; reflexivity).
  rewrite (bind_ok _ _ _ _ _ Hu).
  rewrite (bind_ok (glob_glob A e) _ w (glob A e w) w eq_refl).
  apply chown_files_sound, Hg.
Qed.

Lemma chown_unknown A e user w :
  passwd w !! user = None -> chown A e user w = (Raise (KeyError user), w).
Proof.
  intros Hp. unfold chown. apply bind_raise.
  unfold getpwnam_uid. rewrite Hp. reflexivity.
Qed.

Lemma chown_inv A e user w w' :
  chown A e user w = (Ok tt, w') -> w' = w /\ is_Some (passwd w !! user).
Proof.
  unfold chown. intros H.
  bind_step H uid w1 Hu. unfold getpwnam_uid in Hu.
  destruct (passwd w !! user) as [h|] eqn:Hp; [|discriminate].
  injection Hu as <- <-.
  bind_step H files w2 Hg. injection Hg as <- <-.
  apply chown_files_frame in H. split; [exact H|eauto].
Qed.

Lemma plain_receiver : plain "receiver".
Proof. repeat split. Qed.

Lemma locate_receiver w home_dir :
  locate w (PyStr.path_join home_dir "receiver")
  = (locate w home_dir ++ ["receiver"])%list.
Proof. unfold locate. apply resolve_join, plain_receiver. Qed.

(** X19: [setup_receiver_script] never overwrites a receiver that is there:
    for a known account, a receiver that is a regular file keeps its content
    and gets mode 0755; where there is none and the home directory exists,
    the template is written with mode 0755.  For an unknown account the
    function raises [KeyError] only after the file has been written and its
    mode set. *)
Theorem setup_receiver_script_keeps_existing
    (A : Admin) (home_dir git_user : string) (w : World) :
  glob_sound A ->
  let receiver := (locate w home_dir ++ ["receiver"])%list in
  (forall content m,
     FS.lookup receiver (fs w) = Some (FS.File content m) ->
     exists n,
       FS.lookup receiver n = Some (FS.File content 493) /\
       (is_Some (passwd w !! git_user) ->
        setup_receiver_script A home_dir git_user w = (Ok tt, set_fs n w)) /\
       (passwd w !! git_user = None ->
        setup_receiver_script A home_dir git_user w
        = (Raise (KeyError git_user), set_fs n w)))
  /\
  (FS.lookup receiver (fs w) = None ->
   FS.is_dir (locate w home_dir) (fs w) = true ->
   exists n,
     FS.lookup receiver n = Some (FS.File receiver_template 493) /\
     (is_Some (passwd w !! git_user) ->
      setup_receiver_script A home_dir git_user w = (Ok tt, set_fs n w)) /\
     (passwd w !! git_user = None ->
      setup_receiver_script A home_dir git_user w
      = (Raise (KeyError git_user), set_fs n w))).
Proof.
  intros Hg receiver.
  assert (Hne : PyStr.is_empty (PyStr.path_join home_dir "receiver") = false)
    by (apply is_empty_path_join; reflexivity).
  assert (Hfinish : forall n,
            (is_Some (passwd w !! git_user) ->
             chown A (PyStr.path_join home_dir "receiver") git_user (set_fs n w)
             = (Ok tt, set_fs n w)) /\
            (passwd w !! git_user = None ->
             chown A (PyStr.path_join home_dir "receiver") git_user (set_fs n w)
             = (Raise (KeyError git_user), set_fs n w))).
  { intros n. split.
    - intros [h Hp]. apply (chown_known A _ _ _ h Hg). exact Hp.
    - intros Hp. apply chown_unknown. exact Hp. }
  split.
  - intros content m Hl.
    destruct (alter_present (FS.set_mode 493) _ _ _ (FS.File content 493) Hl eq_refl)
      as (n & Ha & Hn).
    exists n. split; [exact Hn|].
    assert (Hrun : setup_receiver_script A home_dir git_user w
                   = chown A (PyStr.path_join home_dir "receiver") git_user
                       (set_fs n w)).
    { unfold setup_receiver_script. cbv zeta.
      assert (Hpe : path_exists (PyStr.path_join home_dir "receiver") w = (Ok true, w)).
      { unfold path_exists. rewrite (present_join _ _ _ plain_receiver).
        unfold FS.exists_. fold receiver. rewrite Hl. reflexivity. }
      rewrite (bind_ok _ _ _ _ _ Hpe). cbn [negb].
      rewrite (bind_ok (mret tt) _ w tt w eq_refl).
      assert (Hch : chmod (PyStr.path_join home_dir "receiver") 493 w
                    = (Ok tt, set_fs n w)).
      { unfold chmod, fs_op. rewrite Hne, locate_receiver. fold receiver.
        rewrite Ha. reflexivity. }
      rewrite (bind_ok _ _ _ _ _ Hch). reflexivity. }
    rewrite Hrun. apply Hfinish.
  - intros Hl Hd.
    destruct (alter_create (FS.put_file receiver_template) _ "receiver" _
                (FS.File receiver_template 420) Hd Hl eq_refl) as (n1 & Ha1 & Hn1).
    destruct (alter_present (FS.set_mode 493) _ _ _
                (FS.File receiver_template 493) Hn1 eq_refl) as (n & Ha & Hn).
    exists n. split; [exact Hn|].
    assert (Hrun : setup_receiver_script A home_dir git_user w
                   = chown A (PyStr.path_join home_dir "receiver") git_user
                       (set_fs n w)).
    { unfold setup_receiver_script. cbv zeta.
      assert (Hpe : path_exists (PyStr.path_join home_dir "receiver") w = (Ok false, w)).
      { unfold path_exists. rewrite (present_join _ _ _ plain_receiver).
        unfold FS.exists_. fold receiver. rewrite Hl. reflexivity. }
      rewrite (bind_ok _ _ _ _ _ Hpe). cbn [negb].
      assert (Hwr : write_file (PyStr.path_join home_dir "receiver") receiver_template w
                    = (Ok tt, set_fs n1 w)).
      { unfold write_file, fs_op. rewrite Hne, locate_receiver.
        rewrite Ha1. reflexivity. }
      rewrite (bind_ok _ _ _ _ _ Hwr).
      assert (Hch : chmod (PyStr.path_join home_dir "receiver") 493 (set_fs n1 w)
                    = (Ok tt, set_fs n w)).
      { unfold chmod, fs_op. rewrite Hne.
        change (locate (set_fs n1 w) (PyStr.path_join home_dir "receiver"))
          with (locate w (PyStr.path_join home_dir "receiver")).
        rewrite locate_receiver. simpl fs.
        rewrite Ha. reflexivity. }
      rewrite (bind_ok _ _ _ _ _ Hch). reflexivity. }
    rewrite Hrun. apply Hfinish.
Qed.

Lemma host_glob_sound : glob_sound HostAdmin.admin.
Proof.
  intros e w. simpl. unfold HostAdmin.glob.
  destruct (negb (PyStr.is_empty e) && FS.exists_ (locate w e) (fs w))%bool eqn:H;
    repeat constructor. exact H.
Qed.

Lemma setup_receiver_script_keeps_existing_witness :
  let custom := FS.Dir [("home", FS.Dir [("git",
                  FS.Dir [("receiver", FS.File "#!/bin/sh deploy" 420)])])] in
  let w := mkWorld "/usr/bin/gitreceive" custom ∅ []
                   (list_to_map [("git", "/home/git")]) "" [] [] in
  exists n,
    setup_receiver_script HostAdmin.admin "/home/git" "git" w = (Ok tt, set_fs n w) /\
    FS.lookup ["home"; "git"; "receiver"] n = Some (FS.File "#!/bin/sh deploy" 493).
Proof.
  intros custom w.
  destruct (setup_receiver_script_keeps_existing HostAdmin.admin "/home/git" "git" w
              host_glob_sound) as [Hkeep _].
  destruct (Hkeep "#!/bin/sh deploy" 420%Z eq_refl) as (n & Hl & Hok & _).
  exists n. split; [|exact Hl].
  apply Hok. eexists. vm_compute. reflexivity.
Defined.

(** ** The account and its key store *)

Lemma try_except_inv {A0} (m h : M A0) w a w' :
  try_except m h w = (Ok a, w') ->
  m w = (Ok a, w') \/ exists e w1, m w = (Raise e, w1) /\ h w1 = (Ok a, w').
Proof.
  unfold try_except. destruct (m w) as [[x|e] w1]; intros H.
  - left. exact H.
  - right. exists e, w1. split; [reflexivity|exact H].
Qed.

Lemma touch_inv filename w w' :
  touch filename w = (Ok tt, w') ->
  FS.exists_ (locate w filename) (fs w') = true /\ w' = set_fs (fs w') w.
Proof.
  intros H. apply try_except_inv in H as [H|(e & w1 & Hu & H)].
  - unfold os_utime in H.
    destruct (negb (PyStr.is_empty filename)
              && FS.exists_ (locate w filename) (fs w))%bool eqn:Hx; [|discriminate].
    injection H as <-. apply andb_true_iff in Hx as [_ Hx].
    split; [exact Hx|symmetry; apply set_fs_same].
  - unfold os_utime in Hu.
    destruct (negb (PyStr.is_empty filename)
              && FS.exists_ (locate w filename) (fs w))%bool; [discriminate|].
    injection Hu as _ <-.
    apply fs_op_inv in H as (n & Ha & ->).
    apply alter_lookup in Ha as (x & _ & Hl).
    split; [|reflexivity]. unfold FS.exists_. simpl fs. rewrite Hl. reflexivity.
Qed.

Lemma setup_git_user_inv A home_dir git_user w w' :
  setup_git_user A home_dir git_user w = (Ok tt, w') ->
  FS.exists_ (locate w' (key_store home_dir)) (fs w') = true /\
  is_Some (passwd w' !! git_user).
Proof.
  intros H. unfold setup_git_user in H.
  bind_step H u1 w1 H1. bind_step H u2 w2 H2. bind_step H u3 w3 H3.
  destruct u3. apply touch_inv in H3 as [Hx Hw3].
  apply chown_inv in H as [-> Hp].
  split; [|exact Hp].
  fold (key_store home_dir) in Hx.
  unfold locate in Hx |- *. rewrite Hw3. simpl. exact Hx.
Qed.

(** X20: when [setup_git_user] returns, the key store of the home
    directory exists and the account is known, whatever [useradd] and
    [os.makedirs] did; when the account is still unknown after [useradd],
    the function does not return but raises. *)
Theorem setup_git_user_leaves_key_store
    (A : Admin) (home_dir git_user : string) (w w' : World) (r : result unit) :
  setup_git_user A home_dir git_user w = (r, w') ->
  (r = Ok tt ->
   FS.exists_ (locate w' (key_store home_dir)) (fs w') = true /\
   is_Some (passwd w' !! git_user)) /\
  (passwd w' !! git_user = None -> r <> Ok tt).
Proof.
  intros H.
  assert (Hok : r = Ok tt ->
                FS.exists_ (locate w' (key_store home_dir)) (fs w') = true /\
                is_Some (passwd w' !! git_user)).
  { intros ->. exact (setup_git_user_inv _ _ _ _ _ H). }
  split; [exact Hok|].
  intros Hp ->. destruct (Hok eq_refl) as [_ [h Hh]]. congruence.
Qed.

Lemma setup_git_user_leaves_key_store_witness :
  let w' := (setup_git_user HostAdmin.admin "/home/git" "git" HostAdmin.fresh).2 in
  FS.exists_ (locate w' (key_store "/home/git")) (fs w') = true /\
  is_Some (passwd w' !! "git").
Proof.
  intros w'.
  destruct (setup_git_user_leaves_key_store HostAdmin.admin "/home/git" "git"
              HostAdmin.fresh w' (Ok tt) ltac:(vm_compute; reflexivity)) as [H _].
  exact (H eq_refl).
Defined.

Lemma setup_receiver_script_frame A home_dir git_user w r w' :
  setup_receiver_script A home_dir git_user w = (r, w') ->
  r = Ok tt ->
  is_Some (FS.lookup (locate w home_dir ++ ["receiver"])%list (fs w')) /\
  passwd w' = passwd w /\ cwd w' = cwd w /\ stdout w' = stdout w /\
  forall q, (forall t, q <> (locate w home_dir ++ ["receiver"]) ++ t)%list ->
            (forall t, (locate w home_dir ++ ["receiver"])%list <> (q ++ t)%list) ->
            FS.lookup q (fs w') = FS.lookup q (fs w).
Proof.
  intros H ->. unfold setup_receiver_script in H. cbv zeta in H.
  bind_step H there w1 Hp. unfold path_exists in Hp. injection Hp as Hp <-.
  bind_step H u2 w2 H2. destruct u2.
  bind_step H u3 w3 H3. destruct u3.
  apply chown_inv in H as [-> _].
  apply fs_op_inv in H3 as (n3 & Ha3 & ->).
  assert (Hw2 : exists n2, w2 = set_fs n2 w /\
            forall q, (forall t, q <> (locate w home_dir ++ ["receiver"]) ++ t)%list ->
                      (forall t, (locate w home_dir ++ ["receiver"])%list <> (q ++ t)%list) ->
                      FS.lookup q n2 = FS.lookup q (fs w)).
  { destruct (negb there).
    - apply fs_op_inv in H2 as (n2 & Ha2 & ->). exists n2. split; [reflexivity|].
      rewrite locate_receiver in Ha2.
      intros q Hq Hq'. apply (alter_frame _ _ _ _ _ Ha2 Hq Hq').
    - injection H2 as <-. exists (fs w). split; [symmetry; apply set_fs_same|].
      reflexivity. }
  destruct Hw2 as (n2 & -> & Hframe).
  change (locate (set_fs n2 w) (PyStr.path_join home_dir "receiver"))
    with (locate w (PyStr.path_join home_dir "receiver")) in Ha3.
  rewrite locate_receiver in Ha3. simpl fs in Ha3.
  split.
  - apply alter_lookup in Ha3 as (x & _ & Hl). simpl fs. rewrite Hl. eauto.
  - split; [reflexivity|]. split; [reflexivity|]. split; [reflexivity|].
    intros q Hq Hq'. simpl fs.
    rewrite (alter_frame _ _ _ _ _ Ha3 Hq Hq'). apply Hframe; assumption.
Qed.

Lemma plain_dot_ssh : plain ".ssh".
Proof. repeat split. Qed.

Lemma plain_authorized_keys : plain "authorized_keys".
Proof. repeat split. Qed.

Lemma locate_key_store w home_dir :
  locate w (key_store home_dir)
  = (locate w home_dir ++ [".ssh"; "authorized_keys"])%list.
Proof.
  unfold locate, key_store.
  rewrite (resolve_join _ _ _ plain_authorized_keys),
          (resolve_join _ _ _ plain_dot_ssh), <- app_assoc.
  reflexivity.
Qed.

(** X21: [init] with the provisioning steps of the script.  When it
    returns, the account is known, the key store and the receiver exist, and
    the last thing printed is the message naming the home directory and the
    account.  When it raises, it is a provisioning step that raised, and
    [init] stops in the world that step left, the message unprinted. *)
Theorem init_provisions
    (E : Externals) (A : Admin) (argv : list string)
    (git_user home_dir : string) (w w' : World) (r : result retval) :
  provision E = provisioning A ->
  init E argv git_user home_dir w = (r, w') ->
  (forall v, r = Ok v ->
     v = RNone /\
     is_Some (passwd w' !! git_user) /\
     FS.exists_ (locate w' (key_store home_dir)) (fs w') = true /\
     FS.exists_ (locate w' (PyStr.path_join home_dir "receiver")) (fs w') = true /\
     last (stdout w')
       = Some ("Created receiver script in " ++ home_dir ++ " for user '"
                 ++ git_user ++ "'.")) /\
  (forall e, r = Raise e ->
     provisioning A home_dir git_user w = (Raise e, w')).
Proof.
  intros HE H. unfold init in H. rewrite HE in H. split.
  - intros v ->.
    bind_step H u1 w1 H1. destruct u1.
    bind_step H u2 w2 H2. unfold print in H2. injection H2 as _ <-.
    injection H as <- <-.
    split; [reflexivity|].
    unfold provisioning in H1.
    bind_step H1 u3 w3 H3. destruct u3.
    destruct (setup_git_user_inv A home_dir git_user w w3 H3) as [Hks Hacc].
    destruct (setup_receiver_script_frame _ _ _ _ _ _ H1 eq_refl)
      as (Hrec & Hpw & Hcwd & _ & Hframe).
    assert (Hloc : forall p, locate (add_stdout
                     ("Created receiver script in " ++ home_dir ++ " for user '"
                        ++ git_user ++ "'.") w1) p = locate w3 p)
      by (intros p; unfold locate; simpl; rewrite Hcwd; reflexivity).
    simpl passwd. simpl fs. rewrite !Hloc.
    split; [rewrite Hpw; exact Hacc|]. split; [|split].
    + unfold FS.exists_ in Hks |- *. rewrite Hframe; [exact Hks| |];
        rewrite locate_key_store; intros t Ht.
      * rewrite <- !app_assoc in Ht. apply app_inv_head in Ht. discriminate.
      * rewrite <- !app_assoc in Ht. apply app_inv_head in Ht. discriminate.
    + unfold FS.exists_. rewrite locate_receiver.
      destruct Hrec as [x ->]. reflexivity.
    + simpl stdout. apply last_snoc.
  - intros e ->. unfold mbind, M_bind in H.
    destruct (provisioning A home_dir git_user w) as [[u|e1] w1].
    + unfold print in H. discriminate H.
    + injection H as <- <-. reflexivity.
Qed.

Lemma init_provisions_witness :
  let w' := (init HostAdmin.externals ["gitreceive"; "init"] "git" "/home/git"
                  HostAdmin.fresh).2 in
  is_Some (passwd w' !! "git") /\
  FS.exists_ ["home"; "git"; ".ssh"; "authorized_keys"] (fs w') = true /\
  FS.exists_ ["home"; "git"; "receiver"] (fs w') = true /\
  last (stdout w') = Some "Created receiver script in /home/git for user 'git'.".
Proof.
  intros w'.
  destruct (init_provisions HostAdmin.externals HostAdmin.admin
              ["gitreceive"; "init"] "git" "/home/git" HostAdmin.fresh w' (Ok RNone)
              eq_refl ltac:(vm_compute; reflexivity)) as [Hok _].
  destruct (Hok RNone eq_refl) as (_ & Hacc & Hks & Hrec & Hout).
  split; [exact Hacc|]. split; [exact Hks|]. split; [exact Hrec|exact Hout].
Defined.

(** ** Changing the owner *)

(** X22: [chown] looks the account up before it expands the pattern: for an
    unknown account it raises [KeyError] whatever the pattern matches, and it
    returns only for a known account.  In every outcome the file tree, the
    accounts, the environment and the output are as before. *)
Theorem chown_account_first
    (A : Admin) (glob_expression username : string) (w w' : World)
    (r : result unit) :
  chown A glob_expression username w = (r, w') ->
  w' = w /\
  (passwd w !! username = None -> r = Raise (KeyError username)) /\
  (r = Ok tt -> is_Some (passwd w !! username)).
Proof.
  intros H. split; [|split].
  - unfold chown in H. unfold mbind, M_bind, getpwnam_uid in H.
    destruct (passwd w !! username).
    + unfold glob_glob in H. eapply chown_files_frame, H.
    + injection H as _ <-. reflexivity.
  - intros Hp. rewrite (chown_unknown A _ _ _ Hp) in H. congruence.
  - intros ->. apply chown_inv in H as [_ Hs]. exact Hs.
Qed.

Lemma chown_account_first_witness :
  let w := HostAdmin.fresh in
  chown HostAdmin.admin "/home" "git" w = (Raise (KeyError "git"), w).
Proof.
  intros w.
  destruct (chown_account_first HostAdmin.admin "/home" "git" w
              (chown HostAdmin.admin "/home" "git" w).2
              (chown HostAdmin.admin "/home" "git" w).1
              ltac:(vm_compute; reflexivity)) as (Hw & Hr & _).
  rewrite (surjective_pairing (chown HostAdmin.admin "/home" "git" w)),
          Hw, (Hr eq_refl).
  reflexivity.
Defined.
